(** * bfrvc model downloader: [bfrvc/unit/tools/model_download.py]

    A shallow embedding of the download / extract / normalise pipeline and
    the properties of its specification.

    Python [str] values are Rocq strings, directories are finite maps from
    entry names to nodes, and every call that can raise returns an
    [outcome].  The HTTP transport, the archive decoder, [gdown], the HTML
    parser and the working directory are external collaborators: their
    answers are supplied by an [env] record, so every function below
    computes. *)

From Stdlib Require Import Ascii String.
From stdpp Require Import gmap strings list fin_maps pretty.

Open Scope string_scope.

(** ** Exceptions and outcomes *)

(** The exception classes that the module raises itself or that the
    modelled library calls raise.  All of them derive from Python's
    [Exception], which is what the [except Exception] clauses catch. *)
Inductive exn : Type :=
  | IndexError
  | ValueError (msg : string)
  | ShutilError (msg : string)
  | NotADirectoryError (path : string)
  | FileExistsError (path : string)
  | FileNotFoundError (path : string)
  | IsADirectoryError (path : string)
  | OSError (msg : string).

Inductive outcome (A : Type) : Type :=
  | Return (a : A)
  | Raise (e : exn).
Arguments Return {A} a.
Arguments Raise {A} e.

(** [str(error)], as interpolated in the log lines. *)
Definition exn_str (e : exn) : string :=
  match e with
  | IndexError => "list index out of range"
  | ValueError msg => msg
  | ShutilError msg => msg
  | NotADirectoryError p => "[Errno 20] Not a directory: '" +:+ p +:+ "'"
  | FileExistsError p => "[Errno 17] File exists: '" +:+ p +:+ "'"
  | FileNotFoundError p => "[Errno 2] No such file or directory: '" +:+ p +:+ "'"
  | IsADirectoryError p => "[Errno 21] Is a directory: '" +:+ p +:+ "'"
  | OSError msg => msg
  end.

(** ** Python string operations *)

(** [s.startswith(p)] *)
Fixpoint str_startswith (p s : string) : bool :=
  match p, s with
  | EmptyString, _ => true
  | String a p', String b s' => if decide (a = b) then str_startswith p' s' else false
  | String _ _, EmptyString => false
  end.

(** [sub in s] *)
Fixpoint str_in (sub s : string) : bool :=
  str_startswith sub s ||
  match s with
  | EmptyString => false
  | String _ s' => str_in sub s'
  end.

Fixpoint str_drop (n : nat) (s : string) : string :=
  match n, s with
  | O, _ => s
  | S n', String _ s' => str_drop n' s'
  | S _, EmptyString => EmptyString
  end.

(** [s.endswith(p)] *)
Definition str_endswith (p s : string) : bool :=
  bool_decide (str_drop (String.length s - String.length p) s = p).

(** [s.split(sep)] for a non-empty separator: the pieces between the
    non-overlapping occurrences of [sep], scanned from the left.
    [split_go sep skip s] returns the piece in progress and the pieces
    after it; [skip] counts the characters of a matched separator that are
    still to be passed over. *)
Fixpoint split_go (sep : string) (skip : nat) (s : string) : string * list string :=
  match s with
  | EmptyString => (EmptyString, [])
  | String c s' =>
      match skip with
      | S k => split_go sep k s'
      | O =>
          if str_startswith sep s
          then let '(p, ps) := split_go sep (String.length sep - 1) s' in
               (EmptyString, p :: ps)
          else let '(p, ps) := split_go sep 0 s' in
               (String c p, ps)
      end
  end.

(** Python raises [ValueError] on an empty separator; every separator of
    this module is a non-empty literal. *)
Definition str_split (sep s : string) : list string :=
  let '(p, ps) := split_go sep 0 s in p :: ps.

(** [s.replace(old, new)] for a non-empty [old]: every non-overlapping
    occurrence, scanned from the left, is replaced (no [count] argument
    is given anywhere in the module). *)
Fixpoint replace_go (old new : string) (skip : nat) (s : string) : string :=
  match s with
  | EmptyString => EmptyString
  | String c s' =>
      match skip with
      | S k => replace_go old new k s'
      | O =>
          if str_startswith old s
          then new +:+ replace_go old new (String.length old - 1) s'
          else String c (replace_go old new 0 s')
      end
  end.

Definition str_replace (old new s : string) : string := replace_go old new 0 s.

(** [sep.join(pieces)] *)
Fixpoint str_join (sep : string) (pieces : list string) : string :=
  match pieces with
  | [] => EmptyString
  | [p] => p
  | p :: ps => p +:+ sep +:+ str_join sep ps
  end.

(** [l[i]], which raises [IndexError] out of range. *)
Definition list_index {A} (l : list A) (i : nat) : outcome A :=
  match l !! i with
  | Some x => Return x
  | None => Raise IndexError
  end.

(** The first occurrence of [sep] in [s]: the text before it and the text
    after it.  Used to state what [str_split] and [str_replace] compute. *)
Fixpoint str_partition (sep s : string) : option (string * string) :=
  if str_startswith sep s then Some (EmptyString, str_drop (String.length sep) s)
  else match s with
       | EmptyString => None
       | String c s' =>
           match str_partition sep s' with
           | Some (b, a) => Some (String c b, a)
           | None => None
           end
       end.

(** The text of [s] before the first occurrence of [sep], all of [s]
    when there is none: [s.split(sep)[0]]. *)
Definition str_before (sep s : string) : string :=
  match str_partition sep s with
  | Some (b, _) => b
  | None => s
  end.

(** ** Google Drive identifiers (lines 87-101) *)

Definition extract_google_drive_id (url : string) : outcome (option string) :=
  if str_in "file/d/" url then
    match list_index (str_split "file/d/" url) 1 with
    | Return piece =>
        match list_index (str_split "/" piece) 0 with
        | Return id => Return (Some id)
        | Raise e => Raise e
        end
    | Raise e => Raise e
    end
  else if str_in "id=" url then
    match list_index (str_split "id=" url) 1 with
    | Return piece =>
        match list_index (str_split "&" piece) 0 with
        | Return id => Return (Some id)
        | Raise e => Raise e
        end
    | Raise e => Raise e
    end
  else Return None.

(** ** Paths (POSIX) *)

(** [os.path.sep] *)
Definition os_path_sep : string := "/".

(** [os.path.join(a, b)] *)
Definition os_path_join (a b : string) : string :=
  if str_startswith "/" b then b
  else if bool_decide (a = "") || str_endswith "/" a then a +:+ b
  else a +:+ "/" +:+ b.

(** [os.path.splitext(p)]: the extension starts at the last dot of the
    last path component, unless that component has only leading dots
    before it.  [splitext_go seen_other p] scans one component from
    the left; [seen_other] records that a character other than a dot was
    passed. *)
Fixpoint splitext_go (seen_other : bool) (p : string) : string * string :=
  match p with
  | EmptyString => (EmptyString, EmptyString)
  | String c p' =>
      let '(root, ext) := splitext_go (seen_other || negb (bool_decide (c = "."%char))) p' in
      if bool_decide (c = "."%char) && seen_other && negb (str_in "." p')
      then (EmptyString, p)
      else (String c root, ext)
  end.

Definition os_path_splitext (p : string) : string * string :=
  match str_partition "/" (String.rev p) with
  | Some (rcomp, rdir) =>
      let '(root, ext) := splitext_go false (String.rev rcomp) in
      (String.rev rdir +:+ "/" +:+ root, ext)
  | None => splitext_go false p
  end.

(** ** The file system, the log and the outside world *)

(** A directory entry: a regular file with its bytes, or a directory. *)
#[warnings="-register-all"]
Inductive node : Type :=
  | File (data : string)
  | Dir (entries : gmap string node).

Definition is_dir (o : option node) : bool :=
  match o with Some (Dir _) => true | _ => false end.

Definition is_file (o : option node) : bool :=
  match o with Some (File _) => true | _ => false end.

(** An HTTP response as the module reads it: [status_code], the two
    headers it looks up, [content], and the chunks that [iter_content]
    yields, after which the stream may fail. *)
Record response : Type := Response {
  status_code : Z;
  content_disposition : option string;
  content_length : option string;
  content : string;
  chunks : list string;
  stream_error : option exn
}.

(** What the fetch stage can see and change: the working directory, the
    entries of the staging directory [zips_path], and the lines logged. *)
Record world : Type := World {
  cwd : string;
  zips : gmap string node;
  log_lines : list string
}.

(** Computations that read and update a state [S] and return or raise.
    The state survives an exception, as the file system does. *)
Definition M (S A : Type) : Type := S -> outcome A * S.

Definition ret {S A} (a : A) : M S A := fun s => (Return a, s).
Definition raise {S A} (e : exn) : M S A := fun s => (Raise e, s).
Definition bind {S A B} (m : M S A) (k : A -> M S B) : M S B :=
  fun s => match m s with
           | (Return a, s') => k a s'
           | (Raise e, s') => (Raise e, s')
           end.
Definition lift {S A} (o : outcome A) : M S A := fun s => (o, s).
Definition get_state {S} : M S S := fun s => (Return s, s).
Definition modify {S} (f : S -> S) : M S unit := fun s => (Return tt, f s).

Notation "'let*' x ':=' m 'in' k" := (bind m (fun x => k))
  (at level 10, x pattern, m at level 100, k at level 200).
Notation "'run' m 'then' k" := (bind m (fun _ => k))
  (at level 10, m at level 100, k at level 200).

(** [try: body except Exception as error: handler error] *)
Definition try_except {S A} (body : M S A) (handler : exn -> M S A) : M S A :=
  fun s => match body s with
           | (Return a, s') => (Return a, s')
           | (Raise e, s') => handler e s'
           end.

(** [try: body finally: fin]: [fin] runs whatever [body] did, and an
    exception of [fin] replaces the result of [body]. *)
Definition try_finally {S A} (body : M S A) (fin : M S unit) : M S A :=
  fun s => let '(r, s') := body s in
           match fin s' with
           | (Return _, s'') => (r, s'')
           | (Raise e, s'') => (Raise e, s'')
           end.

(** [for x in l: body x] *)
Fixpoint for_each {S A} (l : list A) (body : A -> M S unit) : M S unit :=
  match l with
  | [] => ret tt
  | x :: l' => run body x then for_each l' body
  end.

(** The external collaborators of the fetch and extraction stages.
    [base_path] is the expanded [~/.bfrvc]; the [_error] fields let a
    system call fail; the rest are the libraries the module imports. *)
Record env : Type := Env {
  base_path : string;
  getcwd_error : world -> option exn;
  chdir_error : string -> world -> option exn;
  open_error : string -> world -> option exn;
  os_walk : string -> world -> list (string * list string);
  os_rename : string -> string -> M world unit;
  requests_get : string -> world -> outcome response;
  gdown_download : string -> M world unit;
  anchor_hrefs : string -> outcome (list string);
  unquote : string -> string;
  py_int : string -> outcome Z;
  zip_open_error : string -> option exn;
  zip_extractall : string -> string -> option node -> outcome unit * option node;
  remove_error : string -> option exn
}.

Definition logs_path (E : env) : string := os_path_join (base_path E) "logs".
Definition zips_path (E : env) : string := os_path_join (logs_path E) "zips".

(** States that carry the log of the [logging] module. *)
Class Logging (S : Type) : Type := log_append : string -> S -> S.

#[global] Instance world_logging : Logging world :=
  fun line w => World (cwd w) (zips w) (log_lines w ++ [line])%list.

#[global] Instance lines_logging : Logging (list string) :=
  fun line l => (l ++ [line])%list.

(** [logging.error(msg)]: the line of the log, without its time stamp. *)
Definition logging_error {S} `{Logging S} (msg : string) : M S unit :=
  modify (log_append ("ERROR - " +:+ msg)).

Definition os_getcwd (E : env) : M world string :=
  fun w => match getcwd_error E w with
           | Some e => (Raise e, w)
           | None => (Return (cwd w), w)
           end.

Definition os_chdir (E : env) (path : string) : M world unit :=
  fun w => match chdir_error E path w with
           | Some e => (Raise e, w)
           | None => (Return tt, World path (zips w) (log_lines w))
           end.

(** [os.listdir] of a directory with entries [d]; [order] is the order
    in which the system enumerates a set of names. *)
Definition os_listdir {A} (order : list string -> list string)
    (d : gmap string A) : list string :=
  order (map_to_list d).*1.

(** ** Fetching (lines 49-189) *)

(** [if x:] on a value that is [None] or a string. *)
Definition truthy (o : option string) : bool :=
  match o with
  | Some s => negb (bool_decide (s = ""))
  | None => false
  end.

(** The rewriting of line 113-114. *)
Definition blob_to_resolve (url : string) : string :=
  if str_in "/blob/" url then str_replace "/blob/" "/resolve/" url else url.

Definition dquote : ascii := "034"%char.

(** The literal that opens the pattern: [filename=] and a double quote. *)
Definition filename_open : string := "filename=" +:+ String dquote "".

(** The longest prefix of [s] without a double quote, and what follows. *)
Fixpoint span_unquoted (s : string) : string * string :=
  match s with
  | EmptyString => (EmptyString, EmptyString)
  | String c s' =>
      if bool_decide (c = dquote) then (EmptyString, s)
      else let '(a, b) := span_unquoted s' in (String c a, b)
  end.

(** The pattern of line 130 (the literal, a group of one or more
    characters other than a double quote, a double quote) matched at the
    start of [s]: the class is greedy and cannot consume a quote, so the
    group is the whole run of characters up to the next quote, which must
    be there. *)
Definition match_filename (s : string) : option string :=
  if str_startswith filename_open s then
    let '(name, rest) := span_unquoted (str_drop (String.length filename_open) s) in
    if negb (bool_decide (name = "")) && str_startswith (String dquote "") rest
    then Some name else None
  else None.

(** [re.search] of that pattern in [s], with [.group(1)] of the leftmost
    match. *)
Fixpoint re_search_filename (s : string) : option string :=
  match match_filename s with
  | Some name => Some name
  | None =>
      match s with
      | EmptyString => None
      | String _ s' => re_search_filename s'
      end
  end.

(** The name under which a response is saved (lines 128-135). *)
Definition saved_file_name (E : env) (r : response) : string :=
  let content_disposition := unquote E (default "" (content_disposition r)) in
  match (if negb (bool_decide (content_disposition = ""))
         then re_search_filename content_disposition else None) with
  | Some name => str_replace os_path_sep "_" name
  | None => "downloaded_file"
  end.

(** [open(os.path.join(zips_path, name), 'wb')]: [name] holds no
    separator, so it names an entry of the staging directory, which is
    created or truncated. *)
Definition open_wb (E : env) (name : string) : M world unit :=
  fun w =>
    let path := os_path_join (zips_path E) name in
    if bool_decide (name = ".") || bool_decide (name = "..") || is_dir (zips w !! name)
    then (Raise (IsADirectoryError path), w)
    else match open_error E path w with
         | Some e => (Raise e, w)
         | None => (Return tt, World (cwd w) (<[name := File ""]> (zips w)) (log_lines w))
         end.

(** [file.write(data)] on the file opened under [name]. *)
Definition file_write (name data : string) : M world unit :=
  modify (fun w =>
    World (cwd w)
      (alter (fun n => match n with File old => File (old +:+ data) | Dir d => Dir d end)
             name (zips w))
      (log_lines w)).

Definition save_response_content (E : env) (r : response) : M world unit :=
  let file_name := saved_file_name E r in
  let* total_size :=
    lift (match content_length r with Some v => py_int E v | None => Return 0%Z end) in
  run open_wb E file_name then
  run for_each (chunks r) (fun data => file_write file_name data) then
  match stream_error r with
  | Some e => raise e
  | None => ret tt
  end.

Definition http_get (E : env) (url : string) : M world response :=
  fun w => (requests_get E url w, w).

Definition download_file (E : env) (url : string) : M world unit :=
  let* r := http_get E url in
  if bool_decide (status_code r = 200%Z) then save_response_content E r
  else raise (ValueError ("Download failed with status code: " +:+ pretty (status_code r))).

Definition download_blob_or_resolve (E : env) (url : string) : M world unit :=
  let url := blob_to_resolve url in
  let* r := http_get E url in
  if bool_decide (status_code r = 200%Z) then save_response_content E r
  else raise (ValueError ("Download failed with status code: " +:+ pretty (status_code r))).

Definition download_from_huggingface (E : env) (url : string) : M world unit :=
  let* r := http_get E url in
  let* hrefs := lift (anchor_hrefs E (content r)) in
  let temp_url := head (filter (fun h => str_endswith ".zip" h = true) hrefs) in
  if truthy temp_url then
    let url := str_replace "blob" "resolve" (default "" temp_url) in
    let url := if negb (str_in "huggingface.co" url)
               then "https://huggingface.co" +:+ url else url in
    download_file E url
  else raise (ValueError "No zip file found in Huggingface URL").

(** [os.walk] is read once; [os.rename] is left to the system. *)
Definition rename_downloaded_files (E : env) : M world unit :=
  let* w := get_state in
  for_each (os_walk E (zips_path E) w) (fun '(current_path, zip_files) =>
    for_each zip_files (fun file =>
      let '(file_name, extension) := os_path_splitext file in
      let real_path := os_path_join current_path file in
      let new_path :=
        os_path_join current_path (str_replace os_path_sep "_" file_name +:+ extension) in
      if bool_decide (real_path = new_path) then ret tt
      else os_rename E real_path new_path)).

(** The body of the [try] block of [download_from_url] (lines 61-80). *)
Definition download_from_url_body (E : env) (url : string) : M world (option string) :=
  run os_chdir E (zips_path E) then
  let finish := (run rename_downloaded_files E then ret (Some "downloaded")) in
  if str_in "drive.google.com" url then
    let* file_id := lift (extract_google_drive_id url) in
    if truthy file_id then
      run gdown_download E ("https://drive.google.com/uc?id=" +:+ default "" file_id)
      then finish
    else
      run logging_error "Invalid Google Drive URL" then ret None
  else if str_in "/blob/" url || str_in "/resolve/" url then
    run download_blob_or_resolve E url then finish
  else if str_in "/tree/main" url then
    run download_from_huggingface E url then finish
  else
    run download_file E url then finish.

Definition download_from_url (E : env) (url : string) : M world (option string) :=
  let* original_dir := os_getcwd E in
  try_finally
    (try_except
       (download_from_url_body E url)
       (fun error =>
          run logging_error ("An error occurred downloading the file: " +:+ exn_str error)
          then ret None))
    (os_chdir E original_dir).

(** A Google Drive URL from which no identifier, or an empty one, is
    read: the case of lines 71-72, in which the guarded block of
    [download_from_url] ends without a download. *)
Definition invalid_google_drive_url (url : string) : Prop :=
  str_in "drive.google.com" url = true
  /\ exists file_id, extract_google_drive_id url = Return file_id /\ truthy file_id = false.

(** ** Extraction (lines 203-221) *)

(** What [extract] touches: the node at [zipfile_path], the node at
    [unzips_path] (taken here as two separate places) and the log. *)
Record extraction : Type := Extraction {
  archive : option node;
  destination : option node;
  extraction_log : list string
}.

#[global] Instance extraction_logging : Logging extraction :=
  fun line x => Extraction (archive x) (destination x) (extraction_log x ++ [line])%list.

(** [zipfile.ZipFile(zipfile_path, 'r')]: the bytes of the archive. *)
Definition zip_open (E : env) (zipfile_path : string) : M extraction string :=
  fun x => match archive x with
           | None => (Raise (FileNotFoundError zipfile_path), x)
           | Some (Dir _) => (Raise (IsADirectoryError zipfile_path), x)
           | Some (File bytes) =>
               match zip_open_error E bytes with
               | Some e => (Raise e, x)
               | None => (Return bytes, x)
               end
           end.

(** [zip_ref.extractall(unzips_path)]: whatever the decoder does, it does
    to the destination, also when it fails half way. *)
Definition zip_extractall_to (E : env) (bytes unzips_path : string) : M extraction unit :=
  fun x => let '(r, dest) := zip_extractall E bytes unzips_path (destination x) in
           (r, Extraction (archive x) dest (extraction_log x)).

(** [os.remove(zipfile_path)] *)
Definition os_remove (E : env) (zipfile_path : string) : M extraction unit :=
  fun x => match archive x with
           | None => (Raise (FileNotFoundError zipfile_path), x)
           | Some (Dir _) => (Raise (IsADirectoryError zipfile_path), x)
           | Some (File _) =>
               match remove_error E zipfile_path with
               | Some e => (Raise e, x)
               | None => (Return tt, Extraction None (destination x) (extraction_log x))
               end
           end.

Definition extract (E : env) (zipfile_path unzips_path : string) : M extraction bool :=
  try_except
    (let* zip_ref := zip_open E zipfile_path in
     run zip_extractall_to E zip_ref unzips_path then
     run os_remove E zipfile_path then
     ret true)
    (fun error =>
       run logging_error ("An error occurred extracting the zip file: " +:+ exn_str error)
       then ret false).

(** ** Searching the artifacts (lines 23-47) *)

(** [at_folder] is what the file system holds at [folder]; the state is
    the log. *)
Definition search_pth_index (order : list string -> list string)
    (folder : string) (at_folder : option node)
    : M (list string) (list string * list string) :=
  match at_folder with
  | None =>
      run logging_error ("Folder not found: " +:+ folder) then ret ([], [])
  | Some (File _) => raise (NotADirectoryError folder)
  | Some (Dir d) =>
      let pth_paths :=
        os_path_join folder <$>
          filter (fun file => is_file (d !! file) && str_endswith ".pth" file = true)
                 (os_listdir order d) in
      let index_paths :=
        os_path_join folder <$>
          filter (fun file => is_file (d !! file) && str_endswith ".index" file = true)
                 (os_listdir order d) in
      ret (pth_paths, index_paths)
  end.

(** ** Normalising the layout (lines 286-322) *)

(** The state of these steps is the set of entries of
    [extract_folder_path], which [extractall] has just created.  Model
    names come from [format_title] and hold no separator, so
    [model_name + '.pth'] is the name of an entry. *)
Section Normalizer.

Variable order : list string -> list string.
Variable extract_folder_path : string.
Variable model_name : string.

(** Lines 294-296.  [os.path.exists] is true of a file as well, on
    which [shutil.rmtree] fails. *)
Definition remove_macosx : M (gmap string node) unit :=
  let macosx_path := os_path_join extract_folder_path "__MACOSX" in
  let* d := get_state in
  match d !! "__MACOSX" with
  | None => ret tt
  | Some (Dir _) => modify (delete "__MACOSX")
  | Some (File _) => raise (NotADirectoryError macosx_path)
  end.

(** [shutil.move(subfolder/item, extract_folder/item)].  A destination
    that is a directory receives the source inside it, unless it has an
    entry of that name already; a destination that is a file is replaced
    by a file ([os.rename]) and refuses a directory ([copytree] finds it
    in the way). *)
Definition shutil_move (sub item : string) : M (gmap string node) unit :=
  let subfolder_path := os_path_join extract_folder_path sub in
  let src_path := os_path_join subfolder_path item in
  let dst_path := os_path_join extract_folder_path item in
  let* d := get_state in
  match d !! sub with
  | Some (Dir sd) =>
      match sd !! item with
      | None => raise (FileNotFoundError src_path)
      | Some src =>
          match d !! item with
          | Some (Dir inside) =>
              match inside !! item with
              | Some _ =>
                  raise (ShutilError ("Destination path '" +:+ os_path_join dst_path item
                                        +:+ "' already exists"))
              | None =>
                  modify (fun d => <[item := Dir (<[item := src]> inside)]>
                                     (<[sub := Dir (delete item sd)]> d))
              end
          | Some (File _) =>
              match src with
              | File _ => modify (fun d => <[item := src]> (<[sub := Dir (delete item sd)]> d))
              | Dir _ => raise (FileExistsError dst_path)
              end
          | None => modify (fun d => <[item := src]> (<[sub := Dir (delete item sd)]> d))
          end
      end
  | _ => raise (FileNotFoundError src_path)
  end.

(** [os.rmdir(subfolder_path)] *)
Definition os_rmdir (sub : string) : M (gmap string node) unit :=
  let subfolder_path := os_path_join extract_folder_path sub in
  let* d := get_state in
  match d !! sub with
  | Some (Dir sd) =>
      if bool_decide (sd = ∅) then modify (delete sub)
      else raise (OSError ("[Errno 39] Directory not empty: '" +:+ subfolder_path +:+ "'"))
  | Some (File _) => raise (NotADirectoryError subfolder_path)
  | None => raise (FileNotFoundError subfolder_path)
  end.

(** Lines 298-310. *)
Definition hoist_single_subfolder : M (gmap string node) unit :=
  let* d := get_state in
  let subfolders := filter (fun f => is_dir (d !! f) = true) (os_listdir order d) in
  match subfolders with
  | [sub] =>
      let items := match d !! sub with
                   | Some (Dir sd) => os_listdir order sd
                   | _ => []
                   end in
      run for_each items (shutil_move sub) then
      os_rmdir sub
  | _ => ret tt
  end.

(** [os.rename(source_path, destination_path)] inside the directory,
    reached only when the destination does not exist. *)
Definition os_rename_entry (item new_file_name : string) : M (gmap string node) unit :=
  let* d := get_state in
  match d !! item with
  | Some n => modify (fun d => <[new_file_name := n]> (delete item d))
  | None => raise (FileNotFoundError (os_path_join extract_folder_path item))
  end.

(** Lines 314-319: the new name of an item, [None] for [continue]. *)
Definition rename_target (item : string) : option string :=
  if str_in ".pth" item then Some (model_name +:+ ".pth")
  else if str_in ".index" item then Some (model_name +:+ ".index")
  else None.

(** The body of the loop of lines 312-322. *)
Definition rename_item (item : string) : M (gmap string node) unit :=
  match rename_target item with
  | None => ret tt
  | Some new_file_name =>
      let* d := get_state in
      if bool_decide (is_Some (d !! new_file_name)) then ret tt
      else os_rename_entry item new_file_name
  end.

(** Lines 312-322. *)
Definition rename_artifacts : M (gmap string node) unit :=
  let* d := get_state in
  for_each (os_listdir order d) rename_item.

Definition clean_extracted_files : M (gmap string node) unit :=
  run remove_macosx then
  run hoist_single_subfolder then
  rename_artifacts.

(** What the loop of [rename_artifacts] can do to a directory while it
    goes through a list of items: leave an item whose destination is
    there (or that has none), or move it to its destination. *)
Inductive renamed : list string -> gmap string node -> gmap string node -> Prop :=
  | renamed_nil d : renamed [] d d
  | renamed_keep item l d d' :
      (forall new, rename_target item = Some new -> is_Some (d !! new)) ->
      renamed l d d' ->
      renamed (item :: l) d d'
  | renamed_move item l d new n d' :
      rename_target item = Some new ->
      d !! new = None ->
      d !! item = Some n ->
      renamed l (<[new := n]> (delete item d)) d' ->
      renamed (item :: l) d d'.

End Normalizer.

(** ** A concrete outside world

    Used to run the functions on examples.  [percent_decode] is
    [urllib.parse.unquote] on strings read as byte sequences: an escape
    [%XX] with two hexadecimal digits becomes the byte, anything else is
    kept (the library agrees wherever the decoded bytes are valid UTF-8,
    in particular on ASCII). *)

Definition hex_digit (c : ascii) : option N :=
  let n := N_of_ascii c in
  if (48 <=? n)%N && (n <=? 57)%N then Some (n - 48)%N
  else if (65 <=? n)%N && (n <=? 70)%N then Some (n - 55)%N
  else if (97 <=? n)%N && (n <=? 102)%N then Some (n - 87)%N
  else None.

Fixpoint percent_go (skip : nat) (s : string) : string :=
  match s with
  | EmptyString => EmptyString
  | String c s' =>
      match skip with
      | S k => percent_go k s'
      | O =>
          match (if bool_decide (c = "%"%char) then
                   match s' with
                   | String h (String l _) =>
                       match hex_digit h, hex_digit l with
                       | Some a, Some b => Some (ascii_of_N (16 * a + b))
                       | _, _ => None
                       end
                   | _ => None
                   end
                 else None) with
          | Some byte => String byte (percent_go 2 s')
          | None => String c (percent_go 0 s')
          end
      end
  end.

Definition percent_decode (s : string) : string := percent_go 0 s.

(** A world in which every system call succeeds, the network answers
    [r] to every request and changing to a directory fails as
    [chdir_err] says. *)
Definition test_env (r : outcome response) (chdir_err : string -> option exn) : env :=
  {| base_path := "/home/user/.bfrvc";
     getcwd_error := fun _ => None;
     chdir_error := fun p _ => chdir_err p;
     open_error := fun _ _ => None;
     os_walk := fun _ _ => [];
     os_rename := fun _ _ => ret tt;
     requests_get := fun _ _ => r;
     gdown_download := fun _ => ret tt;
     anchor_hrefs := fun _ => Return [];
     unquote := percent_decode;
     py_int := fun _ => Return 0%Z;
     zip_open_error := fun _ => None;
     zip_extractall := fun _ _ d => (Return tt, d);
     remove_error := fun _ => None |}.

(** The same world with another archive decoder. *)
Definition with_zip (E : env)
    (extractall : string -> string -> option node -> outcome unit * option node) : env :=
  {| base_path := base_path E;
     getcwd_error := getcwd_error E;
     chdir_error := chdir_error E;
     open_error := open_error E;
     os_walk := os_walk E;
     os_rename := os_rename E;
     requests_get := requests_get E;
     gdown_download := gdown_download E;
     anchor_hrefs := anchor_hrefs E;
     unquote := unquote E;
     py_int := py_int E;
     zip_open_error := zip_open_error E;
     zip_extractall := extractall;
     remove_error := remove_error E |}.

(** ** The whole pipeline (lines 223-284) *)

(** [logging.info(msg)] *)
Definition logging_info {S} `{Logging S} (msg : string) : M S unit :=
  modify (log_append ("INFO - " +:+ msg)).

(** [os.path.basename(p)]: the text after the last separator. *)
Definition os_path_basename (p : string) : string :=
  String.rev (str_before "/" (String.rev p)).

(** What [handle_extraction_process] and [model_download] return: the
    two lists of [search_pth_index], or the string [Error]. *)
Inductive model_paths : Type :=
  | Paths (pth_paths index_paths : list string)
  | ErrorString.

(** Lines 223-238.  The state is that of [extract]: the node at
    [zip_file_path], the node at [extract_path] and the log. *)
Definition unzip_file (E : env) (zip_path zip_file_name : string) : M extraction unit :=
  let zip_file_path := os_path_join zip_path (zip_file_name +:+ ".zip") in
  let extract_path := os_path_join (logs_path E) zip_file_name in
  let* x := get_state in
  if negb (bool_decide (is_Some (archive x))) then
    logging_error ("Zip file not found: " +:+ zip_file_path)
  else
    let* zip_ref := zip_open E zip_file_path in
    run zip_extractall_to E zip_ref extract_path then
    os_remove E zip_file_path.

(** *** One tree for the staging directory and the model directories *)

(** [handle_extraction_process] reads the staging directory and writes
    to [os.path.join(logs_path, model_name)], which is another directory
    for most model names, the staging directory itself for the name
    [zips], the directory that holds it for an empty name and the one
    above for [..].  Its state is therefore the whole tree of the file
    system, in which a path is followed name by name. *)

(** The node at a location, which is a list of names from the root. *)
Fixpoint tree_lookup (loc : list string) (n : node) : option node :=
  match loc with
  | [] => Some n
  | name :: loc' =>
      match n with
      | Dir d =>
          match d !! name with
          | Some n' => tree_lookup loc' n'
          | None => None
          end
      | File _ => None
      end
  end.

(** The entry at a location replaced by what [f] makes of it ([None]
    is an entry that does not exist).  Directories that are missing on
    the way are made when an entry is made below them, as [os.makedirs]
    does for [extractall]; a regular file on the way leaves the tree as
    it is. *)
Fixpoint tree_alter (f : option node -> option node) (loc : list string)
    (d : gmap string node) {struct loc} : gmap string node :=
  match loc with
  | [] => d
  | name :: loc' =>
      match loc' with
      | [] => partial_alter f name d
      | _ :: _ =>
          match d !! name with
          | Some (Dir d') => <[name := Dir (tree_alter f loc' d')]> d
          | Some (File _) => d
          | None =>
              let d' := tree_alter f loc' ∅ in
              if bool_decide (d' = ∅) then d else <[name := Dir d']> d
          end
      end
  end.

(** The same for a location that may be the root, which can only be
    given other entries. *)
Definition tree_write (loc : list string) (n : option node) (root : gmap string node)
    : gmap string node :=
  match loc with
  | [] => match n with Some (Dir d) => d | _ => root end
  | _ :: _ => tree_alter (fun _ => n) loc root
  end.

(** Path resolution without symbolic links.  [here] is the location
    reached, [names] are the names still to follow: an empty name and
    [.] stay, [..] goes up (the root is its own parent), any other name
    goes down.  A name is only followed from a directory; with [create]
    a location that does not exist yet counts as one. *)
Fixpoint walk (root : gmap string node) (path : string) (create : bool)
    (here names : list string) : outcome (list string) :=
  match names with
  | [] => Return here
  | name :: names' =>
      let next :=
        if bool_decide (name = "") || bool_decide (name = ".") then here
        else if bool_decide (name = "..") then removelast here
        else (here ++ [name])%list in
      match tree_lookup here (Dir root) with
      | Some (Dir _) => walk root path create next names'
      | Some (File _) => Raise (NotADirectoryError path)
      | None =>
          if create then walk root path create next names'
          else Raise (FileNotFoundError path)
      end
  end.

(** The state of the whole pipeline: the working directory, the entries
    of the root directory, and the lines logged. *)
Record pipeline : Type := Pipeline {
  working_directory : string;
  root : gmap string node;
  logged : list string
}.

#[global] Instance pipeline_logging : Logging pipeline :=
  fun line p => Pipeline (working_directory p) (root p) (logged p ++ [line])%list.

(** The path from the root: a relative path starts at the working
    directory. *)
Definition full_path (p : pipeline) (path : string) : string :=
  if str_startswith "/" path then path else working_directory p +:+ "/" +:+ path.

(** Where a path leads.  The entry named last need not exist. *)
Definition locate (p : pipeline) (path : string) (create : bool) : outcome (list string) :=
  if bool_decide (path = "") then Raise (FileNotFoundError path)
  else walk (root p) path create [] (str_split "/" (full_path p path)).

(** [os.stat(path)] *)
Definition os_stat (p : pipeline) (path : string) : outcome node :=
  match locate p path false with
  | Return loc =>
      match tree_lookup loc (Dir (root p)) with
      | Some n => Return n
      | None => Raise (FileNotFoundError path)
      end
  | Raise e => Raise e
  end.

(** What [os.path.exists], [isdir] and [isfile] see at a path. *)
Definition node_at (p : pipeline) (path : string) : option node :=
  match os_stat p path with
  | Return n => Some n
  | Raise _ => None
  end.

(** The node at a path set to [n], where the path leads somewhere. *)
Definition write_at (path : string) (n : option node) (p : pipeline) : pipeline :=
  match locate p path true with
  | Return loc => Pipeline (working_directory p) (tree_write loc n (root p)) (logged p)
  | Raise _ => p
  end.

(** [os.listdir(path)] *)
Definition os_listdir_at (order : list string -> list string) (path : string)
    : M pipeline (list string) :=
  fun p =>
    match os_stat p path with
    | Return (Dir d) => (Return (os_listdir order d), p)
    | Return (File _) => (Raise (NotADirectoryError path), p)
    | Raise e => (Raise e, p)
    end.

(** A step of the normaliser, run on the entries of the directory at
    [path].  The step asks whether something exists before it lists the
    directory, so that a path that leads to no directory shows when
    [os.listdir] raises. *)
Definition in_directory {A} (path : string) (m : M (gmap string node) A) : M pipeline A :=
  fun p =>
    match os_stat p path with
    | Return (Dir d) =>
        let '(r, d') := m d in (r, write_at path (Some (Dir d')) p)
    | Return (File _) => (Raise (NotADirectoryError path), p)
    | Raise e => (Raise e, p)
    end.

(** A computation that only logs, run in the pipeline. *)
Definition in_log {A} (m : M (list string) A) : M pipeline A :=
  fun p =>
    let '(r, l) := m (logged p) in
    (r, Pipeline (working_directory p) (root p) l).

(** [extract] (lines 203-221) on the tree, where the archive may lie in
    the directory that it is unpacked to. *)
Module Tree.

(** [zipfile.ZipFile(zipfile_path, 'r')] *)
Definition zip_open (E : env) (zipfile_path : string) : M pipeline string :=
  fun p =>
    match os_stat p zipfile_path with
    | Raise e => (Raise e, p)
    | Return (Dir _) => (Raise (IsADirectoryError zipfile_path), p)
    | Return (File bytes) =>
        match zip_open_error E bytes with
        | Some e => (Raise e, p)
        | None => (Return bytes, p)
        end
    end.

(** [zip_ref.extractall(unzips_path)] *)
Definition zip_extractall_to (E : env) (bytes unzips_path : string) : M pipeline unit :=
  fun p =>
    let '(r, dest) := zip_extractall E bytes unzips_path (node_at p unzips_path) in
    (r, write_at unzips_path dest p).

(** [os.remove(zipfile_path)] *)
Definition os_remove (E : env) (zipfile_path : string) : M pipeline unit :=
  fun p =>
    match os_stat p zipfile_path with
    | Raise e => (Raise e, p)
    | Return (Dir _) => (Raise (IsADirectoryError zipfile_path), p)
    | Return (File _) =>
        match remove_error E zipfile_path with
        | Some e => (Raise e, p)
        | None => (Return tt, write_at zipfile_path None p)
        end
    end.

Definition extract (E : env) (zipfile_path unzips_path : string) : M pipeline bool :=
  try_except
    (let* zip_ref := zip_open E zipfile_path in
     run zip_extractall_to E zip_ref unzips_path then
     run os_remove E zipfile_path then
     ret true)
    (fun error =>
       run logging_error ("An error occurred extracting the zip file: " +:+ exn_str error)
       then ret false).

End Tree.

(** The same world in which [os.chdir] to the staging directory fails
    with [e]. *)
Definition without_staging (E : env) (e : exn) : env :=
  {| base_path := base_path E;
     getcwd_error := getcwd_error E;
     chdir_error := fun path w =>
       if bool_decide (path = zips_path E) then Some e else chdir_error E path w;
     open_error := open_error E;
     os_walk := os_walk E;
     os_rename := os_rename E;
     requests_get := requests_get E;
     gdown_download := gdown_download E;
     anchor_hrefs := anchor_hrefs E;
     unquote := unquote E;
     py_int := py_int E;
     zip_open_error := zip_open_error E;
     zip_extractall := zip_extractall E;
     remove_error := remove_error E |}.

(** The fetch stage, run in the pipeline: its staging directory is the
    directory at [zips_path], which stays the one it writes to once it
    has entered it.  When there is no such directory, the [os.chdir]
    that opens the guarded block fails. *)
Definition in_world {A} (E : env) (m : env -> M world A) : M pipeline A :=
  fun p =>
    let no_staging e :=
      let '(r, w) := m (without_staging E e) (World (working_directory p) ∅ (logged p)) in
      (r, Pipeline (cwd w) (root p) (log_lines w)) in
    match locate p (zips_path E) false with
    | Return loc =>
        match tree_lookup loc (Dir (root p)) with
        | Some (Dir staging) =>
            let '(r, w) := m E (World (working_directory p) staging (logged p)) in
            (r, Pipeline (cwd w) (tree_write loc (Some (Dir (zips w))) (root p)) (log_lines w))
        | Some (File _) => no_staging (NotADirectoryError (zips_path E))
        | None => no_staging (FileNotFoundError (zips_path E))
        end
    | Raise e => no_staging e
    end.

Section Pipeline.

Variable E : env.
Variable order : list string -> list string.
(** [bfrvc.units.utils.format_title], which is not part of this file. *)
Variable format_title : string -> string.

(** [clean_extracted_files] on the tree (lines 294-321).  Each of its
    three steps starts from the path again, as the calls of
    [os.path.exists] and [os.listdir] do that open them; the steps are
    those of the normaliser above, for a model name without separator. *)
Definition clean_extracted_files_at (extract_folder_path model_name : string)
    : M pipeline unit :=
  run in_directory extract_folder_path (remove_macosx extract_folder_path) then
  run in_directory extract_folder_path (hoist_single_subfolder order extract_folder_path) then
  in_directory extract_folder_path (rename_artifacts order extract_folder_path model_name).

(** [search_pth_index] on the tree. *)
Definition search_pth_index_at (folder : string) : M pipeline (list string * list string) :=
  let* p := get_state in
  in_log (search_pth_index order folder (node_at p folder)).

(** Lines 270-280: the body of the loop for a name that ends in [.zip].
    Both branches return. *)
Definition handle_zip (filename : string) : M pipeline model_paths :=
  let zipfile_path := os_path_join (zips_path E) filename in
  let* base := lift (list_index (str_split ".zip" (os_path_basename zipfile_path)) 0) in
  let model_name := format_title base in
  let extract_folder_path := os_path_join (logs_path E) model_name in
  let* success := Tree.extract E zipfile_path extract_folder_path in
  if success : bool then
    run clean_extracted_files_at extract_folder_path model_name then
    run logging_info ("Model " +:+ model_name +:+ " downloaded!") then
    let* found := search_pth_index_at extract_folder_path in
    ret (Paths (fst found) (snd found))
  else
    run logging_error ("Error downloading " +:+ model_name) then
    ret ErrorString.

(** Lines 268-284: the loop over the listing of the staging directory
    and what follows it.  [extract_folder_path] is the variable of line
    267; an iteration that assigns it returns. *)
Fixpoint handle_extraction_loop (listing : list string) (extract_folder_path : string)
    : M pipeline model_paths :=
  match listing with
  | filename :: listing' =>
      if str_endswith ".zip" filename then handle_zip filename
      else handle_extraction_loop listing' extract_folder_path
  | [] =>
      if bool_decide (extract_folder_path = "") then
        run logging_error "Zip file was not found." then
        ret ErrorString
      else
        let* found := search_pth_index_at extract_folder_path in
        ret (Paths (fst found) (snd found))
  end.

Definition handle_extraction_process : M pipeline model_paths :=
  let* listing := os_listdir_at order (zips_path E) in
  handle_extraction_loop listing "".

(** Lines 240-258. *)
Definition model_download (url : string) : M pipeline model_paths :=
  try_except
    (let* result := in_world E (fun E' => download_from_url E' url) in
     if bool_decide (result = Some "downloaded") then handle_extraction_process
     else ret ErrorString)
    (fun error =>
       run logging_error ("An unexpected error occurred: " +:+ exn_str error) then
       ret ErrorString).

End Pipeline.

(** The same world with another HTML parser: every page has the links
    [hrefs]. *)
Definition with_hrefs (E : env) (hrefs : list string) : env :=
  {| base_path := base_path E;
     getcwd_error := getcwd_error E;
     chdir_error := chdir_error E;
     open_error := open_error E;
     os_walk := os_walk E;
     os_rename := os_rename E;
     requests_get := requests_get E;
     gdown_download := gdown_download E;
     anchor_hrefs := fun _ => Return hrefs;
     unquote := unquote E;
     py_int := py_int E;
     zip_open_error := zip_open_error E;
     zip_extractall := zip_extractall E;
     remove_error := remove_error E |}.

(** The same world with another directory walk and another [os.rename]. *)
Definition with_walk (E : env) (walk : list (string * list string))
    (rename : string -> string -> M world unit) : env :=
  {| base_path := base_path E;
     getcwd_error := getcwd_error E;
     chdir_error := chdir_error E;
     open_error := open_error E;
     os_walk := fun _ _ => walk;
     os_rename := rename;
     requests_get := requests_get E;
     gdown_download := gdown_download E;
     anchor_hrefs := anchor_hrefs E;
     unquote := unquote E;
     py_int := py_int E;
     zip_open_error := zip_open_error E;
     zip_extractall := zip_extractall E;
     remove_error := remove_error E |}.

(** The same world with an archive reader that fails as [open_err]
    says. *)
Definition with_zip_open_error (E : env) (open_err : string -> option exn) : env :=
  {| base_path := base_path E;
     getcwd_error := getcwd_error E;
     chdir_error := chdir_error E;
     open_error := open_error E;
     os_walk := os_walk E;
     os_rename := os_rename E;
     requests_get := requests_get E;
     gdown_download := gdown_download E;
     anchor_hrefs := anchor_hrefs E;
     unquote := unquote E;
     py_int := py_int E;
     zip_open_error := open_err;
     zip_extractall := zip_extractall E;
     remove_error := remove_error E |}.

(** A name as a directory holds it. *)
Definition plain_name (name : string) : Prop :=
  name <> "" /\ name <> "." /\ name <> ".." /\ str_in "/" name = false.

(** A path that never goes up. *)
Definition downward (p : pipeline) (path : string) : Prop :=
  Forall (fun name => name <> "..") (str_split "/" (full_path p path)).

(** A path that leads to a directory: where it leads, and what the
    directory holds. *)
Definition leads_to (p : pipeline) (path : string) (loc : list string)
    (d : gmap string node) : Prop :=
  path <> ""
  /\ walk (root p) path false [] (str_split "/" (full_path p path)) = Return loc
  /\ tree_lookup loc (Dir (root p)) = Some (Dir d).

(** The state in which the directory at [path] holds [d]. *)
Definition with_directory (path : string) (d : gmap string node) (p : pipeline) : pipeline :=
  write_at path (Some (Dir d)) p.

(** A directory that a path leads to without going up: the path keeps
    leading to that directory whatever is written below it. *)
Definition stable_directory (p : pipeline) (path : string) (d : gmap string node) : Prop :=
  os_stat p path = Return (Dir d) /\ downward p path.

(** A state in which the working directory is [wd] and the directory
    [logs_path] stays where it is and holds the staging directory with
    the entries [staging]. *)
Definition staging_holds (E : env) (wd : string) (staging : gmap string node)
    (q : pipeline) : Prop :=
  working_directory q = wd
  /\ exists logs,
      stable_directory q (logs_path E) logs /\ logs !! "zips" = Some (Dir staging).

(** A stage that leaves the working directory and the staging directory
    alone. *)
Definition keeps_staging (E : env) {A} (m : M pipeline A) : Prop :=
  forall wd staging q, staging_holds E wd staging q -> staging_holds E wd staging (m q).2.

(** A tree in which the logs directory of [test_env] holds [logs]. *)
Definition test_tree (logs : gmap string node) : gmap string node :=
  {[ "home" := Dir {[ "user" := Dir {[ ".bfrvc" := Dir {[ "logs" := Dir logs ]} ]} ]};
     "srv" := Dir ∅ ]}.

(** * Properties *)

(** ** Strings *)

Section StringFacts.

Implicit Types s p r sep : string.

Lemma str_app_cons c s p : String c s +:+ p = String c (s +:+ p).
Proof. done. Qed.

Lemma str_app_nil_l p : "" +:+ p = p.
Proof. done. Qed.

Lemma str_app_assoc s p r : (s +:+ p) +:+ r = s +:+ (p +:+ r).
Proof.
  induction s as [|c s IH]; [done |]. by rewrite !str_app_cons, IH.
Qed.

Lemma str_app_nil_r s : s +:+ "" = s.
Proof. induction s as [|c s IH]; [done |]. by rewrite str_app_cons, IH. Qed.

Lemma str_length_app s p : String.length (s +:+ p) = String.length s + String.length p.
Proof. induction s as [|c s IH]; [done |]. rewrite str_app_cons. simpl. by rewrite IH. Qed.

Lemma str_startswith_app p r : str_startswith p (p +:+ r) = true.
Proof.
  induction p as [|c p IH]; [done |]. rewrite str_app_cons. simpl.
  by rewrite decide_True.
Qed.

Lemma str_startswith_inv p s : str_startswith p s = true -> exists r, s = p +:+ r.
Proof.
  revert s. induction p as [|c p IH]; intros s H; simpl in *.
  - by exists s.
  - destruct s as [|b s]; [done |]. case_decide; [subst | done].
    destruct (IH _ H) as [r ->]. by exists r.
Qed.

Lemma str_startswith_long p u v :
  String.length p <= String.length u ->
  str_startswith p (u +:+ v) = str_startswith p u.
Proof.
  revert u. induction p as [|c p IH]; intros u Hlen; [done |].
  destruct u as [|b u]; [simpl in Hlen; lia |]. rewrite str_app_cons. simpl in *.
  case_decide; [apply IH; lia | done].
Qed.

Lemma str_drop_app p r : str_drop (String.length p) (p +:+ r) = r.
Proof. induction p as [|c p IH]; [by destruct r | by rewrite str_app_cons]. Qed.

Lemma str_drop_nil n : str_drop n "" = "".
Proof. by destruct n. Qed.

Lemma str_in_app_r sub s : str_in sub (s +:+ sub) = true.
Proof.
  induction s as [|c s IH].
  - rewrite str_app_nil_l.
    assert (str_startswith sub sub = true) as Hs.
    { rewrite <- (str_app_nil_r sub) at 2. apply str_startswith_app. }
    destruct sub; simpl in *; [done | by rewrite Hs].
  - rewrite str_app_cons. simpl. rewrite IH. apply orb_true_r.
Qed.

Lemma str_in_cons_false sub c s :
  str_in sub (String c s) = false ->
  str_startswith sub (String c s) = false /\ str_in sub s = false.
Proof. simpl. intros H. by apply orb_false_elim in H. Qed.

(** [split_go] and [replace_go] with a pending skip are the functions
    on the text that remains once the skip is done. *)
Lemma split_go_skip sep k s : split_go sep k s = split_go sep 0 (str_drop k s).
Proof.
  revert k. induction s as [|c s IH]; intros k.
  - by rewrite str_drop_nil.
  - destruct k as [|k]; [done |]. simpl. apply IH.
Qed.

Lemma replace_go_skip old new k s :
  replace_go old new k s = replace_go old new 0 (str_drop k s).
Proof.
  revert k. induction s as [|c s IH]; intros k.
  - by rewrite str_drop_nil.
  - destruct k as [|k]; [done |]. simpl. apply IH.
Qed.

Lemma str_partition_nil sep : sep <> "" -> str_partition sep "" = None.
Proof. by destruct sep. Qed.

Lemma str_partition_cons sep c s :
  str_partition sep (String c s) =
    if str_startswith sep (String c s)
    then Some ("", str_drop (String.length sep) (String c s))
    else match str_partition sep s with
         | Some (b, a) => Some (String c b, a)
         | None => None
         end.
Proof. done. Qed.

Lemma str_partition_None sep s : str_partition sep s = None <-> str_in sep s = false.
Proof.
  induction s as [|c s IH].
  - simpl. destruct (str_startswith sep ""); naive_solver.
  - rewrite str_partition_cons. simpl str_in.
    destruct (str_startswith sep (String c s)); simpl; [split; discriminate |].
    destruct (str_partition sep s) as [[b a]|]; [|done].
    split; [discriminate |]. intros H. by apply IH in H.
Qed.

(** The decomposition that [str_partition] returns. *)
Lemma str_partition_Some sep s b a :
  str_partition sep s = Some (b, a) -> s = b +:+ sep +:+ a.
Proof.
  revert b. induction s as [|c s IH]; intros b.
  - simpl. destruct (str_startswith sep "") eqn:Hp; [|done].
    intros [= <- <-]. destruct sep; [done | discriminate].
  - rewrite str_partition_cons.
    destruct (str_startswith sep (String c s)) eqn:Hp.
    + intros [= <- <-]. apply str_startswith_inv in Hp as [r Hr].
      rewrite Hr, str_drop_app. done.
    + destruct (str_partition sep s) as [[b' a']|]; [|done].
      intros [= <- <-]. rewrite str_app_cons. f_equal. by apply IH.
Qed.

(** A first occurrence is what [str_partition] finds: [sep] is [sep0]
    and a last character, and does not occur in [pre] and [sep0]. *)
Lemma str_partition_first sep0 c pre rest :
  str_in (sep0 +:+ String c "") (pre +:+ sep0) = false ->
  str_partition (sep0 +:+ String c "") (pre +:+ (sep0 +:+ String c "") +:+ rest)
  = Some (pre, rest).
Proof.
  induction pre as [|b pre IH]; intros Hin.
  - rewrite str_app_nil_l.
    destruct ((sep0 +:+ String c "") +:+ rest) as [|x y] eqn:Heq.
    + destruct sep0; discriminate.
    + rewrite str_partition_cons, <- Heq, str_startswith_app, str_drop_app. done.
  - rewrite str_app_cons in *. apply str_in_cons_false in Hin as [Hs Hin].
    rewrite str_partition_cons.
    replace (String b (pre +:+ (sep0 +:+ String c "") +:+ rest))
      with (String b (pre +:+ sep0) +:+ (String c "" +:+ rest)).
    2:{ rewrite str_app_cons. f_equal. by rewrite !str_app_assoc. }
    rewrite str_startswith_long, Hs.
    2:{ simpl. rewrite !str_length_app. simpl. lia. }
    by rewrite IH.
Qed.

(** [str_split] cuts at the first occurrence and goes on after it. *)
Lemma str_split_unfold sep s :
  sep <> "" ->
  str_split sep s =
    match str_partition sep s with
    | Some (b, a) => b :: str_split sep a
    | None => [s]
    end.
Proof.
  intros Hsep. unfold str_split. induction s as [|c s IH].
  - by rewrite str_partition_nil.
  - rewrite str_partition_cons. simpl split_go.
    destruct (str_startswith sep (String c s)) eqn:Hp.
    + rewrite split_go_skip.
      replace (str_drop (String.length sep) (String c s))
        with (str_drop (String.length sep - 1) s).
      2:{ destruct sep as [|x sep]; [done |]. simpl. by rewrite Nat.sub_0_r. }
      by destruct (split_go sep 0 (str_drop (String.length sep - 1) s)).
    + destruct (split_go sep 0 s) as [p ps].
      destruct (str_partition sep s) as [[b a]|]; by simplify_eq.
Qed.

Lemma str_replace_unfold old new s :
  old <> "" ->
  str_replace old new s =
    match str_partition old s with
    | Some (b, a) => b +:+ new +:+ str_replace old new a
    | None => s
    end.
Proof.
  intros Hold. unfold str_replace. induction s as [|c s IH].
  - by rewrite str_partition_nil.
  - rewrite str_partition_cons. simpl replace_go.
    destruct (str_startswith old (String c s)) eqn:Hp.
    + rewrite replace_go_skip, str_app_nil_l.
      replace (str_drop (String.length old) (String c s))
        with (str_drop (String.length old - 1) s); [done |].
      destruct old as [|x old]; [done |]. simpl. by rewrite Nat.sub_0_r.
    + rewrite IH. destruct (str_partition old s) as [[b a]|]; by rewrite ?str_app_cons.
Qed.

Lemma str_join_String sep c p ps :
  str_join sep (String c p :: ps) = String c (str_join sep (p :: ps)).
Proof. by destruct ps. Qed.

(** [s.replace(old, new)] is [new.join(s.split(old))]. *)
Lemma str_replace_join old new s :
  str_replace old new s = str_join new (str_split old s).
Proof.
  unfold str_replace, str_split. generalize 0 as k.
  induction s as [|c s IH]; intros k; [done |]. simpl.
  destruct k as [|k]; [|apply IH].
  destruct (str_startswith old (String c s)).
  - specialize (IH (String.length old - 1)).
    destruct (split_go old (String.length old - 1) s) as [p ps].
    by rewrite IH.
  - specialize (IH 0). destruct (split_go old 0 s) as [p ps].
    by rewrite str_join_String, IH.
Qed.

Lemma str_replace_absent old new s :
  old <> "" -> str_in old s = false -> str_replace old new s = s.
Proof.
  intros Hold Hin. rewrite str_replace_unfold by done.
  apply str_partition_None in Hin. by rewrite Hin.
Qed.

Lemma str_split_head sep s :
  sep <> "" -> exists rest, str_split sep s = str_before sep s :: rest.
Proof.
  intros Hsep. rewrite str_split_unfold by done. unfold str_before.
  destruct (str_partition sep s) as [[b a]|]; eauto.
Qed.

Lemma str_before_absent sep s : str_in sep s = false -> str_before sep s = s.
Proof. intros Hin. unfold str_before. apply str_partition_None in Hin. by rewrite Hin. Qed.

Lemma str_before_first sep0 c pre rest :
  str_in (sep0 +:+ String c "") (pre +:+ sep0) = false ->
  str_before (sep0 +:+ String c "") (pre +:+ (sep0 +:+ String c "") +:+ rest) = pre.
Proof. intros Hin. unfold str_before. by rewrite str_partition_first. Qed.

(** The text before a one-character separator that [pre] does not
    hold and that follows it, or that does not follow at all. *)
Lemma str_before_char c pre post :
  str_in (String c "") pre = false ->
  post = "" \/ str_startswith (String c "") post = true ->
  str_before (String c "") (pre +:+ post) = pre.
Proof.
  intros Hin [-> | Hpost].
  - rewrite str_app_nil_r. by apply str_before_absent.
  - apply str_startswith_inv in Hpost as [r ->].
    apply (str_before_first "" c pre r). by rewrite str_app_nil_r.
Qed.

End StringFacts.

(** ** C2: the blob-to-resolve rewriting *)

Lemma blob_to_resolve_replace url :
  blob_to_resolve url = str_replace "/blob/" "/resolve/" url.
Proof.
  unfold blob_to_resolve. destruct (str_in "/blob/" url) eqn:Hin; [done |].
  by rewrite str_replace_absent.
Qed.

(** C2, as the code has it: [str.replace] without a count rewrites every
    occurrence of [/blob/], scanned from the left and without overlap.
    The text before the first occurrence is kept, the occurrence becomes
    [/resolve/], and the text after it is rewritten in the same way; a
    URL with a single occurrence has exactly that one replaced; the
    result is the pieces between the occurrences joined by [/resolve/]. *)
Theorem blob_to_resolve_every_occurrence (url pre post : string) :
  url = pre +:+ "/blob/" +:+ post ->
  str_in "/blob/" (pre +:+ "/blob") = false ->
  blob_to_resolve url = pre +:+ "/resolve/" +:+ blob_to_resolve post
  /\ (str_in "/blob/" post = false ->
      blob_to_resolve url = pre +:+ "/resolve/" +:+ post)
  /\ blob_to_resolve url = str_join "/resolve/" (str_split "/blob/" url).
Proof.
  intros -> Hfirst.
  assert (blob_to_resolve (pre +:+ "/blob/" +:+ post)
          = pre +:+ "/resolve/" +:+ blob_to_resolve post) as Heq.
  { rewrite !blob_to_resolve_replace, (str_replace_unfold "/blob/") by done.
    by rewrite (str_partition_first "/blob" "/"). }
  split; [done |]. split.
  - intros Hpost. rewrite Heq. unfold blob_to_resolve. by rewrite Hpost.
  - rewrite blob_to_resolve_replace. apply str_replace_join.
Qed.

Lemma blob_to_resolve_model_zip :
  blob_to_resolve "https://huggingface.co/u/m/blob/main/model.zip"
  = "https://huggingface.co/u/m/resolve/main/model.zip".
Proof.
  apply (proj1 (proj2 (blob_to_resolve_every_occurrence
    "https://huggingface.co/u/m/blob/main/model.zip"
    "https://huggingface.co/u/m" "main/model.zip" eq_refl eq_refl))).
  reflexivity.
Defined.

(** C2 as stated fails: in [https://host/blob/main/blob/x] the first
    occurrence is the one after the host, yet the second one is rewritten
    too and no [/blob/] is left. *)
Lemma blob_to_resolve_second_occurrence :
  let url := "https://host/blob/main/blob/x" in
  url = "https://host" +:+ "/blob/" +:+ "main/blob/x"
  /\ str_in "/blob/" ("https://host" +:+ "/blob") = false
  /\ blob_to_resolve url = "https://host/resolve/main/resolve/x"
  /\ blob_to_resolve url <> "https://host" +:+ "/resolve/" +:+ "main/blob/x"
  /\ str_in "/blob/" (blob_to_resolve url) = false.
Proof. repeat split; vm_compute; congruence. Qed.

(** ** C1: Google Drive identifiers *)

Lemma extract_google_drive_id_unfold url :
  extract_google_drive_id url =
    match str_partition "file/d/" url with
    | Some (_, a) => Return (Some (str_before "/" (str_before "file/d/" a)))
    | None =>
        match str_partition "id=" url with
        | Some (_, a) => Return (Some (str_before "&" (str_before "id=" a)))
        | None => Return None
        end
    end.
Proof.
  assert (forall sep1 sep2 b a, sep1 <> "" -> sep2 <> "" ->
    match list_index (b :: str_split sep1 a) 1 with
    | Return piece =>
        match list_index (str_split sep2 piece) 0 with
        | Return id => Return (Some id)
        | Raise e => Raise e
        end
    | Raise e => Raise e
    end = Return (Some (str_before sep2 (str_before sep1 a)))) as Hpieces.
  { intros sep1 sep2 b a H1 H2.
    destruct (str_split_head sep1 a H1) as [r1 ->].
    destruct (str_split_head sep2 (str_before sep1 a) H2) as [r2 Hr2].
    unfold list_index. simpl. by rewrite Hr2. }
  unfold extract_google_drive_id.
  destruct (str_in "file/d/" url) eqn:Hfile.
  - rewrite (str_split_unfold "file/d/") by done.
    destruct (str_partition "file/d/" url) as [[b a]|] eqn:Hp.
    + by apply Hpieces.
    + apply str_partition_None in Hp. congruence.
  - apply str_partition_None in Hfile as ->.
    destruct (str_in "id=" url) eqn:Hid.
    + rewrite (str_split_unfold "id=") by done.
      destruct (str_partition "id=" url) as [[b a]|] eqn:Hp.
      * by apply Hpieces.
      * apply str_partition_None in Hp. congruence.
    + by apply str_partition_None in Hid as ->.
Qed.

Lemma str_before_cons sep c s :
  str_startswith sep (String c s) = false ->
  str_before sep (String c s) = String c (str_before sep s).
Proof.
  intros Hs. unfold str_before. rewrite str_partition_cons, Hs.
  by destruct (str_partition sep s) as [[b a]|].
Qed.

Lemma str_startswith_before_char p u c r :
  str_in (String c "") p = false ->
  str_startswith p (u +:+ String c r) = true ->
  str_startswith p u = true.
Proof.
  revert u. induction p as [|a p IH]; intros u Hc Hs; [done |].
  apply str_in_cons_false in Hc as [Ha Hc]. simpl in Ha.
  destruct u as [|b u].
  - rewrite str_app_nil_l in Hs. simpl in Hs. repeat case_decide; by simplify_eq.
  - rewrite str_app_cons in Hs. simpl in *. case_decide; [by apply IH | done].
Qed.

(** Cutting at [sep] and then at the character [c], which [sep] does not
    hold: the outcome is the text before the first [c]. *)
Lemma str_before_before sep c id post :
  str_in sep id = false ->
  str_in (String c "") id = false ->
  str_in (String c "") sep = false ->
  post = "" \/ str_startswith (String c "") post = true ->
  str_before (String c "") (str_before sep (id +:+ post)) = id.
Proof.
  intros Hsep Hc Hcsep [-> | Hpost].
  { rewrite str_app_nil_r, (str_before_absent sep) by done.
    by apply str_before_absent. }
  apply str_startswith_inv in Hpost as [r ->]. rewrite str_app_cons, str_app_nil_l.
  assert (exists x, str_before sep (id +:+ String c r) = id +:+ String c x) as [x ->].
  { clear Hc. induction id as [|b id IH].
    - rewrite str_app_nil_l. exists (str_before sep r). apply str_before_cons.
      destruct (str_startswith sep (String c r)) eqn:Hs; [|done].
      apply (str_startswith_before_char sep "" c r) in Hs; [|done].
      by destruct sep.
    - apply str_in_cons_false in Hsep as [Hs Hsep].
      destruct (IH Hsep) as [x Hx]. exists x.
      rewrite !str_app_cons, str_before_cons, Hx; [done |].
      destruct (str_startswith sep (String b (id +:+ String c r))) eqn:Hs'; [|done].
      apply (str_startswith_before_char sep (String b id) c r) in Hs'; congruence. }
  apply (str_before_char c id (String c x)); [done |].
  right. simpl. by rewrite decide_True.
Qed.

(** Running a computation of the fetch stage. *)
Ltac run_M :=
  unfold download_from_url, download_from_url_body, download_file,
    download_blob_or_resolve, http_get, os_getcwd, os_chdir, logging_error,
    try_finally, try_except, bind, ret, raise, lift, modify, get_state; simpl.

(** C1, as the code has it.  With [file/d/] in the URL the identifier is
    the text after its first occurrence, cut at a further [file/d/] and
    then at the first [/]: for a URL with one [file/d/<ID>] that is
    followed by [/] or by nothing, it is [<ID>].  Only when [file/d/] is
    absent is [id=] looked for: the identifier is the text after its first
    occurrence, cut at a further [id=] and then at the first [&], which
    is [<ID>] when [<ID>] holds no [id=] and is followed by [&] or by
    nothing.  With neither pattern the result is [None], and
    [download_from_url], whose working-directory calls succeed, logs the
    invalid URL and returns [None]. *)
Theorem extract_google_drive_id_first_match (url : string) :
  (forall pre a,
      url = pre +:+ "file/d/" +:+ a ->
      str_in "file/d/" (pre +:+ "file/d") = false ->
      extract_google_drive_id url
      = Return (Some (str_before "/" (str_before "file/d/" a))))
  /\ (forall pre id post,
      url = pre +:+ "file/d/" +:+ id +:+ post ->
      str_in "file/d/" (pre +:+ "file/d") = false ->
      str_in "/" id = false ->
      post = "" \/ str_startswith "/" post = true ->
      str_in "file/d/" (id +:+ post) = false ->
      extract_google_drive_id url = Return (Some id))
  /\ (forall pre a,
      str_in "file/d/" url = false ->
      url = pre +:+ "id=" +:+ a ->
      str_in "id=" (pre +:+ "id") = false ->
      extract_google_drive_id url
      = Return (Some (str_before "&" (str_before "id=" a))))
  /\ (forall pre id post,
      str_in "file/d/" url = false ->
      url = pre +:+ "id=" +:+ id +:+ post ->
      str_in "id=" (pre +:+ "id") = false ->
      str_in "&" id = false ->
      post = "" \/ str_startswith "&" post = true ->
      str_in "id=" id = false ->
      extract_google_drive_id url = Return (Some id))
  /\ (str_in "file/d/" url = false ->
      str_in "id=" url = false ->
      extract_google_drive_id url = Return None
      /\ forall E w,
          str_in "drive.google.com" url = true ->
          getcwd_error E w = None ->
          (forall p w', chdir_error E p w' = None) ->
          download_from_url E url w
          = (Return None,
             World (cwd w) (zips w)
               (log_lines w ++ ["ERROR - Invalid Google Drive URL"])%list)).
Proof.
  assert (forall pre a,
      url = pre +:+ "file/d/" +:+ a ->
      str_in "file/d/" (pre +:+ "file/d") = false ->
      extract_google_drive_id url
      = Return (Some (str_before "/" (str_before "file/d/" a)))) as Hfile.
  { intros pre a -> Hfirst. rewrite extract_google_drive_id_unfold.
    by rewrite (str_partition_first "file/d" "/"). }
  assert (forall pre a,
      str_in "file/d/" url = false ->
      url = pre +:+ "id=" +:+ a ->
      str_in "id=" (pre +:+ "id") = false ->
      extract_google_drive_id url
      = Return (Some (str_before "&" (str_before "id=" a)))) as Hid.
  { intros pre a Hno -> Hfirst. rewrite extract_google_drive_id_unfold.
    apply str_partition_None in Hno as ->.
    by rewrite (str_partition_first "id" "="). }
  split; [done |]. split; [|split; [done |]; split].
  - intros pre id post Hurl Hfirst Hslash Hpost Hone.
    rewrite (Hfile pre (id +:+ post)) by done.
    rewrite (str_before_absent "file/d/") by done.
    by rewrite (str_before_char "/").
  - intros pre id post Hno Hurl Hfirst Hamp Hpost Hone.
    rewrite (Hid pre (id +:+ post)) by done.
    by rewrite (str_before_before "id=" "&").
  - intros Hno1 Hno2.
    assert (extract_google_drive_id url = Return None) as Hnone.
    { rewrite extract_google_drive_id_unfold.
      apply str_partition_None in Hno1 as ->.
      by apply str_partition_None in Hno2 as ->. }
    split; [done |]. intros E w Hdrive Hcwd Hchdir.
    run_M. rewrite Hcwd, !Hchdir, Hdrive. simpl. rewrite Hnone. simpl.
    by rewrite Hchdir.
Qed.

Lemma extract_google_drive_id_examples :
  extract_google_drive_id "https://drive.google.com/file/d/1AbC/view?usp=sharing"
  = Return (Some "1AbC")
  /\ extract_google_drive_id "https://drive.google.com/uc?id=1AbC&export=download&uuid=7"
     = Return (Some "1AbC")
  /\ download_from_url (test_env (Raise (OSError "offline")) (fun _ => None))
       "https://drive.google.com/drive/folders" (World "/srv" ∅ [])
     = (Return None, World "/srv" ∅ ["ERROR - Invalid Google Drive URL"]).
Proof.
  split; [|split].
  - apply (proj1 (proj2 (extract_google_drive_id_first_match
      "https://drive.google.com/file/d/1AbC/view?usp=sharing"))
      "https://drive.google.com/" "1AbC" "/view?usp=sharing");
      [reflexivity | reflexivity | reflexivity | right; reflexivity | reflexivity].
  - apply (proj1 (proj2 (proj2 (proj2 (extract_google_drive_id_first_match
      "https://drive.google.com/uc?id=1AbC&export=download&uuid=7"))))
      "https://drive.google.com/uc?" "1AbC" "&export=download&uuid=7");
      [reflexivity | reflexivity | reflexivity | reflexivity | right; reflexivity
      | reflexivity].
  - apply (proj2 (proj2 (proj2 (proj2 (extract_google_drive_id_first_match
      "https://drive.google.com/drive/folders")))) eq_refl eq_refl);
      [reflexivity | reflexivity | reflexivity].
Defined.

(** C1 as stated fails.  The first URL holds the query parameter
    [id=XYZ], yet the segment [file/d/ABC/] is looked for first and wins;
    in the second one the parameter [id=XYZ] comes after another
    parameter whose name ends in [id], and the text after that one is
    returned. *)
Lemma extract_google_drive_id_other_pattern :
  let url1 := "https://drive.google.com/file/d/ABC/view?id=XYZ" in
  let url2 := "https://drive.google.com/uc?uuid=7&id=XYZ" in
  url1 = "https://drive.google.com/file/d/ABC/view?" +:+ "id=" +:+ "XYZ"
  /\ url2 = "https://drive.google.com/uc?uuid=7&" +:+ "id=" +:+ "XYZ"
  /\ str_in "&" "XYZ" = false
  /\ str_in "file/d/" url2 = false
  /\ extract_google_drive_id url1 = Return (Some "ABC")
  /\ extract_google_drive_id url1 <> Return (Some "XYZ")
  /\ extract_google_drive_id url2 = Return (Some "7")
  /\ extract_google_drive_id url2 <> Return (Some "XYZ").
Proof. repeat split; vm_compute; congruence. Qed.

(** ** C7: a response other than 200 *)

(** C7: when the GET of [download_file] is answered with a status other
    than 200, the function raises the error whose message ends in that
    status, and the world (staging directory, working directory, log) is
    what it was: nothing is written. *)
Theorem download_file_status_error (E : env) (url : string) (w : world) (r : response) :
  requests_get E url w = Return r ->
  status_code r <> 200%Z ->
  download_file E url w
  = (Raise (ValueError ("Download failed with status code: " +:+ pretty (status_code r))), w).
Proof.
  intros Hget Hstatus. run_M. rewrite Hget. by rewrite bool_decide_false.
Qed.

Lemma download_file_status_404 :
  download_file
    (test_env (Return (Response 404 None None "" ["<html>"] None)) (fun _ => None))
    "https://example.com/model.zip" (World "/srv" {[ "old.zip" := File "PK" ]} [])
  = (Raise (ValueError "Download failed with status code: 404"),
     World "/srv" {[ "old.zip" := File "PK" ]} []).
Proof.
  apply (download_file_status_error _ _ _ (Response 404 None None "" ["<html>"] None));
    [reflexivity | discriminate].
Defined.

(** ** C8: the name of the saved file *)

Lemma str_startswith_char c b s :
  str_startswith (String c "") (String b s) = bool_decide (c = b).
Proof. simpl. by case_decide; [rewrite bool_decide_true | rewrite bool_decide_false]. Qed.





Lemma replace_go_cons old new c s :
  replace_go old new 0 (String c s) =
    if str_startswith old (String c s)
    then new +:+ replace_go old new (String.length old - 1) s
    else String c (replace_go old new 0 s).
Proof. done. Qed.

Lemma str_in_cons sub c s :
  str_in sub (String c s) = str_startswith sub (String c s) || str_in sub s.
Proof. done. Qed.







(** ** C6: what [download_from_url] lets through *)

Lemma download_from_url_body_result E url w o w1 :
  download_from_url_body E url w = (Return o, w1) ->
  (o = None /\ invalid_google_drive_url url
   /\ w1 = World (zips_path E) (zips w) (log_lines w ++ ["ERROR - Invalid Google Drive URL"])%list)
  \/ (o = Some "downloaded" /\ ~ invalid_google_drive_url url).
Proof.
  assert (forall (m : M world unit) s,
    (run m then run rename_downloaded_files E then ret (Some "downloaded")) s
    = (Return o, w1) -> o = Some "downloaded") as Hfinish.
  { intros m s. unfold bind at 1. destruct (m s) as [[[]|e] s1]; [|done].
    unfold bind, ret. destruct (rename_downloaded_files E s1) as [[[]|e] s2]; [|done].
    by intros [= <- <-]. }
  unfold download_from_url_body. unfold bind at 1, os_chdir.
  destruct (chdir_error E (zips_path E) w) as [e|]; [done |].
  destruct (str_in "drive.google.com" url) eqn:Hdrive.
  - unfold bind at 1, lift.
    destruct (extract_google_drive_id url) as [file_id|e] eqn:Hid; [|done].
    destruct (truthy file_id) eqn:Htruthy.
    + intros H. right. split; [by eapply Hfinish |].
      intros (_ & file_id' & Hid' & Hfalsy). congruence.
    + unfold bind, logging_error, modify, ret. intros [= <- <-]. left.
      split; [done |]. split; [|done]. split; [done |]. by exists file_id.
  - assert (~ invalid_google_drive_url url) as Hvalid by (intros [? _]; congruence).
    destruct (_ || _); [intros H; right; split; [by eapply Hfinish | done] |].
    destruct (str_in "/tree/main" url); intros H; right; (split; [by eapply Hfinish | done]).
Qed.

(** C6, as the code has it.  The working directory is read before the
    guarded block and restored in its [finally] clause; when these two
    calls succeed, [download_from_url] returns: an exception of the
    guarded block (entering the staging directory, any strategy, the
    renaming afterwards) is logged and turned into [None], and a block
    that ends returns [downloaded], except for an invalid Google Drive
    URL, for which it logs that and returns [None].  The working
    directory is the one it started with. *)
Theorem download_from_url_guarded (E : env) (url : string) (w : world) :
  getcwd_error E w = None ->
  (forall w', chdir_error E (cwd w) w' = None) ->
  exists r w',
    download_from_url E url w = (Return r, w')
    /\ cwd w' = cwd w
    /\ (forall e w1,
         download_from_url_body E url w = (Raise e, w1) ->
         r = None
         /\ w' = World (cwd w) (zips w1)
                   (log_lines w1
                      ++ ["ERROR - An error occurred downloading the file: " +:+ exn_str e])%list)
    /\ (forall o w1,
         download_from_url_body E url w = (Return o, w1) ->
         r = o
         /\ w' = World (cwd w) (zips w1) (log_lines w1)
         /\ (~ invalid_google_drive_url url -> o = Some "downloaded")
         /\ (invalid_google_drive_url url ->
             o = None
             /\ w1 = World (zips_path E) (zips w)
                       (log_lines w ++ ["ERROR - Invalid Google Drive URL"])%list)).
Proof.
  intros Hcwd Hchdir.
  unfold download_from_url, os_getcwd, bind at 1. rewrite Hcwd.
  unfold try_finally, try_except.
  destruct (download_from_url_body E url w) as [[o|e] w1] eqn:Hbody.
  - unfold os_chdir. rewrite Hchdir. eexists _, _. split; [done |].
    split; [done |]. split; [done |].
    intros o' w1' [= <- <-]. split; [done |]. split; [done |].
    destruct (download_from_url_body_result E url w o w1 Hbody)
      as [(-> & Hinvalid & ->) | [-> Hvalid]].
    + split; [by intros Hvalid | done].
    + split; [done | by intros Hinvalid].
  - unfold bind, logging_error, modify, ret, os_chdir. rewrite Hchdir.
    eexists _, _. split; [done |]. split; [done |]. split; [|done].
    by intros e' w1' [= <- <-].
Qed.

Lemma download_from_url_offline :
  exists r w',
    download_from_url (test_env (Raise (OSError "offline")) (fun _ => None))
      "https://example.com/model.zip" (World "/srv" ∅ []) = (Return r, w')
    /\ cwd w' = "/srv".
Proof.
  destruct (download_from_url_guarded
    (test_env (Raise (OSError "offline")) (fun _ => None))
    "https://example.com/model.zip" (World "/srv" ∅ []) eq_refl (fun _ => eq_refl))
    as (r & w' & Hrun & Hdir & _).
  by exists r, w'.
Defined.

(** C6 as stated fails: the [finally] clause changes back to the
    directory the call started in, and when that directory cannot be
    entered any more, the exception of [os.chdir] leaves
    [download_from_url], after the failure of the download itself was
    caught and logged. *)
Lemma download_from_url_finally_raises :
  let E := test_env (Raise (OSError "offline"))
             (fun p => if bool_decide (p = "/gone") then Some (FileNotFoundError p) else None) in
  download_from_url E "https://example.com/model.zip" (World "/gone" ∅ [])
  = (Raise (FileNotFoundError "/gone"),
     World "/home/user/.bfrvc/logs/zips" ∅
       ["ERROR - An error occurred downloading the file: offline"]).
Proof. vm_compute. reflexivity. Qed.

(** ** C5: the archive extractor *)



(** ** C10: the artifact search *)

(** C10, as the code has it: on a path where nothing exists,
    [search_pth_index] logs the error and returns two empty lists; on a
    path that names a directory it returns, without logging, two lists in
    which every path is the folder joined with the name of one of its
    regular files, a name that ends in [.pth] for the first list and in
    [.index] for the second. *)
Theorem search_pth_index_total (order : list string -> list string)
    (folder : string) (at_folder : option node) (log : list string) :
  (at_folder = None ->
   search_pth_index order folder at_folder log
   = (Return ([], []), (log ++ ["ERROR - Folder not found: " +:+ folder])%list))
  /\ (forall d, at_folder = Some (Dir d) ->
      exists pth_paths index_paths,
        search_pth_index order folder at_folder log = (Return (pth_paths, index_paths), log)
        /\ (forall p, p ∈ pth_paths ->
            exists file data,
              p = os_path_join folder file /\ d !! file = Some (File data)
              /\ str_endswith ".pth" file = true)
        /\ (forall p, p ∈ index_paths ->
            exists file data,
              p = os_path_join folder file /\ d !! file = Some (File data)
              /\ str_endswith ".index" file = true)).
Proof.
  split; [by intros -> |]. intros d ->. eexists _, _. split; [done |].
  split; intros p Hp;
    apply list_elem_of_fmap in Hp as (file & -> & Hfile);
    apply list_elem_of_filter in Hfile as [Hfile _];
    apply andb_true_iff in Hfile as [Hisfile Hext];
    (destruct (d !! file) as [[data|]|] eqn:Hd; try done);
    by exists file, data.
Qed.

Lemma search_pth_index_example :
  search_pth_index id "/models/m" None [] = (Return ([], []), ["ERROR - Folder not found: /models/m"])
  /\ exists pth_paths index_paths,
      search_pth_index id "/models/m"
        (Some (Dir {[ "m.pth" := File "W"; "m.index" := File "I"; "sub.pth" := Dir ∅ ]})) []
      = (Return (pth_paths, index_paths), []).
Proof.
  split.
  - apply (proj1 (search_pth_index_total id "/models/m" None [])). reflexivity.
  - destruct (proj2 (search_pth_index_total id "/models/m"
      (Some (Dir {[ "m.pth" := File "W"; "m.index" := File "I"; "sub.pth" := Dir ∅ ]})) [])
      _ eq_refl) as (pth_paths & index_paths & Hrun & _).
    by exists pth_paths, index_paths.
Defined.

(** C10 as stated fails: the guard is [os.path.exists], which a path
    that names a regular file passes, and [os.listdir] then raises. *)
Lemma search_pth_index_regular_file :
  search_pth_index id "/models/m.pth" (Some (File "W")) []
  = (Raise (NotADirectoryError "/models/m.pth"), []).
Proof. reflexivity. Qed.

(** ** The layout normaliser *)

(** A name that ends in a marker holds it. *)
Lemma str_in_pth_suffix m : str_in ".pth" (m +:+ ".pth") = true.
Proof. apply str_in_app_r. Qed.

Lemma str_in_index_suffix m : str_in ".index" (m +:+ ".index") = true.
Proof. apply str_in_app_r. Qed.

(** Appending [.index] to a name does not make a [.pth] appear in it. *)
Lemma str_in_pth_index m : str_in ".pth" (m +:+ ".index") = str_in ".pth" m.
Proof.
  induction m as [|c m IH]; [done |].
  rewrite str_app_cons, !str_in_cons, IH. f_equal.
  destruct m as [|c1 [|c2 [|c3 m]]].
  - simpl. by repeat case_decide; simplify_eq.
  - simpl. by repeat case_decide; simplify_eq.
  - simpl. by repeat case_decide; simplify_eq.
  - rewrite <- str_app_cons. apply str_startswith_long. simpl. lia.
Qed.

Section NormalizerFacts.

Variable order : list string -> list string.
Hypothesis order_perm : forall l, order l ≡ₚ l.
Variable extract_folder_path : string.
Variable model_name : string.

Lemma os_listdir_elem {A} (d : gmap string A) x :
  x ∈ os_listdir order d <-> is_Some (d !! x).
Proof.
  unfold os_listdir. rewrite order_perm, list_elem_of_fmap. split.
  - intros ([k v] & -> & Hkv). apply elem_of_map_to_list in Hkv. by exists v.
  - intros [v Hv]. exists (x, v). split; [done |]. by apply elem_of_map_to_list.
Qed.

Lemma os_listdir_NoDup {A} (d : gmap string A) : NoDup (os_listdir order d).
Proof. unfold os_listdir. rewrite order_perm. apply NoDup_fst_map_to_list. Qed.

(** *** The rename step *)

Lemma rename_target_cases item new :
  rename_target model_name item = Some new ->
  new = model_name +:+ ".pth" \/ new = model_name +:+ ".index".
Proof.
  unfold rename_target. destruct (str_in ".pth" item); [naive_solver |].
  destruct (str_in ".index" item); naive_solver.
Qed.

Lemma rename_target_pth : 
  rename_target model_name (model_name +:+ ".pth") = Some (model_name +:+ ".pth").
Proof. unfold rename_target. by rewrite str_in_pth_suffix. Qed.

Lemma rename_target_index :
  str_in ".pth" model_name = false ->
  rename_target model_name (model_name +:+ ".index") = Some (model_name +:+ ".index").
Proof.
  intros Hm. unfold rename_target. by rewrite str_in_pth_index, Hm, str_in_index_suffix.
Qed.

(** A destination is itself a marked name. *)
Lemma rename_target_marked item new :
  rename_target model_name item = Some new -> is_Some (rename_target model_name new).
Proof.
  intros [-> | ->]%rename_target_cases.
  - rewrite rename_target_pth. eauto.
  - unfold rename_target. rewrite str_in_index_suffix.
    destruct (str_in ".pth" _); eauto.
Qed.

Lemma for_each_rename_items l (d : gmap string node) :
  NoDup l ->
  (forall x, x ∈ l -> is_Some (d !! x)) ->
  exists d',
    for_each l (rename_item extract_folder_path model_name) d = (Return tt, d')
    /\ renamed model_name l d d'.
Proof.
  revert d. induction l as [|item l IH]; intros d Hnd Hin.
  { exists d. split; [done | constructor]. }
  apply NoDup_cons in Hnd as [Hitem Hnd].
  simpl. unfold bind at 1, rename_item at 1.
  destruct (rename_target model_name item) as [new|] eqn:Htarget.
  - unfold bind at 1, get_state. case_bool_decide as Hnew.
    + destruct (IH d Hnd) as (d' & Hrun & Hren).
      { intros x Hx. apply Hin. by right. }
      exists d'. unfold ret. split; [done |].
      apply renamed_keep; [|done]. intros new' Hnew'. by simplify_eq.
    + unfold os_rename_entry, bind, get_state.
      destruct (Hin item) as [n Hn]; [by left |]. rewrite Hn. unfold modify.
      apply eq_None_not_Some in Hnew.
      destruct (IH (<[new := n]> (delete item d)) Hnd) as (d' & Hrun & Hren).
      { intros x Hx. destruct (Hin x) as [nx Hnx]; [by right |].
        exists nx. rewrite lookup_insert_ne by congruence.
        rewrite lookup_delete_ne; [done |]. by intros ->. }
      exists d'. split; [done |]. by eapply renamed_move.
  - unfold ret. destruct (IH d Hnd) as (d' & Hrun & Hren).
    { intros x Hx. apply Hin. by right. }
    exists d'. split; [done |]. apply renamed_keep; [|done].
    intros new' Hnew'. by simplify_eq.
Qed.

Lemma for_each_rename_settled l (d : gmap string node) :
  (forall x new, x ∈ l -> rename_target model_name x = Some new -> is_Some (d !! new)) ->
  for_each l (rename_item extract_folder_path model_name) d = (Return tt, d).
Proof.
  induction l as [|item l IH]; intros Hl; [done |].
  simpl. unfold bind at 1, rename_item at 1.
  destruct (rename_target model_name item) as [new|] eqn:Htarget.
  - unfold bind at 1, get_state. rewrite bool_decide_true.
    + unfold ret. apply IH. intros x new' Hx. apply Hl. by right.
    + eapply Hl; [by left | done].
  - unfold ret. apply IH. intros x new' Hx. apply Hl. by right.
Qed.

Lemma renamed_size l d d' : renamed model_name l d d' -> size d' = size d.
Proof.
  induction 1 as [d | item l d d' Hkeep Hren IH | item l d new n d' Ht Hnew Hn Hren IH];
    [done | done |].
  rewrite IH, map_size_insert_None by (by rewrite lookup_delete_ne by congruence).
  rewrite map_size_delete_Some by eauto.
  assert (size d <> 0); [|lia]. apply map_size_ne_0_lookup. eauto.
Qed.

(** A name that is no destination keeps its entry or loses it. *)
Lemma renamed_other l d d' y :
  renamed model_name l d d' ->
  (forall item, rename_target model_name item <> Some y) ->
  d' !! y = d !! y \/ d' !! y = None.
Proof.
  intros Hren Hy.
  induction Hren as [d | item l d d' Hkeep Hren IH | item l d new n d' Ht Hnew Hn Hren IH];
    [by left | done |].
  assert (new <> y) by (intros ->; by eapply Hy).
  destruct IH as [-> | ->]; [|by right].
  rewrite lookup_insert_ne by done.
  destruct (decide (item = y)) as [-> | ?].
  - right. apply lookup_delete_eq.
  - left. by apply lookup_delete_ne.
Qed.

(** An unmarked name is not touched. *)
Lemma renamed_unmarked l d d' y :
  renamed model_name l d d' ->
  rename_target model_name y = None ->
  d' !! y = d !! y.
Proof.
  intros Hren Hy.
  induction Hren as [d | item l d d' Hkeep Hren IH | item l d new n d' Ht Hnew Hn Hren IH];
    [done | done |].
  rewrite IH, lookup_insert_ne, lookup_delete_ne; [done | congruence |].
  intros ->. apply rename_target_marked in Ht as [? ?]. congruence.
Qed.

(** A name that is its own destination keeps the entry it has. *)
Lemma renamed_stable l d d' y :
  renamed model_name l d d' ->
  rename_target model_name y = Some y ->
  is_Some (d !! y) ->
  d' !! y = d !! y.
Proof.
  intros Hren Hy.
  induction Hren as [d | item l d d' Hkeep Hren IH | item l d new n d' Ht Hnew Hn Hren IH];
    intros [v Hv]; [done | by apply IH |].
  assert (new <> y) by congruence. assert (item <> y) by congruence.
  rewrite IH; rewrite lookup_insert_ne, lookup_delete_ne by done; eauto.
Qed.

(** The destination of a listed item is there afterwards. *)
Lemma renamed_destination l d d' x new :
  renamed model_name l d d' ->
  x ∈ l ->
  rename_target model_name x = Some new ->
  rename_target model_name new = Some new ->
  is_Some (d' !! new).
Proof.
  intros Hren Hx Ht Hnew.
  induction Hren as [d | item l d d' Hkeep Hren IH | item l d new' n d' Ht' Hnew' Hn Hren IH].
  - by apply elem_of_nil in Hx.
  - apply elem_of_cons in Hx as [-> | Hx]; [|by apply IH].
    rewrite (renamed_stable l d d' new) by eauto. eauto.
  - apply elem_of_cons in Hx as [-> | Hx]; [|by apply IH].
    assert (new' = new) as -> by congruence.
    erewrite (renamed_stable l _ d' new); [| done | done |];
      rewrite lookup_insert_eq; eauto.
Qed.

(** A name that appears is the destination of a listed item. *)
Lemma renamed_fresh l d d' y :
  renamed model_name l d d' ->
  d !! y = None ->
  is_Some (d' !! y) ->
  exists x, x ∈ l /\ rename_target model_name x = Some y.
Proof.
  intros Hren.
  induction Hren as [d | item l d d' Hkeep Hren IH | item l d new n d' Ht Hnew Hn Hren IH];
    intros Hy Hy'.
  - rewrite Hy in Hy'. by destruct Hy'.
  - destruct (IH Hy Hy') as (x & Hx & Hxt). exists x. split; [by right | done].
  - destruct (decide (new = y)) as [-> | Hne].
    + exists item. split; [by left | done].
    + destruct IH as (x & Hx & Hxt); [|done |].
      * rewrite lookup_insert_ne by done. apply lookup_delete_None. by right.
      * exists x. split; [by right | done].
Qed.

End NormalizerFacts.

(** ** C4: the rename step run twice *)

(** C4: for a model name without [.pth] in it (such as [mymodel]) and
    whatever the order of [os.listdir], the rename step ends without an
    error, and a second run on the directory it leaves changes nothing.
    An entry that already bears a destination name is kept as it is (no
    overwrite), entries whose names hold neither marker are untouched,
    no entry is lost, and when some name holds a marker the matching
    destination exists afterwards.  From [foo.pth] and [bar.index] the
    step makes [mymodel.pth] and [mymodel.index]. *)
Theorem rename_artifacts_idempotent (order : list string -> list string)
    (extract_folder_path model_name : string) (d : gmap string node) :
  (forall l, order l ≡ₚ l) ->
  str_in ".pth" model_name = false ->
  exists d',
    rename_artifacts order extract_folder_path model_name d = (Return tt, d')
    /\ rename_artifacts order extract_folder_path model_name d' = (Return tt, d')
    /\ (forall x n,
        d !! x = Some n ->
        x = model_name +:+ ".pth" \/ x = model_name +:+ ".index" ->
        d' !! x = Some n)
    /\ (forall x,
        str_in ".pth" x = false -> str_in ".index" x = false -> d' !! x = d !! x)
    /\ ((exists x, is_Some (d !! x) /\ str_in ".pth" x = true) ->
        is_Some (d' !! (model_name +:+ ".pth")))
    /\ ((exists x, is_Some (d !! x) /\ str_in ".pth" x = false /\ str_in ".index" x = true) ->
        is_Some (d' !! (model_name +:+ ".index")))
    /\ size d' = size d
    /\ (forall a b,
        d = {[ "foo.pth" := File a; "bar.index" := File b ]} ->
        model_name = "mymodel" ->
        d' = {[ "mymodel.pth" := File a; "mymodel.index" := File b ]}).
Proof.
  intros Hperm Hm.
  destruct (for_each_rename_items extract_folder_path model_name (os_listdir order d) d)
    as (d' & Hrun & Hren).
  { by apply os_listdir_NoDup. }
  { intros x Hx. by apply (os_listdir_elem order Hperm). }
  assert (forall new, new = model_name +:+ ".pth" \/ new = model_name +:+ ".index" ->
            rename_target model_name new = Some new) as Hstable.
  { intros new [-> | ->]; [apply rename_target_pth | by apply rename_target_index]. }
  exists d'. split; [done |]. split; [|split; [|split; [|split; [|split; [|split]]]]].
  - unfold rename_artifacts, bind, get_state. apply for_each_rename_settled.
    intros x new Hx Ht. apply (os_listdir_elem order Hperm) in Hx.
    pose proof (Hstable new (rename_target_cases _ _ _ Ht)) as Hnew.
    destruct (d !! x) as [n|] eqn:Hdx.
    + apply (renamed_destination model_name _ d d' x new Hren); [|done |done].
      apply (os_listdir_elem order Hperm). by rewrite Hdx.
    + destruct (renamed_fresh _ _ _ _ x Hren Hdx Hx) as (z & _ & Hz).
      pose proof (Hstable x (rename_target_cases _ _ _ Hz)) as Hxx.
      by simplify_eq.
  - intros x n Hx Hname. erewrite renamed_stable; eauto.
  - intros x Hpth Hindex. eapply renamed_unmarked; [done |].
    unfold rename_target. by rewrite Hpth, Hindex.
  - intros (x & Hx & Hpth). apply (renamed_destination model_name _ d d' x _ Hren).
    + by apply (os_listdir_elem order Hperm).
    + unfold rename_target. by rewrite Hpth.
    + apply rename_target_pth.
  - intros (x & Hx & Hpth & Hindex).
    apply (renamed_destination model_name _ d d' x _ Hren).
    + by apply (os_listdir_elem order Hperm).
    + unfold rename_target. by rewrite Hpth, Hindex.
    + by apply rename_target_index.
  - by eapply renamed_size.
  - intros a b -> ->. clear Hren Hstable Hm. unfold os_listdir in Hrun.
    assert ((map_to_list ({[ "foo.pth" := File a; "bar.index" := File b ]}
               : gmap string node)).*1 = ["foo.pth"; "bar.index"]) as Hkeys
      by (vm_compute; reflexivity).
    rewrite Hkeys in Hrun.
    destruct (Permutation_length_2_inv (symmetry (Hperm ["foo.pth"; "bar.index"])))
      as [Horder | Horder]; rewrite Horder in Hrun; vm_compute in Hrun;
      injection Hrun as <-; vm_compute; reflexivity.
Qed.

Lemma rename_artifacts_foo_bar :
  exists d',
    rename_artifacts id "/models/mymodel" "mymodel"
      {[ "foo.pth" := File "W"; "bar.index" := File "I" ]} = (Return tt, d')
    /\ rename_artifacts id "/models/mymodel" "mymodel" d' = (Return tt, d')
    /\ d' = {[ "mymodel.pth" := File "W"; "mymodel.index" := File "I" ]}.
Proof.
  destruct (rename_artifacts_idempotent id "/models/mymodel" "mymodel"
    {[ "foo.pth" := File "W"; "bar.index" := File "I" ]}
    (fun l => reflexivity l) eq_refl)
    as (d' & Hrun & Hagain & _ & _ & _ & _ & _ & Hscenario).
  exists d'. split; [done |]. split; [done |]. by apply Hscenario.
Defined.

(** ** The hoist step *)

Lemma filter_none {A} (P : A -> Prop) `{forall x, Decision (P x)} (l : list A) :
  (forall x, x ∈ l -> ~ P x) -> filter P l = [].
Proof.
  induction l as [|x l IH]; intros Hl; [done |].
  rewrite filter_cons_False by (apply Hl; by left).
  apply IH. intros y Hy. apply Hl. by right.
Qed.

Lemma filter_singleton {A} (P : A -> Prop) `{forall x, Decision (P x)} (l : list A) (a : A) :
  NoDup l -> a ∈ l -> P a -> (forall x, x ∈ l -> P x -> x = a) ->
  filter P l = [a].
Proof.
  intros Hnd Ha HPa Huniq.
  induction l as [|x l IH]; [by apply elem_of_nil in Ha |].
  apply NoDup_cons in Hnd as [Hx Hnd].
  assert (forall y, y ∈ l -> P y -> y = a) as Hl by (intros y Hy; apply Huniq; by right).
  destruct (decide (P x)) as [HPx | HPx].
  - assert (x = a) as -> by (apply Huniq; [by left | done]).
    rewrite filter_cons_True by done. f_equal. apply filter_none.
    intros y Hy HPy. apply Hx. by rewrite <- (Hl y Hy HPy).
  - rewrite filter_cons_False by done. apply IH; [done | | done].
    apply elem_of_cons in Ha as [-> | Ha]; done.
Qed.

Section HoistFacts.

Variable order : list string -> list string.
Hypothesis order_perm : forall l, order l ≡ₚ l.
Variable extract_folder_path : string.

(** One call of [shutil.move] in the loop: the item goes up, unless it
    bears the name of the subfolder itself or is a directory that finds
    an entry of its name in the way. *)
Lemma shutil_move_run sub x (d sdc : gmap string node) src :
  d !! sub = Some (Dir sdc) ->
  sdc !! x = Some src ->
  (x <> sub -> is_dir (d !! x) = false) ->
  (x <> sub /\ (is_dir (Some src) = true -> d !! x = None)
   /\ shutil_move extract_folder_path sub x d
      = (Return tt, <[x := src]> (<[sub := Dir (delete x sdc)]> d)))
  \/ (~ (x <> sub /\ (is_dir (Some src) = true -> d !! x = None))
      /\ exists e, shutil_move extract_folder_path sub x d = (Raise e, d)).
Proof.
  intros Hsub Hx Hdir. unfold shutil_move, bind, get_state. rewrite Hsub, Hx.
  destruct (decide (x = sub)) as [-> | Hne].
  { right. rewrite Hsub, Hx. split; [by intros [? _] | eauto]. }
  specialize (Hdir Hne).
  destruct (d !! x) as [[data|inside]|] eqn:Hdx; [| done |].
  - destruct src as [bytes|entries].
    + left. unfold modify. split; [done |]. split; [done |]. done.
    + right. split; [|unfold raise; eauto]. intros [_ Hclash]. by specialize (Hclash eq_refl).
  - left. by unfold modify.
Qed.

Lemma for_each_move sub l (d sdc : gmap string node) :
  NoDup l ->
  d !! sub = Some (Dir sdc) ->
  (forall x, x ∈ l -> is_Some (sdc !! x)) ->
  (forall x, x ∈ l -> x <> sub -> is_dir (d !! x) = false) ->
  ((forall x, x ∈ l -> x <> sub /\ (is_dir (sdc !! x) = true -> d !! x = None))
   /\ exists d' rest,
       for_each l (shutil_move extract_folder_path sub) d = (Return tt, d')
       /\ d' !! sub = Some (Dir rest)
       /\ (forall y, rest !! y = if decide (y ∈ l) then None else sdc !! y)
       /\ (forall y, y <> sub -> d' !! y = if decide (y ∈ l) then sdc !! y else d !! y))
  \/ (~ (forall x, x ∈ l -> x <> sub /\ (is_dir (sdc !! x) = true -> d !! x = None))
      /\ exists e d', for_each l (shutil_move extract_folder_path sub) d = (Raise e, d')).
Proof.
  revert d sdc. induction l as [|x l IH]; intros d sdc Hnd Hsub Hitems Hdirs.
  { left. split; [by intros x Hx%elem_of_nil |]. exists d, sdc.
    repeat split; try done; intros y ?; by rewrite decide_False by apply not_elem_of_nil. }
  apply NoDup_cons in Hnd as [Hx Hnd].
  destruct (Hitems x) as [src Hsrc]; [by left |].
  destruct (shutil_move_run sub x d sdc src Hsub Hsrc) as [(Hne & Hclash & Hmove) | [Hbad [e Hmove]]].
  { apply Hdirs. by left. }
  2:{ right. split.
      - intros Hall. apply Hbad. rewrite <- Hsrc. apply Hall. by left.
      - exists e, d. simpl. unfold bind. by rewrite Hmove. }
  set (dn := <[x := src]> (<[sub := Dir (delete x sdc)]> d)) in *.
  assert (forall y, y ∈ l -> y <> x) as Hlx by (intros y Hy ->; done).
  assert (forall y, y <> x -> y <> sub -> dn !! y = d !! y) as Hdn.
  { intros y ? ?. unfold dn. by rewrite !lookup_insert_ne. }
  destruct (IH dn (delete x sdc) Hnd) as [(Hall & d' & rest & Hrun & Hrest & Hin & Hout)
                                          | (Hnot & e & d' & Hrun)].
  { unfold dn. rewrite lookup_insert_ne by done. by rewrite lookup_insert_eq. }
  { intros y Hy. rewrite lookup_delete_ne by (apply not_eq_sym; by apply Hlx).
    apply Hitems. by right. }
  { intros y Hy Hysub. rewrite Hdn by auto. apply Hdirs; [by right | done]. }
  - left. split.
    + intros y [-> | Hy]%elem_of_cons.
      * split; [done |]. by rewrite Hsrc.
      * destruct (Hall y Hy) as [Hysub Hyclash]. split; [done |].
        intros Hydir. rewrite <- Hdn by auto. apply Hyclash.
        by rewrite lookup_delete_ne by (apply not_eq_sym; by apply Hlx).
    + exists d', rest. split; [simpl; unfold bind; by rewrite Hmove |].
      split; [done |]. split.
      * intros y. rewrite Hin. destruct (decide (y = x)) as [-> | Hyx].
        -- rewrite decide_False by done. rewrite decide_True by (by left).
           apply lookup_delete_eq.
        -- rewrite lookup_delete_ne by done.
           destruct (decide (y ∈ l)).
           ++ by rewrite decide_True by (by right).
           ++ rewrite decide_False; [done |]. by intros [? | ?]%elem_of_cons.
      * intros y Hysub. rewrite Hout by done. destruct (decide (y = x)) as [-> | Hyx].
        -- rewrite decide_False by done. rewrite decide_True by (by left).
           unfold dn. by rewrite lookup_insert_eq.
        -- destruct (decide (y ∈ l)).
           ++ rewrite decide_True by (by right). by rewrite lookup_delete_ne.
           ++ rewrite decide_False by (by intros [? | ?]%elem_of_cons). by apply Hdn.
  - right. split.
    + intros Hall. apply Hnot. intros y Hy.
      destruct (Hall y) as [Hysub Hyclash]; [by right |]. split; [done |].
      rewrite lookup_delete_ne by (apply not_eq_sym; by apply Hlx).
      rewrite Hdn by auto. done.
    + exists e, d'. simpl. unfold bind. by rewrite Hmove.
Qed.

End HoistFacts.

Lemma hoist_subfolders order (d : gmap string node) sub sd :
  (forall l, order l ≡ₚ l) ->
  d !! sub = Some (Dir sd) ->
  (forall x, is_dir (d !! x) = true -> x = sub) ->
  filter (fun f => is_dir (d !! f) = true) (os_listdir order d) = [sub].
Proof.
  intros Hperm Hsub Honly. apply filter_singleton.
  - by apply os_listdir_NoDup.
  - apply (os_listdir_elem order Hperm). by rewrite Hsub.
  - by rewrite Hsub.
  - intros x _. apply Honly.
Qed.

(** The hoist step on a directory whose only subdirectory is [sub]: it
    succeeds exactly when no item of [sub] bears the name [sub] and no
    directory of [sub] finds an entry of its name at the top, and then
    the items of [sub] are merged into the top level, over the top-level
    files of the same names, and [sub] is gone. *)
Lemma hoist_single_subfolder_run order extract_folder_path (d : gmap string node) sub sd :
  (forall l, order l ≡ₚ l) ->
  d !! sub = Some (Dir sd) ->
  (forall x, is_dir (d !! x) = true -> x = sub) ->
  ((forall x, is_Some (sd !! x) -> x <> sub /\ (is_dir (sd !! x) = true -> d !! x = None))
   /\ hoist_single_subfolder order extract_folder_path d = (Return tt, sd ∪ delete sub d))
  \/ (~ (forall x, is_Some (sd !! x) -> x <> sub /\ (is_dir (sd !! x) = true -> d !! x = None))
      /\ exists e d', hoist_single_subfolder order extract_folder_path d = (Raise e, d')).
Proof.
  intros Hperm Hsub Honly.
  assert (hoist_single_subfolder order extract_folder_path d
          = (run for_each (os_listdir order sd) (shutil_move extract_folder_path sub)
             then os_rmdir extract_folder_path sub) d) as ->.
  { unfold hoist_single_subfolder, bind at 1, get_state.
    rewrite (hoist_subfolders order d sub sd) by done. by rewrite Hsub. }
  destruct (for_each_move extract_folder_path sub (os_listdir order sd) d sd)
    as [(Hall & d' & rest & Hrun & Hrest & Hin & Hout) | (Hnot & e & d' & Hrun)].
  - by apply os_listdir_NoDup.
  - done.
  - intros x Hx. by apply (os_listdir_elem order Hperm).
  - intros x _ Hne. destruct (is_dir (d !! x)) eqn:Hdir; [|done]. by apply Honly in Hdir.
  - left.
    assert (forall x, is_Some (sd !! x) ->
              x <> sub /\ (is_dir (sd !! x) = true -> d !! x = None)) as Hall'.
    { intros x Hx. apply Hall. by apply (os_listdir_elem order Hperm). }
    split; [done |].
    assert (rest = ∅) as ->.
    { apply map_empty. intros y. rewrite Hin. case_decide as Hy; [done |].
      apply eq_None_not_Some. intros Hsome. apply Hy.
      by apply (os_listdir_elem order Hperm). }
    unfold bind. rewrite Hrun. unfold os_rmdir, bind, get_state. rewrite Hrest.
    rewrite bool_decide_true by done. unfold modify. f_equal.
    apply map_eq. intros y. destruct (decide (y = sub)) as [-> | Hne].
    + rewrite lookup_delete_eq. symmetry. apply lookup_union_None_2.
      * apply eq_None_not_Some. intros Hsome. by destruct (Hall' sub Hsome).
      * apply lookup_delete_eq.
    + rewrite lookup_delete_ne, Hout by done. case_decide as Hy.
      * apply (os_listdir_elem order Hperm) in Hy as [v Hv]. rewrite Hv.
        symmetry. by apply lookup_union_Some_l.
      * assert (sd !! y = None) as Hnone.
        { apply eq_None_not_Some. intros Hsome. apply Hy.
          by apply (os_listdir_elem order Hperm). }
        rewrite lookup_union_r by done. by rewrite lookup_delete_ne.
  - right. split.
    + intros Hall. apply Hnot. intros x Hx. apply Hall.
      by apply (os_listdir_elem order Hperm).
    + exists e, d'. unfold bind. by rewrite Hrun.
Qed.

Lemma hoist_single_subfolder_skip order extract_folder_path (d : gmap string node) :
  (forall l, order l ≡ₚ l) ->
  (forall sub, ~ (forall x, is_dir (d !! x) = true <-> x = sub)) ->
  hoist_single_subfolder order extract_folder_path d = (Return tt, d).
Proof.
  intros Hperm Hnone. unfold hoist_single_subfolder, bind at 1, get_state.
  destruct (filter _ (os_listdir order d)) as [|sub [|sub' rest]] eqn:Hfilter; [done | | done].
  destruct (Hnone sub). intros x. split.
  - intros Hdir. assert (x ∈ [sub]) as Hx; [|by apply list_elem_of_singleton in Hx].
    rewrite <- Hfilter. apply list_elem_of_filter. split; [done |].
    apply (os_listdir_elem order Hperm). by destruct (d !! x).
  - intros ->. assert (sub ∈ filter (fun f => is_dir (d !! f) = true) (os_listdir order d))
      as Hsub by (rewrite Hfilter; by left).
    by apply list_elem_of_filter in Hsub as [? _].
Qed.

(** ** C3: hoisting the single subfolder *)

(** C3, as the code has it.  When the extraction directory has exactly
    one subdirectory, none of whose items bears the name of that
    subdirectory and none of whose directories bears the name of a
    top-level entry, the hoist step moves every item up one level (a file
    replaces the top-level file of its name), removes the subdirectory
    and leaves the other entries alone.  With no subdirectory or more
    than one, the step does nothing. *)
Theorem hoist_single_subfolder_moves_items (order : list string -> list string)
    (extract_folder_path : string) (d : gmap string node) :
  (forall l, order l ≡ₚ l) ->
  (forall sub sd,
      d !! sub = Some (Dir sd) ->
      (forall x, is_dir (d !! x) = true -> x = sub) ->
      sd !! sub = None ->
      (forall x, is_dir (sd !! x) = true -> d !! x = None) ->
      exists d',
        hoist_single_subfolder order extract_folder_path d = (Return tt, d')
        /\ d' = sd ∪ delete sub d
        /\ (forall x n, sd !! x = Some n -> d' !! x = Some n)
        /\ d' !! sub = None
        /\ (forall x, x <> sub -> sd !! x = None -> d' !! x = d !! x))
  /\ ((forall sub, ~ (forall x, is_dir (d !! x) = true <-> x = sub)) ->
      hoist_single_subfolder order extract_folder_path d = (Return tt, d)).
Proof.
  intros Hperm. split; [|by apply hoist_single_subfolder_skip].
  intros sub sd Hsub Honly Hself Hclash.
  destruct (hoist_single_subfolder_run order extract_folder_path d sub sd Hperm Hsub Honly)
    as [[_ Hrun] | [Hnot _]].
  - exists (sd ∪ delete sub d). split; [done |]. split; [done |]. split; [|split].
    + intros x n Hx. by apply lookup_union_Some_l.
    + apply lookup_union_None_2; [done | apply lookup_delete_eq].
    + intros x Hne Hx. rewrite lookup_union_r by done. by apply lookup_delete_ne.
  - destruct Hnot. intros x Hx. split; [|apply Hclash].
    intros ->. rewrite Hself in Hx. by destruct Hx.
Qed.

Lemma hoist_single_subfolder_wrapper :
  exists d',
    hoist_single_subfolder id "/models/m"
      {[ "wrapper" := Dir {[ "a.pth" := File "W"; "b.index" := File "I" ]} ]}
    = (Return tt, d')
    /\ d' !! "a.pth" = Some (File "W")
    /\ d' !! "b.index" = Some (File "I")
    /\ d' !! "wrapper" = None.
Proof.
  destruct (proj1 (hoist_single_subfolder_moves_items id "/models/m"
    {[ "wrapper" := Dir {[ "a.pth" := File "W"; "b.index" := File "I" ]} ]}
    (fun l => reflexivity l))
    "wrapper" {[ "a.pth" := File "W"; "b.index" := File "I" ]})
    as (d' & Hrun & _ & Hitems & Hgone & _).
  - reflexivity.
  - intros x. destruct (decide (x = "wrapper")) as [-> | Hne]; [done |].
    by rewrite lookup_singleton_ne.
  - reflexivity.
  - intros x Hdir. destruct (decide (x = "wrapper")) as [-> | Hne]; [done |].
    by rewrite lookup_singleton_ne.
  - exists d'. split; [done |]. split; [by apply Hitems |]. split; [by apply Hitems | done].
Defined.

(** C3 as stated fails on name clashes.  When the single subdirectory
    [wrapper] holds an entry called [wrapper], [shutil.move] finds the
    destination to be the directory it is moving from and raises: nothing
    is moved and [wrapper] stays.  When the subdirectory holds a
    directory [model] and the top level has a file [model],
    [shutil.move] raises as well. *)
Lemma hoist_single_subfolder_name_clash :
  let d1 : gmap string node :=
    {[ "wrapper" := Dir {[ "wrapper" := Dir {[ "a.pth" := File "W" ]};
                           "b.index" := File "I" ]} ]} in
  let d2 : gmap string node :=
    {[ "wrapper" := Dir {[ "model" := Dir {[ "a.pth" := File "W" ]} ]};
       "model" := File "notes" ]} in
  (map_to_list d1).*1 = ["wrapper"]
  /\ hoist_single_subfolder id "/models/m" d1
     = (Raise (ShutilError "Destination path '/models/m/wrapper/wrapper' already exists"), d1)
  /\ (map_to_list d2).*1 = ["wrapper"; "model"]
  /\ hoist_single_subfolder id "/models/m" d2
     = (Raise (FileExistsError "/models/m/model"), d2).
Proof. repeat split; vm_compute; reflexivity. Qed.

(** ** C9: the layout after normalisation *)

(** What a hoist step that ends has done. *)
Lemma hoist_single_subfolder_result order extract_folder_path (d d1 : gmap string node) :
  (forall l, order l ≡ₚ l) ->
  hoist_single_subfolder order extract_folder_path d = (Return tt, d1) ->
  (exists sub sd,
      d !! sub = Some (Dir sd)
      /\ (forall x, is_dir (d !! x) = true -> x = sub)
      /\ sd !! sub = None
      /\ d1 = sd ∪ delete sub d)
  \/ ((forall sub, ~ (forall x, is_dir (d !! x) = true <-> x = sub)) /\ d1 = d).
Proof.
  intros Hperm Hrun.
  destruct (filter (fun f => is_dir (d !! f) = true) (os_listdir order d))
    as [|sub [|sub' rest]] eqn:Hfilter.
  - right. split.
    + intros sub Hsub.
      assert (sub ∈ filter (fun f => is_dir (d !! f) = true) (os_listdir order d)) as Hin.
      { apply list_elem_of_filter. assert (is_dir (d !! sub) = true) as Hdir by by apply Hsub.
        split; [done |]. apply (os_listdir_elem order Hperm). by destruct (d !! sub). }
      rewrite Hfilter in Hin. by apply elem_of_nil in Hin.
    + unfold hoist_single_subfolder, bind, get_state in Hrun. rewrite Hfilter in Hrun.
      unfold ret in Hrun. by simplify_eq.
  - left.
    assert (is_dir (d !! sub) = true) as Hdir.
    { assert (sub ∈ filter (fun f => is_dir (d !! f) = true) (os_listdir order d)) as Hin
        by (rewrite Hfilter; by left).
      by apply list_elem_of_filter in Hin as [? _]. }
    destruct (d !! sub) as [[data|sd]|] eqn:Hsub; try done.
    assert (forall x, is_dir (d !! x) = true -> x = sub) as Honly.
    { intros x Hx. assert (x ∈ [sub]) as Hin; [|by apply list_elem_of_singleton in Hin].
      rewrite <- Hfilter. apply list_elem_of_filter. split; [done |].
      apply (os_listdir_elem order Hperm). by destruct (d !! x). }
    exists sub, sd.
    destruct (hoist_single_subfolder_run order extract_folder_path d sub sd Hperm Hsub Honly)
      as [[Hall Hrun'] | [_ (e & d' & Hrun')]]; [|congruence].
    split; [done |]. split; [done |]. split; [|congruence].
    apply eq_None_not_Some. intros Hsome. by destruct (Hall sub Hsome).
  - right. split.
    + intros s Hs.
      assert (forall x, x ∈ sub :: sub' :: rest -> x = s) as Hall.
      { intros x Hx. rewrite <- Hfilter in Hx. apply list_elem_of_filter in Hx as [Hx _].
        by apply Hs. }
      assert (NoDup (sub :: sub' :: rest)) as Hnd.
      { rewrite <- Hfilter. apply NoDup_filter. by apply os_listdir_NoDup. }
      apply NoDup_cons in Hnd as [Hnotin _]. apply Hnotin.
      rewrite (Hall sub) by (by left). rewrite <- (Hall sub') at 1; [by left |].
      right. by left.
    + unfold hoist_single_subfolder, bind, get_state in Hrun. rewrite Hfilter in Hrun.
      unfold ret in Hrun. by simplify_eq.
Qed.

Lemma macosx_unmarked model_name item :
  rename_target model_name item <> Some "__MACOSX".
Proof.
  intros [H | H]%rename_target_cases.
  - pose proof (str_in_pth_suffix model_name) as Hin. by rewrite <- H in Hin.
  - pose proof (str_in_index_suffix model_name) as Hin. by rewrite <- H in Hin.
Qed.

(** C9, as the code has it.  After a normalisation that ended without an
    error, the directory is the hoisted layout [d1] with some entries
    renamed.  [d1] is the extracted tree without its top-level [__MACOSX]
    folder and, when exactly one subdirectory then remained, with the
    items of that subdirectory in its place.  No entry is lost by the
    renaming; every name other than [<model_name>.pth] and
    [<model_name>.index] keeps its entry or loses it, so these two are
    the only names an entry can be renamed to; when some name holds
    [.pth], [<model_name>.pth] exists.  A [__MACOSX] entry is left only
    if it came out of the hoisted subdirectory. *)
Theorem clean_extracted_files_layout (order : list string -> list string)
    (extract_folder_path model_name : string) (d d' : gmap string node) :
  (forall l, order l ≡ₚ l) ->
  clean_extracted_files order extract_folder_path model_name d = (Return tt, d') ->
  exists d1,
    (forall sub sd,
        delete "__MACOSX" d !! sub = Some (Dir sd) ->
        (forall x, is_dir (delete "__MACOSX" d !! x) = true -> x = sub) ->
        d1 = sd ∪ delete sub (delete "__MACOSX" d) /\ d1 !! sub = None)
    /\ ((forall sub, ~ (forall x, is_dir (delete "__MACOSX" d !! x) = true <-> x = sub)) ->
        d1 = delete "__MACOSX" d)
    /\ size d' = size d1
    /\ (forall x,
        x <> model_name +:+ ".pth" -> x <> model_name +:+ ".index" ->
        d' !! x = d1 !! x \/ d' !! x = None)
    /\ ((exists x, is_Some (d1 !! x) /\ str_in ".pth" x = true) ->
        is_Some (d' !! (model_name +:+ ".pth")))
    /\ (is_Some (d' !! "__MACOSX") ->
        exists sub sd, d !! sub = Some (Dir sd) /\ is_Some (sd !! "__MACOSX")).
Proof.
  intros Hperm Hrun. unfold clean_extracted_files, bind at 1 in Hrun.
  assert (remove_macosx extract_folder_path d = (Return tt, delete "__MACOSX" d)
          \/ exists e, remove_macosx extract_folder_path d = (Raise e, d)) as [Hmac | [e Hmac]].
  { unfold remove_macosx, bind, get_state.
    destruct (d !! "__MACOSX") as [[data|entries]|] eqn:Hd.
    - right. unfold raise. eauto.
    - by left.
    - left. unfold ret. by rewrite delete_id. }
  2:{ by rewrite Hmac in Hrun. }
  rewrite Hmac in Hrun. set (d0 := delete "__MACOSX" d) in *.
  unfold bind at 1 in Hrun.
  destruct (hoist_single_subfolder order extract_folder_path d0) as [[[]|e] d1] eqn:Hhoist;
    [|done].
  unfold rename_artifacts, bind, get_state in Hrun.
  destruct (for_each_rename_items extract_folder_path model_name (os_listdir order d1) d1)
    as (d'' & Hrun' & Hren).
  { by apply os_listdir_NoDup. }
  { intros x Hx. by apply (os_listdir_elem order Hperm). }
  assert (d'' = d') as -> by congruence.
  assert (forall x,
    x <> model_name +:+ ".pth" -> x <> model_name +:+ ".index" ->
    d' !! x = d1 !! x \/ d' !! x = None) as Hother.
  { intros x Hpth Hindex. eapply renamed_other; [done |].
    intros item [-> | ->]%rename_target_cases; done. }
  exists d1.
  apply (hoist_single_subfolder_result order _ _ _ Hperm) in Hhoist
    as [(sub & sd & Hsub & Honly & Hself & ->) | [Hnone ->]].
  - split; [|split; [|split; [|split; [|split]]]].
    + intros sub' sd' Hsub' Honly'.
      assert (sub' = sub) as -> by (apply Honly; by rewrite Hsub').
      assert (sd' = sd) as -> by congruence.
      split; [done |]. apply lookup_union_None_2; [done | apply lookup_delete_eq].
    + intros Hnone. destruct (Hnone sub). intros x. split; [apply Honly |].
      intros ->. by rewrite Hsub.
    + by eapply renamed_size.
    + done.
    + intros (x & Hx & Hpth).
      apply (renamed_destination model_name _ _ d' x _ Hren).
      * by apply (os_listdir_elem order Hperm).
      * unfold rename_target. by rewrite Hpth.
      * apply rename_target_pth.
    + intros Hleft. exists sub, sd.
      assert (sub <> "__MACOSX") as Hne.
      { intros ->. unfold d0 in Hsub. by rewrite lookup_delete_eq in Hsub. }
      split; [unfold d0 in Hsub; by rewrite lookup_delete_ne in Hsub |].
      destruct (renamed_other model_name _ _ _ "__MACOSX" Hren (macosx_unmarked model_name))
        as [Heq | Hgone]; [|rewrite Hgone in Hleft; by destruct Hleft].
      rewrite Heq in Hleft. destruct (sd !! "__MACOSX") eqn:Hsd; [eauto |].
      rewrite lookup_union_r, lookup_delete_ne in Hleft by done.
      unfold d0 in Hleft. rewrite lookup_delete_eq in Hleft. by destruct Hleft.
  - split; [|split; [|split; [|split; [|split]]]].
    + intros sub sd Hsub Honly. destruct (Hnone sub). intros x. split; [apply Honly |].
      intros ->. by rewrite Hsub.
    + done.
    + by eapply renamed_size.
    + done.
    + intros (x & Hx & Hpth).
      apply (renamed_destination model_name _ _ d' x _ Hren).
      * by apply (os_listdir_elem order Hperm).
      * unfold rename_target. by rewrite Hpth.
      * apply rename_target_pth.
    + intros Hleft.
      destruct (renamed_other model_name _ _ _ "__MACOSX" Hren (macosx_unmarked model_name))
        as [Heq | Hgone]; [|rewrite Hgone in Hleft; by destruct Hleft].
      rewrite Heq in Hleft. unfold d0 in Hleft. rewrite lookup_delete_eq in Hleft.
      by destruct Hleft.
Qed.

Lemma clean_extracted_files_wrapper :
  clean_extracted_files id "/models/mymodel" "mymodel"
    {[ "__MACOSX" := Dir {[ "._a.pth" := File "" ]};
       "wrapper" := Dir {[ "a.pth" := File "W"; "b.index" := File "I" ]} ]}
  = (Return tt, {[ "mymodel.pth" := File "W"; "mymodel.index" := File "I" ]})
  /\ exists d1,
      d1 = {[ "a.pth" := File "W"; "b.index" := File "I" ]}
             ∪ delete "wrapper"
                 (delete "__MACOSX"
                    ({[ "__MACOSX" := Dir {[ "._a.pth" := File "" ]};
                        "wrapper" := Dir {[ "a.pth" := File "W"; "b.index" := File "I" ]} ]}
                     : gmap string node))
      /\ size ({[ "mymodel.pth" := File "W"; "mymodel.index" := File "I" ]}
               : gmap string node) = size d1.
Proof.
  assert (clean_extracted_files id "/models/mymodel" "mymodel"
    {[ "__MACOSX" := Dir {[ "._a.pth" := File "" ]};
       "wrapper" := Dir {[ "a.pth" := File "W"; "b.index" := File "I" ]} ]}
    = (Return tt, {[ "mymodel.pth" := File "W"; "mymodel.index" := File "I" ]})) as Hrun
    by (vm_compute; reflexivity).
  split; [exact Hrun |].
  destruct (clean_extracted_files_layout id "/models/mymodel" "mymodel" _ _
    (fun l => reflexivity l) Hrun) as (d1 & Hhoist & _ & Hsize & _).
  exists d1. split; [|done].
  apply (Hhoist "wrapper" {[ "a.pth" := File "W"; "b.index" := File "I" ]}).
  - vm_compute. reflexivity.
  - intros x. destruct (decide (x = "wrapper")) as [-> | Hne]; [done |].
    destruct (decide (x = "__MACOSX")) as [-> | Hne']; [by rewrite lookup_delete_eq |].
    rewrite lookup_delete_ne by done. rewrite lookup_insert_ne by done.
    by rewrite lookup_singleton_ne.
Defined.

(** C9 as stated fails on archives with two levels of wrapping.  In the
    first tree the wrapper holds one folder, which takes its place: a
    single subfolder remains around the weights file, which is not
    renamed.  In the second tree the wrapper holds a [__MACOSX] folder,
    which is hoisted after the removal of line 296 and remains. *)
Lemma clean_extracted_files_nested :
  clean_extracted_files id "/models/mymodel" "mymodel"
    {[ "wrapper" := Dir {[ "inner" := Dir {[ "a.pth" := File "W" ]} ]} ]}
  = (Return tt, {[ "inner" := Dir {[ "a.pth" := File "W" ]} ]})
  /\ clean_extracted_files id "/models/mymodel" "mymodel"
       {[ "wrapper" := Dir {[ "__MACOSX" := Dir ∅; "a.pth" := File "W" ]} ]}
     = (Return tt, {[ "__MACOSX" := Dir ∅; "mymodel.pth" := File "W" ]}).
Proof. split; vm_compute; reflexivity. Qed.

(** With a model name that holds [.pth], the destination of an index
    file holds the weights marker, and a second run renames it again. *)
Remark rename_artifacts_marker_in_model_name :
  rename_artifacts id "/models/a.pth" "a.pth" {[ "x.index" := File "I" ]}
  = (Return tt, {[ "a.pth.index" := File "I" ]})
  /\ rename_artifacts id "/models/a.pth" "a.pth" {[ "a.pth.index" := File "I" ]}
     = (Return tt, {[ "a.pth.pth" := File "I" ]}).
Proof. split; vm_compute; reflexivity. Qed.

(** * Further properties *)

(** ** More on strings *)

Lemma str_startswith_app_l p s t :
  str_startswith p s = true -> str_startswith p (s +:+ t) = true.
Proof.
  intros [r ->]%str_startswith_inv. rewrite str_app_assoc. apply str_startswith_app.
Qed.

Lemma str_in_app_l sub s t : str_in sub s = true -> str_in sub (s +:+ t) = true.
Proof.
  induction s as [|c s IH]; intros Hin.
  - simpl in Hin. rewrite orb_false_r in Hin. destruct sub; [|done].
    by destruct ("" +:+ t).
  - rewrite str_app_cons, str_in_cons. rewrite str_in_cons in Hin.
    apply orb_true_iff in Hin as [Hs | Hin].
    + rewrite <- str_app_cons, (str_startswith_app_l _ _ _ Hs). done.
    + rewrite (IH Hin). apply orb_true_r.
Qed.

(** A text that does not hold the first character of [sub] cannot hold
    the start of an occurrence of [sub]. *)
Lemma str_in_skip_prefix b sub pre s :
  str_in (String b "") pre = false ->
  str_in (String b sub) (pre +:+ s) = str_in (String b sub) s.
Proof.
  intros Hpre. induction pre as [|c pre IH]; [done |].
  apply str_in_cons_false in Hpre as [Hc Hpre]. rewrite str_startswith_char in Hc.
  apply bool_decide_eq_false in Hc.
  rewrite str_app_cons, str_in_cons, (IH Hpre). simpl. by rewrite decide_False.
Qed.

(** What comes before the first occurrence of a character does not hold
    that character. *)
Lemma str_before_char_free c s :
  str_in (String c "") (str_before (String c "") s) = false.
Proof.
  induction s as [|b s IH]; [done |].
  destruct (str_startswith (String c "") (String b s)) eqn:Hs.
  - unfold str_before. by rewrite str_partition_cons, Hs.
  - rewrite str_before_cons by done. by rewrite str_in_cons, str_startswith_char,
      <- (str_startswith_char c b s), Hs.
Qed.

(** The start of a rewritten text is the start of the text, as long as
    it does not hold the first character of the replacement. *)
Lemma str_startswith_replace p old r new s :
  str_in (String r "") p = false ->
  str_startswith p (replace_go old (String r new) 0 s) = true ->
  str_startswith p s = true.
Proof.
  revert s. induction p as [|a p IH]; intros s Hr Hs; [done |].
  apply str_in_cons_false in Hr as [Ha Hr]. rewrite str_startswith_char in Ha.
  apply bool_decide_eq_false in Ha.
  destruct s as [|c s]; [done |]. rewrite replace_go_cons in Hs.
  destruct (str_startswith old (String c s)).
  - rewrite str_app_cons in Hs. simpl in Hs. by rewrite decide_False in Hs by congruence.
  - simpl in *. case_decide; [|done]. by apply IH.
Qed.

(** When the replacement does not hold the first character of [old] and
    [old] does not hold the first character of the replacement, no
    occurrence of [old] is left after [replace]. *)
Lemma str_replace_gone b old r new s :
  str_in (String b "") (String r new) = false ->
  str_in (String r "") (String b old) = false ->
  str_in (String b old) (str_replace (String b old) (String r new) s) = false.
Proof.
  intros Hnew Hold. unfold str_replace. generalize 0 as k.
  induction s as [|c s IH]; intros k; [done |].
  destruct k as [|k]; [|apply IH].
  rewrite replace_go_cons.
  destruct (str_startswith (String b old) (String c s)) eqn:Hs.
  - rewrite str_in_skip_prefix by done. apply IH.
  - rewrite str_in_cons, IH, orb_false_r.
    destruct (str_startswith (String b old) (String c (replace_go _ _ 0 s))) eqn:Hs';
      [|done].
    simpl in Hs, Hs'. case_decide; [|done]. subst c.
    apply str_in_cons_false in Hold as [_ Hold].
    by rewrite (str_startswith_replace old (String b old) r new s Hold Hs') in Hs.
Qed.

(** ** The fetch stage *)

(** X1: the two list indexings of [extract_google_drive_id] are always
    in range, so that it returns for every URL; an identifier found
    after [file/d/] holds no [/], one found after [id=] holds no [&]. *)
Theorem extract_google_drive_id_in_range (url : string) :
  exists o,
    extract_google_drive_id url = Return o
    /\ forall id, o = Some id ->
         if str_in "file/d/" url then str_in "/" id = false else str_in "&" id = false.
Proof.
  rewrite extract_google_drive_id_unfold.
  destruct (str_partition "file/d/" url) as [[b a]|] eqn:Hfile.
  - eexists. split; [done |]. intros id [= <-].
    destruct (str_in "file/d/" url) eqn:Hin.
    + apply str_before_char_free.
    + apply str_partition_None in Hin. congruence.
  - apply str_partition_None in Hfile as ->.
    destruct (str_partition "id=" url) as [[b a]|].
    + eexists. split; [done |]. intros id [= <-]. apply str_before_char_free.
    + eexists. split; [done |]. by intros id.
Qed.

(** X2: a Google Drive URL in which the first [file/d/] is followed at
    once by [/] or by the end gives an empty identifier, which line 64
    takes for a missing one: [gdown] is not called, the invalid URL is
    logged and [None] is returned. *)
Theorem download_from_url_empty_id (E : env) (url pre post : string) (w : world) :
  url = pre +:+ "file/d/" +:+ post ->
  str_in "file/d/" (pre +:+ "file/d") = false ->
  post = "" \/ str_startswith "/" post = true ->
  str_in "drive.google.com" url = true ->
  getcwd_error E w = None ->
  (forall p w', chdir_error E p w' = None) ->
  extract_google_drive_id url = Return (Some "")
  /\ download_from_url E url w
     = (Return None,
        World (cwd w) (zips w) (log_lines w ++ ["ERROR - Invalid Google Drive URL"])%list).
Proof.
  intros Hurl Hfirst Hpost Hdrive Hcwd Hchdir.
  assert (extract_google_drive_id url = Return (Some "")) as Hid.
  { rewrite extract_google_drive_id_unfold, Hurl, (str_partition_first "file/d" "/") by done.
    do 2 f_equal. destruct Hpost as [-> | Hpost]; [done |].
    apply str_startswith_inv in Hpost as [r ->]. rewrite str_app_cons, str_app_nil_l.
    by rewrite str_before_cons. }
  split; [done |].
  run_M. rewrite Hcwd, !Hchdir, Hdrive. simpl. rewrite Hid. simpl. by rewrite Hchdir.
Qed.

Lemma download_from_url_empty_id_view :
  download_from_url (test_env (Raise (OSError "offline")) (fun _ => None))
    "https://drive.google.com/file/d//view" (World "/srv" ∅ [])
  = (Return None, World "/srv" ∅ ["ERROR - Invalid Google Drive URL"]).
Proof.
  apply (proj2 (download_from_url_empty_id
    (test_env (Raise (OSError "offline")) (fun _ => None))
    "https://drive.google.com/file/d//view" "https://drive.google.com/" "/view"
    (World "/srv" ∅ []) eq_refl eq_refl (or_intror eq_refl) eq_refl eq_refl
    (fun _ _ => eq_refl))).
Defined.

(** X3: [download_blob_or_resolve] sends its request to the rewritten
    URL; on a status other than 200 it raises the error with that status
    and leaves the world as it was. *)
Theorem download_blob_or_resolve_status_error (E : env) (url : string) (w : world)
    (r : response) :
  requests_get E (blob_to_resolve url) w = Return r ->
  status_code r <> 200%Z ->
  download_blob_or_resolve E url w
  = (Raise (ValueError ("Download failed with status code: " +:+ pretty (status_code r))), w).
Proof.
  intros Hget Hstatus. run_M. rewrite Hget. by rewrite bool_decide_false.
Qed.

Lemma download_blob_or_resolve_status_403 :
  download_blob_or_resolve
    (test_env (Return (Response 403 None None "" [] None)) (fun _ => None))
    "https://huggingface.co/u/m/blob/main/model.zip" (World "/srv" ∅ [])
  = (Raise (ValueError "Download failed with status code: 403"), World "/srv" ∅ []).
Proof.
  apply (download_blob_or_resolve_status_error _ _ _ (Response 403 None None "" [] None));
    [reflexivity | discriminate].
Defined.

Lemma head_filter_first {A} (P : A -> Prop) `{forall x, Decision (P x)}
    (before after : list A) (a : A) :
  Forall (fun x => ~ P x) before -> P a ->
  head (filter P (before ++ a :: after)%list) = Some a.
Proof.
  intros Hbefore Ha. induction Hbefore as [|x before Hx Hbefore IH]; simpl.
  - by rewrite filter_cons_True.
  - by rewrite filter_cons_False.
Qed.

Lemma str_endswith_nonempty p s : p <> "" -> str_endswith p s = true -> s <> "".
Proof.
  intros Hp Hs ->. unfold str_endswith in Hs. apply bool_decide_eq_true in Hs.
  simpl in Hs. by destruct p.
Qed.

(** X4: when the listing page has no link that ends in [.zip],
    [download_from_huggingface] raises its error and the world is as it
    was. *)
Theorem download_from_huggingface_no_zip (E : env) (url : string) (w : world)
    (r : response) (hrefs : list string) :
  requests_get E url w = Return r ->
  anchor_hrefs E (content r) = Return hrefs ->
  Forall (fun h => str_endswith ".zip" h = false) hrefs ->
  download_from_huggingface E url w
  = (Raise (ValueError "No zip file found in Huggingface URL"), w).
Proof.
  intros Hget Hhrefs Hnone. unfold download_from_huggingface, bind, http_get, lift.
  rewrite Hget, Hhrefs. rewrite filter_none; [done |].
  intros h Hh. rewrite Forall_forall in Hnone. by rewrite (Hnone h Hh).
Qed.

Lemma download_from_huggingface_no_zip_example :
  download_from_huggingface
    (test_env (Return (Response 200 None None "<html>" [] None)) (fun _ => None))
    "https://huggingface.co/u/m/tree/main" (World "/srv" ∅ [])
  = (Raise (ValueError "No zip file found in Huggingface URL"), World "/srv" ∅ []).
Proof.
  apply (download_from_huggingface_no_zip _ _ _ (Response 200 None None "<html>" [] None) []);
    [reflexivity | reflexivity | constructor].
Defined.

(** X5: [download_from_huggingface] takes the first link that ends in
    [.zip] and hands [download_file] a URL in which every [blob] of the
    link, wherever it stands, has become [resolve]; the host is put in
    front exactly when [huggingface.co] is not in the rewritten link.
    The URL fetched holds [huggingface.co] and no [blob]. *)
Theorem download_from_huggingface_link (E : env) (url : string) (w : world) (r : response)
    (before after : list string) (link : string) :
  requests_get E url w = Return r ->
  anchor_hrefs E (content r) = Return (before ++ link :: after)%list ->
  Forall (fun h => str_endswith ".zip" h = false) before ->
  str_endswith ".zip" link = true ->
  exists target,
    download_from_huggingface E url w = download_file E target w
    /\ target = (if str_in "huggingface.co" (str_replace "blob" "resolve" link)
                 then str_replace "blob" "resolve" link
                 else "https://huggingface.co" +:+ str_replace "blob" "resolve" link)
    /\ str_in "huggingface.co" target = true
    /\ str_in "blob" target = false.
Proof.
  intros Hget Hhrefs Hbefore Hlink.
  assert (str_in "blob" (str_replace "blob" "resolve" link) = false) as Hgone
    by by apply (str_replace_gone "b" "lob" "r" "esolve").
  unfold download_from_huggingface, bind at 1, http_get. rewrite Hget.
  unfold bind at 1, lift. rewrite Hhrefs.
  rewrite (head_filter_first _ before after link).
  2:{ eapply Forall_impl; [done |]. intros h Hh. by rewrite Hh. }
  2:{ done. }
  assert (link <> "") as Hne by by apply (str_endswith_nonempty ".zip").
  unfold truthy. rewrite bool_decide_false by done. simpl.
  destruct (str_in "huggingface.co" (str_replace "blob" "resolve" link)) eqn:Hhost; simpl.
  - eexists. split; [done |]. split; [done |]. done.
  - eexists. split; [done |]. split; [done |]. split.
    + apply (str_in_app_l "huggingface.co" "https://huggingface.co").
      apply (str_in_app_r "huggingface.co" "https://").
    + by rewrite (str_in_skip_prefix "b" "lob" "https://huggingface.co").
Qed.

Lemma download_from_huggingface_link_example :
  download_from_huggingface
    (with_hrefs (test_env (Return (Response 404 None None "" [] None)) (fun _ => None))
       ["/u/blobfish"; "/u/blobfish/blob/main/voice.zip"; "/u/blobfish/blob/main/b.zip"])
    "https://huggingface.co/u/blobfish/tree/main" (World "/srv" ∅ [])
  = download_file
      (with_hrefs (test_env (Return (Response 404 None None "" [] None)) (fun _ => None))
         ["/u/blobfish"; "/u/blobfish/blob/main/voice.zip"; "/u/blobfish/blob/main/b.zip"])
      "https://huggingface.co/u/resolvefish/resolve/main/voice.zip" (World "/srv" ∅ [])
  /\ download_from_huggingface
       (with_hrefs (test_env (Return (Response 404 None None "" [] None)) (fun _ => None))
          ["https://huggingface.co/u/m/blob/main/voice.zip"])
       "https://huggingface.co/u/m/tree/main" (World "/srv" ∅ [])
     = download_file
         (with_hrefs (test_env (Return (Response 404 None None "" [] None)) (fun _ => None))
            ["https://huggingface.co/u/m/blob/main/voice.zip"])
         "https://huggingface.co/u/m/resolve/main/voice.zip" (World "/srv" ∅ []).
Proof.
  split.
  - destruct (download_from_huggingface_link
      (with_hrefs (test_env (Return (Response 404 None None "" [] None)) (fun _ => None))
         ["/u/blobfish"; "/u/blobfish/blob/main/voice.zip"; "/u/blobfish/blob/main/b.zip"])
      "https://huggingface.co/u/blobfish/tree/main" (World "/srv" ∅ [])
      (Response 404 None None "" [] None)
      ["/u/blobfish"] ["/u/blobfish/blob/main/b.zip"] "/u/blobfish/blob/main/voice.zip"
      eq_refl eq_refl) as (target & Hrun & Htarget & _).
    + repeat constructor.
    + reflexivity.
    + rewrite Hrun, Htarget. vm_compute. reflexivity.
  - destruct (download_from_huggingface_link
      (with_hrefs (test_env (Return (Response 404 None None "" [] None)) (fun _ => None))
         ["https://huggingface.co/u/m/blob/main/voice.zip"])
      "https://huggingface.co/u/m/tree/main" (World "/srv" ∅ [])
      (Response 404 None None "" [] None)
      [] [] "https://huggingface.co/u/m/blob/main/voice.zip"
      eq_refl eq_refl) as (target & Hrun & Htarget & _).
    + constructor.
    + reflexivity.
    + rewrite Hrun, Htarget. vm_compute. reflexivity.
Defined.

(** ** Saving a response *)

Lemma for_each_file_write_content name l w old :
  zips w !! name = Some (File old) ->
  for_each l (fun data => file_write name data) w
  = (Return tt,
     World (cwd w) (<[name := File (old +:+ foldr String.append "" l)]> (zips w))
       (log_lines w)).
Proof.
  revert w old. induction l as [|data l IH]; intros w old Hname; simpl.
  - unfold ret. rewrite str_app_nil_r. rewrite insert_id by done. by destruct w.
  - unfold bind, file_write at 1, modify.
    erewrite IH; simpl.
    2:{ rewrite lookup_alter_eq, Hname. done. }
    do 2 f_equal. rewrite str_app_assoc.
    apply map_eq. intros n. destruct (decide (n = name)) as [-> | Hne].
    + by rewrite !lookup_insert_eq.
    + by rewrite !lookup_insert_ne, lookup_alter_ne by done.
Qed.

(** X6: when the declared length parses, the file opens and the stream
    ends well, [save_response_content] leaves in the staging directory,
    under the saved name, a file that holds the chunks in the order
    received and nothing of a former file of that name; everything else
    is as it was. *)
Theorem save_response_content_written (E : env) (r : response) (w : world) :
  (forall v, content_length r = Some v -> exists n, py_int E v = Return n) ->
  saved_file_name E r <> "." ->
  saved_file_name E r <> ".." ->
  is_dir (zips w !! saved_file_name E r) = false ->
  open_error E (os_path_join (zips_path E) (saved_file_name E r)) w = None ->
  stream_error r = None ->
  save_response_content E r w
  = (Return tt,
     World (cwd w)
       (<[saved_file_name E r := File (foldr String.append "" (chunks r))]> (zips w))
       (log_lines w)).
Proof.
  intros Hint Hdot Hdots Hdir Hopen Hstream.
  unfold save_response_content, bind at 1, lift.
  assert (exists n, match content_length r with Some v => py_int E v | None => Return 0%Z end
                    = Return n) as [n ->].
  { destruct (content_length r) as [v|]; [by apply Hint | by exists 0%Z]. }
  unfold bind at 1, open_wb.
  rewrite !bool_decide_false, Hdir, Hopen by done. simpl.
  unfold bind. erewrite for_each_file_write_content by apply lookup_insert_eq.
  rewrite Hstream. unfold ret. simpl. by rewrite insert_insert_eq.
Qed.

Lemma save_response_content_written_example :
  save_response_content
    (test_env (Raise (OSError "offline")) (fun _ => None))
    (Response 200
       (Some ("attachment; " +:+ filename_open +:+ "my/model.zip" +:+ String dquote ""))
       (Some "6") "" ["PK"; "12"; "34"] None)
    (World "/srv" {[ "my_model.zip" := File "stale" ]} [])
  = (Return tt, World "/srv" {[ "my_model.zip" := File "PK1234" ]} []).
Proof.
  rewrite save_response_content_written.
  - vm_compute. reflexivity.
  - intros v _. by exists 0%Z.
  - vm_compute. discriminate.
  - vm_compute. discriminate.
  - vm_compute. reflexivity.
  - reflexivity.
  - reflexivity.
Defined.

(** X7: when the stream breaks after some chunks, [save_response_content]
    raises the error of the stream and the file stays in the staging
    directory with the chunks that had arrived. *)
Theorem save_response_content_partial (E : env) (r : response) (w : world) (e : exn) :
  (forall v, content_length r = Some v -> exists n, py_int E v = Return n) ->
  saved_file_name E r <> "." ->
  saved_file_name E r <> ".." ->
  is_dir (zips w !! saved_file_name E r) = false ->
  open_error E (os_path_join (zips_path E) (saved_file_name E r)) w = None ->
  stream_error r = Some e ->
  save_response_content E r w
  = (Raise e,
     World (cwd w)
       (<[saved_file_name E r := File (foldr String.append "" (chunks r))]> (zips w))
       (log_lines w)).
Proof.
  intros Hint Hdot Hdots Hdir Hopen Hstream.
  unfold save_response_content, bind at 1, lift.
  assert (exists n, match content_length r with Some v => py_int E v | None => Return 0%Z end
                    = Return n) as [n ->].
  { destruct (content_length r) as [v|]; [by apply Hint | by exists 0%Z]. }
  unfold bind at 1, open_wb.
  rewrite !bool_decide_false, Hdir, Hopen by done. simpl.
  unfold bind. erewrite for_each_file_write_content by apply lookup_insert_eq.
  rewrite Hstream. unfold raise. simpl. by rewrite insert_insert_eq.
Qed.

Lemma save_response_content_partial_example :
  save_response_content
    (test_env (Raise (OSError "offline")) (fun _ => None))
    (Response 200 None None "" ["PK"; "12"] (Some (OSError "Connection reset")))
    (World "/srv" ∅ [])
  = (Raise (OSError "Connection reset"),
     World "/srv" {[ "downloaded_file" := File "PK12" ]} []).
Proof.
  rewrite (save_response_content_partial _ _ _ (OSError "Connection reset")).
  - vm_compute. reflexivity.
  - intros v Hv. discriminate.
  - vm_compute. discriminate.
  - vm_compute. discriminate.
  - vm_compute. reflexivity.
  - reflexivity.
  - reflexivity.
Defined.

(** X8: nothing is created or changed when [save_response_content]
    fails before it writes: on a [Content-Length] that [int] rejects, and
    on a saved name that is [.], [..] or a directory of the staging
    directory, which [open] refuses. *)
Theorem save_response_content_refused (E : env) (r : response) (w : world) :
  (forall v e,
      content_length r = Some v -> py_int E v = Raise e ->
      save_response_content E r w = (Raise e, w))
  /\ ((forall v, content_length r = Some v -> exists n, py_int E v = Return n) ->
      saved_file_name E r = "." \/ saved_file_name E r = ".."
      \/ is_dir (zips w !! saved_file_name E r) = true ->
      save_response_content E r w
      = (Raise (IsADirectoryError (os_path_join (zips_path E) (saved_file_name E r))), w)).
Proof.
  split.
  - intros v e Hv Hint. unfold save_response_content, bind at 1, lift. by rewrite Hv, Hint.
  - intros Hint Hname. unfold save_response_content, bind at 1, lift.
    assert (exists n, match content_length r with Some v => py_int E v | None => Return 0%Z end
                      = Return n) as [n ->].
    { destruct (content_length r) as [v|]; [by apply Hint | by exists 0%Z]. }
    unfold bind at 1, open_wb.
    destruct Hname as [-> | [-> | ->]]; [done | done |].
    by rewrite orb_true_r.
Qed.

Lemma save_response_content_refused_example :
  save_response_content
    (test_env (Raise (OSError "offline")) (fun _ => None))
    (Response 200 (Some ("attachment; " +:+ filename_open +:+ ".." +:+ String dquote ""))
       None "" ["PK"] None)
    (World "/srv" {[ "old.zip" := File "PK" ]} [])
  = (Raise (IsADirectoryError "/home/user/.bfrvc/logs/zips/.."),
     World "/srv" {[ "old.zip" := File "PK" ]} []).
Proof.
  rewrite (proj2 (save_response_content_refused _ _ _)).
  - vm_compute. reflexivity.
  - intros v Hv. discriminate.
  - right. left. vm_compute. reflexivity.
Defined.

(** ** Renaming after the fetch *)

Lemma splitext_go_app seen p :
  fst (splitext_go seen p) +:+ snd (splitext_go seen p) = p.
Proof.
  revert seen. induction p as [|c p IH]; intros seen; [done |]. simpl.
  specialize (IH (seen || negb (bool_decide (c = "."%char)))).
  destruct (splitext_go _ p) as [root ext]. simpl in IH.
  destruct (_ && _); simpl; [done |]. by rewrite str_app_cons, IH.
Qed.

Lemma str_in_char_rev_app c s acc :
  str_in (String c "") (String.rev_app s acc)
  = str_in (String c "") s || str_in (String c "") acc.
Proof.
  revert acc. induction s as [|a s IH]; intros acc; [done |].
  simpl String.rev_app. rewrite IH, !str_in_cons, !str_startswith_char.
  destruct (bool_decide (c = a)), (str_in (String c "") s); done.
Qed.

Lemma str_in_char_rev c s : str_in (String c "") (String.rev s) = str_in (String c "") s.
Proof. unfold String.rev. rewrite str_in_char_rev_app. simpl. by rewrite !orb_false_r. Qed.

Lemma str_in_app_l_false sub s t : str_in sub (s +:+ t) = false -> str_in sub s = false.
Proof.
  intros Hst. destruct (str_in sub s) eqn:Hs; [|done].
  by rewrite (str_in_app_l _ _ t Hs) in Hst.
Qed.

(** [os.path.splitext] of a name without separator: the two parts make
    up the name. *)
Lemma os_path_splitext_plain file :
  str_in "/" file = false ->
  fst (os_path_splitext file) +:+ snd (os_path_splitext file) = file.
Proof.
  intros Hfile. unfold os_path_splitext.
  assert (str_partition "/" (String.rev file) = None) as ->.
  { apply str_partition_None. by rewrite str_in_char_rev. }
  apply splitext_go_app.
Qed.

(** For a name without separator, the new name of line 200 is the
    name itself. *)
Lemma rename_plain_name file :
  str_in "/" file = false ->
  str_replace os_path_sep "_" (os_path_splitext file).1 +:+ (os_path_splitext file).2 = file.
Proof.
  intros Hsep. pose proof (os_path_splitext_plain file Hsep) as Hparts.
  rewrite str_replace_absent; [done.. |].
  apply (str_in_app_l_false _ _ (os_path_splitext file).2). by rewrite Hparts.
Qed.

Lemma rename_downloaded_file_plain (E : env) (current_path file : string) (w : world) :
  str_in "/" file = false ->
  (let '(file_name, extension) := os_path_splitext file in
   let real_path := os_path_join current_path file in
   let new_path :=
     os_path_join current_path (str_replace os_path_sep "_" file_name +:+ extension) in
   if bool_decide (real_path = new_path) then ret tt
   else os_rename E real_path new_path) w = (Return tt, w).
Proof.
  intros Hsep. pose proof (rename_plain_name file Hsep) as Hname.
  destruct (os_path_splitext file) as [file_name extension]. simpl in *.
  rewrite Hname. by rewrite bool_decide_true.
Qed.

Lemma for_each_skip {S A} (l : list A) (body : A -> M S unit) (s : S) :
  (forall x, x ∈ l -> body x s = (Return tt, s)) ->
  for_each l body s = (Return tt, s).
Proof.
  induction l as [|x l IH]; intros Hl; [done |]. simpl. unfold bind.
  rewrite Hl by (by left). apply IH. intros y Hy. apply Hl. by right.
Qed.

(** X9: when no file name that [os.walk] reports holds a separator, as
    is the case of every name a POSIX directory can hold,
    [rename_downloaded_files] compares each path with itself: it calls
    [os.rename] for none and leaves the world as it is. *)
Theorem rename_downloaded_files_plain_names (E : env) (w : world) :
  (forall current_path zip_files file,
      (current_path, zip_files) ∈ os_walk E (zips_path E) w ->
      file ∈ zip_files ->
      str_in "/" file = false) ->
  rename_downloaded_files E w = (Return tt, w).
Proof.
  intros Hplain. unfold rename_downloaded_files, bind, get_state.
  apply for_each_skip. intros [current_path zip_files] Hwalk.
  apply for_each_skip. intros file Hfile.
  apply rename_downloaded_file_plain. by apply (Hplain _ _ _ Hwalk Hfile).
Qed.

Lemma rename_downloaded_files_plain_names_example :
  rename_downloaded_files
    (with_walk (test_env (Raise (OSError "offline")) (fun _ => None))
       [("/home/user/.bfrvc/logs/zips", ["my voice.zip"; ".keep"; "a.tar.gz"])]
       (fun _ _ => raise (OSError "renamed")))
    (World "/srv" ∅ [])
  = (Return tt, World "/srv" ∅ []).
Proof.
  apply rename_downloaded_files_plain_names.
  intros current_path zip_files file Hwalk Hfile.
  apply list_elem_of_singleton in Hwalk. injection Hwalk as -> ->.
  repeat (apply elem_of_cons in Hfile as [-> | Hfile]; [reflexivity |]).
  by apply elem_of_nil in Hfile.
Defined.

(** X10: a generic URL (none of the markers of the other strategies in
    it) that is answered with status 200, in a world where the file can
    be written and the names of the staging directory hold no separator:
    [download_from_url] returns [downloaded], the staging directory has
    gained the response under its saved name and nothing else, nothing is
    logged and the working directory is the one the call started in. *)
Theorem download_from_url_generic (E : env) (url : string) (w : world) (r : response) :
  str_in "drive.google.com" url = false ->
  str_in "/blob/" url = false ->
  str_in "/resolve/" url = false ->
  str_in "/tree/main" url = false ->
  getcwd_error E w = None ->
  (forall p w', chdir_error E p w' = None) ->
  (forall w', requests_get E url w' = Return r) ->
  status_code r = 200%Z ->
  (forall v, content_length r = Some v -> exists n, py_int E v = Return n) ->
  saved_file_name E r <> "." ->
  saved_file_name E r <> ".." ->
  is_dir (zips w !! saved_file_name E r) = false ->
  (forall p w', open_error E p w' = None) ->
  stream_error r = None ->
  (forall w' current_path zip_files file,
      (current_path, zip_files) ∈ os_walk E (zips_path E) w' ->
      file ∈ zip_files ->
      str_in "/" file = false) ->
  download_from_url E url w
  = (Return (Some "downloaded"),
     World (cwd w)
       (<[saved_file_name E r := File (foldr String.append "" (chunks r))]> (zips w))
       (log_lines w)).
Proof.
  intros Hdrive Hblob Hresolve Htree Hcwd Hchdir Hget Hstatus Hint Hdot Hdots Hdir
    Hopen Hstream Hwalk.
  unfold download_from_url, bind at 1, os_getcwd. rewrite Hcwd.
  unfold try_finally, try_except, download_from_url_body, bind at 1, os_chdir at 1.
  rewrite Hchdir, Hdrive, Hblob, Hresolve, Htree. simpl.
  unfold bind at 1, download_file, bind at 1, http_get. rewrite Hget, Hstatus. simpl.
  unfold save_response_content, bind at 1, lift.
  assert (exists n, match content_length r with Some v => py_int E v | None => Return 0%Z end
                    = Return n) as [n ->].
  { destruct (content_length r) as [v|]; [by apply Hint | by exists 0%Z]. }
  unfold bind at 1, open_wb. simpl.
  rewrite !bool_decide_false, Hdir, Hopen by done. simpl.
  unfold bind at 1. erewrite for_each_file_write_content by apply lookup_insert_eq.
  rewrite Hstream. unfold ret at 1. simpl. rewrite insert_insert_eq.
  unfold bind at 1, rename_downloaded_files, bind at 1, get_state.
  rewrite for_each_skip.
  - unfold ret, os_chdir. by rewrite Hchdir.
  - intros [current_path zip_files] Hin. apply for_each_skip. intros file Hfile.
    apply rename_downloaded_file_plain. by apply (Hwalk _ _ _ _ Hin Hfile).
Qed.

Lemma download_from_url_generic_example :
  download_from_url
    (with_walk
       (test_env
          (Return (Response 200
             (Some ("attachment; " +:+ filename_open +:+ "my voice.zip" +:+ String dquote ""))
             None "" ["PK"; "12"] None))
          (fun _ => None))
       [("/home/user/.bfrvc/logs/zips", ["my voice.zip"])]
       (fun _ _ => raise (OSError "renamed")))
    "https://example.com/dl?file=7" (World "/srv" ∅ [])
  = (Return (Some "downloaded"), World "/srv" {[ "my voice.zip" := File "PK12" ]} []).
Proof.
  rewrite (download_from_url_generic _ _ _
    (Response 200
       (Some ("attachment; " +:+ filename_open +:+ "my voice.zip" +:+ String dquote ""))
       None "" ["PK"; "12"] None)).
  - vm_compute. reflexivity.
  - reflexivity.
  - reflexivity.
  - reflexivity.
  - reflexivity.
  - reflexivity.
  - reflexivity.
  - reflexivity.
  - reflexivity.
  - intros v Hv. discriminate.
  - vm_compute. discriminate.
  - vm_compute. discriminate.
  - vm_compute. reflexivity.
  - reflexivity.
  - reflexivity.
  - intros w' current_path zip_files file Hwalk Hfile.
    apply list_elem_of_singleton in Hwalk. injection Hwalk as -> ->.
    apply list_elem_of_singleton in Hfile as ->. reflexivity.
Defined.

(** ** More on the normaliser and the search *)

(** The renaming moves nodes, it does not make or drop any. *)
Lemma renamed_nodes model_name l d d' n :
  renamed model_name l d d' ->
  (exists x, d' !! x = Some n) <-> (exists x, d !! x = Some n).
Proof.
  induction 1 as [d | item l d d' Hkeep Hren IH | item l d new n0 d' Ht Hnew Hn Hren IH];
    [done | done |].
  rewrite IH. split.
  - intros [x Hx]. destruct (decide (x = new)) as [-> | Hne].
    + rewrite lookup_insert_eq in Hx. exists item. congruence.
    + rewrite lookup_insert_ne in Hx by done.
      apply lookup_delete_Some in Hx as [_ Hx]. by exists x.
  - intros [x Hx]. destruct (decide (x = item)) as [-> | Hne].
    + exists new. rewrite lookup_insert_eq. congruence.
    + exists x. rewrite lookup_insert_ne by congruence. by rewrite lookup_delete_ne.
Qed.

(** X11: whatever the model name and the order of the listing, the
    rename step ends without an error and only moves entries: the
    directory has as many entries as before and the same nodes, an
    entry whose name is not one of the two destinations is where it was
    or gone, and a name that appears is one of the two destinations. *)
Theorem rename_artifacts_moves_entries (order : list string -> list string)
    (extract_folder_path model_name : string) (d : gmap string node) :
  (forall l, order l ≡ₚ l) ->
  exists d',
    rename_artifacts order extract_folder_path model_name d = (Return tt, d')
    /\ size d' = size d
    /\ (forall n, (exists x, d' !! x = Some n) <-> (exists x, d !! x = Some n))
    /\ (forall x,
        x <> model_name +:+ ".pth" -> x <> model_name +:+ ".index" ->
        d' !! x = d !! x \/ d' !! x = None)
    /\ (forall x,
        d !! x = None -> is_Some (d' !! x) ->
        x = model_name +:+ ".pth" \/ x = model_name +:+ ".index").
Proof.
  intros Hperm.
  destruct (for_each_rename_items extract_folder_path model_name (os_listdir order d) d)
    as (d' & Hrun & Hren).
  { by apply os_listdir_NoDup. }
  { intros x Hx. by apply (os_listdir_elem order Hperm). }
  exists d'. split; [done |]. split; [by eapply renamed_size |].
  split; [intros n; by eapply renamed_nodes |]. split.
  - intros x Hpth Hindex. eapply renamed_other; [done |].
    intros item [-> | ->]%rename_target_cases; done.
  - intros x Hx Hx'. destruct (renamed_fresh _ _ _ _ x Hren Hx Hx') as (item & _ & Ht).
    by apply rename_target_cases in Ht.
Qed.

Lemma rename_artifacts_moves_entries_example :
  exists d',
    rename_artifacts id "/models/a.pth" "a.pth"
      {[ "x.index" := File "I"; "notes.txt" := File "N" ]} = (Return tt, d')
    /\ size d' = 2.
Proof.
  destruct (rename_artifacts_moves_entries id "/models/a.pth" "a.pth"
    {[ "x.index" := File "I"; "notes.txt" := File "N" ]} (fun l : list string => Permutation_refl l))
    as (d' & Hrun & Hsize & _).
  exists d'. split; [done |]. rewrite Hsize. reflexivity.
Defined.

(** A directory has exactly one subdirectory, or the hoist step has
    nothing to do. *)
Lemma single_subfolder_cases (order : list string -> list string) (d : gmap string node) :
  (forall l, order l ≡ₚ l) ->
  (exists sub sd, d !! sub = Some (Dir sd) /\ forall x, is_dir (d !! x) = true -> x = sub)
  \/ (forall sub, ~ (forall x, is_dir (d !! x) = true <-> x = sub)).
Proof.
  intros Hperm.
  assert (forall x, x ∈ filter (fun f => is_dir (d !! f) = true) (os_listdir order d)
                    <-> is_dir (d !! x) = true) as Hfilter.
  { intros x. rewrite list_elem_of_filter. split; [by intros [? _] |].
    intros Hdir. split; [done |]. apply (os_listdir_elem order Hperm).
    by destruct (d !! x). }
  destruct (filter (fun f => is_dir (d !! f) = true) (os_listdir order d))
    as [|sub [|sub' rest]] eqn:Hlist.
  - right. intros sub Hsub. assert (sub ∈ @nil string) as Hin; [|by apply elem_of_nil in Hin].
    apply Hfilter. by apply Hsub.
  - left. assert (is_dir (d !! sub) = true) as Hdir by (apply Hfilter; by left).
    destruct (d !! sub) as [[data|sd]|] eqn:Hsub; try done.
    exists sub, sd. split; [done |]. intros x Hx. apply Hfilter in Hx.
    by apply list_elem_of_singleton in Hx.
  - right. intros s Hs.
    assert (NoDup (sub :: sub' :: rest)) as Hnd.
    { rewrite <- Hlist. apply NoDup_filter. by apply os_listdir_NoDup. }
    apply NoDup_cons in Hnd as [Hnotin _]. apply Hnotin.
    assert (sub = s) as -> by (apply Hs, Hfilter; by left).
    assert (sub' = s) as -> by (apply Hs, Hfilter; right; by left).
    by left.
Qed.

Lemma remove_macosx_run extract_folder_path (d : gmap string node) :
  remove_macosx extract_folder_path d =
    match d !! "__MACOSX" with
    | Some (File _) =>
        (Raise (NotADirectoryError (os_path_join extract_folder_path "__MACOSX")), d)
    | _ => (Return tt, delete "__MACOSX" d)
    end.
Proof.
  unfold remove_macosx, bind, get_state.
  destruct (d !! "__MACOSX") as [[data|entries]|] eqn:Hmac; [done | done |].
  unfold ret. by rewrite delete_id.
Qed.

Lemma hoist_single_subfolder_succeeds (order : list string -> list string)
    extract_folder_path (d : gmap string node) :
  (forall l, order l ≡ₚ l) ->
  (exists d1, hoist_single_subfolder order extract_folder_path d = (Return tt, d1))
  <-> (forall sub sd,
          d !! sub = Some (Dir sd) ->
          (forall x, is_dir (d !! x) = true -> x = sub) ->
          forall x, is_Some (sd !! x) ->
            x <> sub /\ (is_dir (sd !! x) = true -> d !! x = None)).
Proof.
  intros Hperm.
  destruct (single_subfolder_cases order d Hperm) as [(sub & sd & Hsub & Honly) | Hnone].
  - destruct (hoist_single_subfolder_run order extract_folder_path d sub sd Hperm Hsub Honly)
      as [[Hall Hrun] | [Hnot (e & d' & Hrun)]].
    + split; [|by eauto]. intros _ sub' sd' Hsub' Honly'.
      assert (sub' = sub) as -> by (apply Honly; by rewrite Hsub').
      assert (sd' = sd) as -> by congruence. done.
    + split.
      * intros [d1 Hd1]. congruence.
      * intros Hall. destruct Hnot. by apply (Hall sub sd).
  - split.
    + intros _ sub sd Hsub Honly. destruct (Hnone sub). intros x. split; [apply Honly |].
      intros ->. by rewrite Hsub.
    + intros _. exists d. by apply hoist_single_subfolder_skip.
Qed.

(** X12: [clean_extracted_files] ends without an error exactly when the
    top-level [__MACOSX] is not a regular file and, if the rest of the
    tree has exactly one subdirectory, no item of that subdirectory bears
    its name and no directory in it bears the name of a top-level entry.
    In every other case it raises. *)
Theorem clean_extracted_files_succeeds (order : list string -> list string)
    (extract_folder_path model_name : string) (d : gmap string node) :
  (forall l, order l ≡ₚ l) ->
  (exists d', clean_extracted_files order extract_folder_path model_name d = (Return tt, d'))
  <-> (is_file (d !! "__MACOSX") = false
       /\ forall sub sd,
           delete "__MACOSX" d !! sub = Some (Dir sd) ->
           (forall x, is_dir (delete "__MACOSX" d !! x) = true -> x = sub) ->
           forall x, is_Some (sd !! x) ->
             x <> sub /\ (is_dir (sd !! x) = true -> delete "__MACOSX" d !! x = None)).
Proof.
  intros Hperm.
  rewrite <- (hoist_single_subfolder_succeeds order extract_folder_path _ Hperm).
  unfold clean_extracted_files, bind at 1. rewrite remove_macosx_run.
  assert (forall d1, exists d', rename_artifacts order extract_folder_path model_name d1
                                = (Return tt, d')) as Hrename.
  { intros d1.
    destruct (for_each_rename_items extract_folder_path model_name (os_listdir order d1) d1)
      as (d' & Hrun & _).
    - by apply os_listdir_NoDup.
    - intros x Hx. by apply (os_listdir_elem order Hperm).
    - by exists d'. }
  assert ((exists d',
             (run hoist_single_subfolder order extract_folder_path
              then rename_artifacts order extract_folder_path model_name)
               (delete "__MACOSX" d) = (Return tt, d'))
          <-> exists d1, hoist_single_subfolder order extract_folder_path
                           (delete "__MACOSX" d) = (Return tt, d1)) as Hrest.
  { unfold bind.
    destruct (hoist_single_subfolder order extract_folder_path (delete "__MACOSX" d))
      as [[[]|e] d1].
    - split; [by eauto | intros _; apply Hrename].
    - split; intros [? ?]; done. }
  destruct (d !! "__MACOSX") as [[data|entries]|]; simpl.
  - split; [by intros [? ?] | by intros [? _]].
  - rewrite Hrest. split; [by intros H | by intros [_ H]].
  - rewrite Hrest. split; [by intros H | by intros [_ H]].
Qed.

Lemma clean_extracted_files_succeeds_example :
  exists d',
    clean_extracted_files id "/models/m" "m"
      {[ "__MACOSX" := Dir ∅; "a.pth" := File "W"; "b.index" := File "I" ]}
    = (Return tt, d').
Proof.
  apply (clean_extracted_files_succeeds id "/models/m" "m"
    {[ "__MACOSX" := Dir ∅; "a.pth" := File "W"; "b.index" := File "I" ]}
    (fun l : list string => Permutation_refl l)).
  split; [reflexivity |]. intros sub sd Hsub Honly.
  assert (is_dir (delete "__MACOSX"
    ({[ "__MACOSX" := Dir ∅; "a.pth" := File "W"; "b.index" := File "I" ]}
     : gmap string node) !! sub) = true) as Hdir by by rewrite Hsub.
  destruct (decide (sub = "__MACOSX")) as [-> | H1]; [by rewrite lookup_delete_eq in Hdir |].
  rewrite lookup_delete_ne in Hdir by done.
  rewrite lookup_insert_ne in Hdir by done.
  destruct (decide (sub = "a.pth")) as [-> | H2]; [done |].
  rewrite lookup_insert_ne in Hdir by done.
  destruct (decide (sub = "b.index")) as [-> | H3]; [done |].
  by rewrite lookup_singleton_ne in Hdir.
Defined.

(** ** The search and the second extractor *)

(** X13: [search_pth_index] misses nothing: every regular file of the
    folder whose name ends in [.pth] has its path in the first list, and
    every one whose name ends in [.index] has it in the second. *)
Theorem search_pth_index_complete (order : list string -> list string)
    (folder : string) (d : gmap string node) (log : list string) :
  (forall l, order l ≡ₚ l) ->
  exists pth_paths index_paths,
    search_pth_index order folder (Some (Dir d)) log = (Return (pth_paths, index_paths), log)
    /\ (forall file, is_file (d !! file) = true -> str_endswith ".pth" file = true ->
        os_path_join folder file ∈ pth_paths)
    /\ (forall file, is_file (d !! file) = true -> str_endswith ".index" file = true ->
        os_path_join folder file ∈ index_paths).
Proof.
  intros Hperm. eexists _, _. split; [done |].
  split; intros file Hfile Hext; apply list_elem_of_fmap; exists file; (split; [done |]);
    apply list_elem_of_filter; (split; [by rewrite Hfile, Hext |]);
    apply (os_listdir_elem order Hperm); by destruct (d !! file).
Qed.

Lemma search_pth_index_complete_example :
  exists pth_paths index_paths,
    search_pth_index id "/models/m"
      (Some (Dir {[ "a.pth" := File "W"; "b.index" := File "I"; "c.pth" := Dir ∅ ]})) []
    = (Return (pth_paths, index_paths), [])
    /\ "/models/m/a.pth" ∈ pth_paths /\ "/models/m/b.index" ∈ index_paths.
Proof.
  destruct (search_pth_index_complete id "/models/m"
    {[ "a.pth" := File "W"; "b.index" := File "I"; "c.pth" := Dir ∅ ]} []
    (fun l : list string => Permutation_refl l)) as (pth_paths & index_paths & Hrun & Hpth & Hindex).
  exists pth_paths, index_paths. split; [done |]. split.
  - exact (Hpth "a.pth" eq_refl eq_refl).
  - exact (Hindex "b.index" eq_refl eq_refl).
Defined.

(** What [extract] does, case by case. *)
Lemma extract_run (E : env) (zipfile_path unzips_path : string) (x : extraction) :
  extract E zipfile_path unzips_path x =
    let failed e (x' : extraction) :=
      (Return false,
       log_append ("ERROR - An error occurred extracting the zip file: " +:+ exn_str e) x') in
    match archive x with
    | None => failed (FileNotFoundError zipfile_path) x
    | Some (Dir _) => failed (IsADirectoryError zipfile_path) x
    | Some (File bytes) =>
        match zip_open_error E bytes with
        | Some e => failed e x
        | None =>
            let '(r, dest) := zip_extractall E bytes unzips_path (destination x) in
            let x1 := Extraction (archive x) dest (extraction_log x) in
            match r with
            | Raise e => failed e x1
            | Return _ =>
                match remove_error E zipfile_path with
                | Some e => failed e x1
                | None => (Return true, Extraction None dest (extraction_log x))
                end
            end
        end
    end.
Proof.
  unfold extract, try_except, bind at 1, zip_open.
  destruct x as [[[bytes|d]|] dest log]; simpl; [|done..].
  destruct (zip_open_error E bytes) as [e|]; [done |].
  unfold bind at 1, zip_extractall_to. simpl.
  destruct (zip_extractall E bytes unzips_path dest) as [[[]|e] dest']; [|done].
  unfold bind, os_remove. simpl. by destruct (remove_error E zipfile_path).
Qed.

(** X14: [unzip_file] logs a missing archive and returns.  On an archive
    that exists it does what [extract] does on the same paths, except
    that an error is raised where [extract] logs it and returns
    [False]. *)
Theorem unzip_file_as_extract (E : env) (zip_path zip_file_name : string) (x : extraction) :
  let zip_file_path := os_path_join zip_path (zip_file_name +:+ ".zip") in
  let extract_path := os_path_join (logs_path E) zip_file_name in
  (archive x = None ->
   unzip_file E zip_path zip_file_name x
   = (Return tt,
      Extraction None (destination x)
        (extraction_log x ++ ["ERROR - Zip file not found: " +:+ zip_file_path])%list))
  /\ (is_Some (archive x) ->
      match unzip_file E zip_path zip_file_name x with
      | (Return _, x') => extract E zip_file_path extract_path x = (Return true, x')
      | (Raise e, x') =>
          extract E zip_file_path extract_path x
          = (Return false,
             Extraction (archive x') (destination x')
               (extraction_log x'
                  ++ ["ERROR - An error occurred extracting the zip file: " +:+ exn_str e])%list)
      end).
Proof.
  intros zip_file_path extract_path. rewrite (extract_run E zip_file_path extract_path).
  unfold unzip_file, bind at 1, get_state. fold zip_file_path extract_path.
  destruct x as [[[bytes|d]|] dest log]; simpl.
  - split; [done |]. intros _. unfold bind, zip_open, zip_extractall_to, os_remove. simpl.
    destruct (zip_open_error E bytes) as [e|]; [done |]. simpl.
    destruct (zip_extractall E bytes extract_path dest) as [[[]|e] dest']; [|done]. simpl.
    by destruct (remove_error E zip_file_path).
  - split; [done |]. by intros _.
  - split; [done |]. by intros [? ?].
Qed.

Lemma unzip_file_as_extract_example :
  unzip_file (test_env (Raise (OSError "offline")) (fun _ => None))
    "/home/user/.bfrvc/logs/zips" "m" (Extraction None None [])
  = (Return tt,
     Extraction None None
       ["ERROR - Zip file not found: /home/user/.bfrvc/logs/zips/m.zip"])
  /\ extract (test_env (Raise (OSError "offline")) (fun _ => None))
       "/home/user/.bfrvc/logs/zips/m.zip" "/home/user/.bfrvc/logs/m"
       (Extraction (Some (File "PK")) None [])
     = (Return true, Extraction None None []).
Proof.
  split.
  - apply (proj1 (unzip_file_as_extract (test_env (Raise (OSError "offline")) (fun _ => None))
      "/home/user/.bfrvc/logs/zips" "m" (Extraction None None []))). reflexivity.
  - apply (proj2 (unzip_file_as_extract (test_env (Raise (OSError "offline")) (fun _ => None))
      "/home/user/.bfrvc/logs/zips" "m" (Extraction (Some (File "PK")) None []))).
    by exists (File "PK").
Defined.

(** ** The whole pipeline *)

(** *** Base names *)

Lemma str_rev_app_acc s acc : String.rev_app s acc = String.rev s +:+ acc.
Proof.
  unfold String.rev. revert acc. induction s as [|c s IH]; intros acc.
  - by rewrite str_app_nil_l.
  - simpl. rewrite (IH (String c acc)), (IH (String c "")), str_app_assoc.
    by rewrite str_app_cons, str_app_nil_l.
Qed.

Lemma str_rev_cons c s : String.rev (String c s) = String.rev s +:+ String c "".
Proof. unfold String.rev at 1. simpl. apply str_rev_app_acc. Qed.

Lemma str_rev_app s t : String.rev (s +:+ t) = String.rev t +:+ String.rev s.
Proof.
  induction s as [|c s IH].
  - by rewrite str_app_nil_l, str_app_nil_r.
  - by rewrite str_app_cons, !str_rev_cons, IH, str_app_assoc.
Qed.

Lemma str_rev_involutive s : String.rev (String.rev s) = s.
Proof.
  induction s as [|c s IH]; [done |].
  by rewrite str_rev_cons, str_rev_app, IH.
Qed.

Lemma str_drop_split n s : exists a, s = a +:+ str_drop n s.
Proof.
  revert s. induction n as [|n IH]; intros s; [by exists "" |].
  destruct s as [|c s]; [by exists "" |]. destruct (IH s) as [a Ha].
  exists (String c a). simpl. by rewrite str_app_cons, <- Ha.
Qed.

Lemma str_endswith_inv p s : str_endswith p s = true -> exists a, s = a +:+ p.
Proof.
  unfold str_endswith. intros Hs. apply bool_decide_eq_true in Hs.
  destruct (str_drop_split (String.length s - String.length p) s) as [a Ha].
  exists a. by rewrite Hs in Ha.
Qed.

Lemma os_path_basename_after a b :
  str_in "/" b = false -> os_path_basename (a +:+ "/" +:+ b) = b.
Proof.
  intros Hb. unfold os_path_basename.
  rewrite str_rev_app, str_rev_app, str_app_assoc.
  rewrite str_before_char.
  - apply str_rev_involutive.
  - by rewrite str_in_char_rev.
  - by right.
Qed.

(** [os.path.basename] undoes [os.path.join] with a plain name. *)
Lemma os_path_basename_join a b :
  str_in "/" b = false -> os_path_basename (os_path_join a b) = b.
Proof.
  intros Hb. unfold os_path_join.
  assert (str_startswith "/" b = false) as ->.
  { destruct b as [|c b]; [done |]. by apply str_in_cons_false in Hb as [? _]. }
  destruct (bool_decide (a = "")) eqn:Ha; simpl.
  - apply bool_decide_eq_true in Ha as ->. rewrite str_app_nil_l.
    unfold os_path_basename. rewrite str_before_absent by by rewrite str_in_char_rev.
    apply str_rev_involutive.
  - destruct (str_endswith "/" a) eqn:Hend.
    + apply str_endswith_inv in Hend as [a' ->]. rewrite str_app_assoc.
      by apply os_path_basename_after.
    + by apply os_path_basename_after.
Qed.

(** *** Splitting a path at its separators *)

Lemma split_go_char_plain c s :
  str_in (String c "") s = false -> split_go (String c "") 0 s = (s, []).
Proof.
  induction s as [|b s IH]; [done |]. intros Hin.
  apply str_in_cons_false in Hin as [Hb Hs]. simpl in Hb. simpl split_go.
  rewrite Hb. by rewrite IH.
Qed.

Lemma split_go_char_snoc c a name :
  str_in (String c "") name = false ->
  split_go (String c "") 0 (a +:+ String c "" +:+ name)
  = ((split_go (String c "") 0 a).1, ((split_go (String c "") 0 a).2 ++ [name])%list).
Proof.
  intros Hname. induction a as [|b a IH].
  - rewrite str_app_nil_l, str_app_cons, str_app_nil_l. simpl split_go.
    rewrite decide_True by done. simpl. by rewrite split_go_char_plain.
  - rewrite str_app_cons. simpl split_go.
    destruct (decide (c = b)); simpl; rewrite IH;
      by destruct (split_go (String c "") 0 a) as [p ps].
Qed.

(** The names of a path to which a plain name is joined. *)
Lemma str_split_snoc a name :
  str_in "/" name = false ->
  str_split "/" (a +:+ "/" +:+ name) = (str_split "/" a ++ [name])%list.
Proof.
  intros Hname. unfold str_split. rewrite (split_go_char_snoc "/"%char) by done.
  by destruct (split_go "/" 0 a) as [p ps].
Qed.

(** *** Locations in the tree *)

Lemma tree_lookup_app loc loc' n :
  tree_lookup (loc ++ loc') n = tree_lookup loc n ≫= tree_lookup loc'.
Proof.
  revert n. induction loc as [|x loc IH]; intros n; [done |]. simpl.
  destruct n as [data|d]; [done |]. destruct (d !! x) as [n'|]; [apply IH | done].
Qed.

Lemma tree_lookup_snoc loc name n d :
  tree_lookup loc n = Some (Dir d) -> tree_lookup (loc ++ [name]) n = d !! name.
Proof.
  intros Hloc. rewrite tree_lookup_app, Hloc. simpl. by destruct (d !! name).
Qed.

Lemma partial_alter_same {A} (m : gmap string A) k v :
  m !! k = v -> partial_alter (fun _ => v) k m = m.
Proof.
  intros <-. apply map_eq. intros i. destruct (decide (i = k)) as [-> | Hne].
  - by rewrite lookup_partial_alter_eq.
  - by rewrite lookup_partial_alter_ne.
Qed.

Lemma tree_alter_one f x d : tree_alter f [x] d = partial_alter f x d.
Proof. done. Qed.

Lemma tree_alter_cons f x y loc d :
  tree_alter f (x :: y :: loc) d =
    match d !! x with
    | Some (Dir d') => <[x := Dir (tree_alter f (y :: loc) d')]> d
    | Some (File _) => d
    | None =>
        let d' := tree_alter f (y :: loc) ∅ in
        if bool_decide (d' = ∅) then d else <[x := Dir d']> d
    end.
Proof. done. Qed.

Lemma tree_lookup_cons_dir x loc root d :
  tree_lookup (x :: loc) (Dir root) = Some (Dir d) ->
  exists d1, root !! x = Some (Dir d1) /\ tree_lookup loc (Dir d1) = Some (Dir d).
Proof.
  simpl. destruct (root !! x) as [[data|d1]|]; [by destruct loc | by exists d1 | done].
Qed.

(** Writing below a directory is writing the directory. *)
Lemma tree_write_snoc loc name n root d :
  tree_lookup loc (Dir root) = Some (Dir d) ->
  tree_write (loc ++ [name]) n root
  = tree_write loc (Some (Dir (partial_alter (fun _ => n) name d))) root.
Proof.
  revert root. induction loc as [|x loc IH]; intros root Hloc.
  - simpl in Hloc. by simplify_eq.
  - apply tree_lookup_cons_dir in Hloc as (d1 & Hx & Hloc).
    specialize (IH d1 Hloc). unfold tree_write in *. destruct loc as [|y loc].
    + simpl in Hloc. simplify_eq. change ([x] ++ [name])%list with [x; name].
      by rewrite tree_alter_cons, Hx, !tree_alter_one.
    + change ((x :: y :: loc) ++ [name])%list with (x :: y :: (loc ++ [name]))%list.
      rewrite !tree_alter_cons, Hx. by rewrite <- IH.
Qed.

Lemma tree_lookup_write loc root d d' :
  tree_lookup loc (Dir root) = Some (Dir d) ->
  tree_lookup loc (Dir (tree_write loc (Some (Dir d')) root)) = Some (Dir d').
Proof.
  revert root. induction loc as [|x loc IH]; intros root Hloc; [done |].
  apply tree_lookup_cons_dir in Hloc as (d1 & Hx & Hloc).
  specialize (IH d1 Hloc). unfold tree_write in *. destruct loc as [|y loc].
  - rewrite tree_alter_one. simpl. by rewrite lookup_partial_alter_eq.
  - rewrite tree_alter_cons, Hx. simpl tree_lookup at 1. by rewrite lookup_insert_eq.
Qed.

Lemma tree_write_write loc root d d1 d2 :
  tree_lookup loc (Dir root) = Some (Dir d) ->
  tree_write loc (Some (Dir d2)) (tree_write loc (Some (Dir d1)) root)
  = tree_write loc (Some (Dir d2)) root.
Proof.
  revert root. induction loc as [|x loc IH]; intros root Hloc; [done |].
  apply tree_lookup_cons_dir in Hloc as (d0 & Hx & Hloc).
  specialize (IH d0 Hloc). unfold tree_write in *. destruct loc as [|y loc].
  - rewrite !tree_alter_one. apply map_eq. intros i.
    destruct (decide (i = x)) as [-> | Hne].
    + by rewrite !lookup_partial_alter_eq.
    + by rewrite !lookup_partial_alter_ne.
  - rewrite !tree_alter_cons, Hx, lookup_insert_eq, insert_insert_eq. by rewrite IH.
Qed.

Lemma tree_write_same loc root d :
  tree_lookup loc (Dir root) = Some (Dir d) ->
  tree_write loc (Some (Dir d)) root = root.
Proof.
  revert root. induction loc as [|x loc IH]; intros root Hloc.
  - simpl in Hloc. by simplify_eq.
  - apply tree_lookup_cons_dir in Hloc as (d0 & Hx & Hloc).
    specialize (IH d0 Hloc). unfold tree_write in *. destruct loc as [|y loc].
    + simpl in Hloc. simplify_eq. rewrite tree_alter_one. exact (insert_id root x _ Hx).
    + rewrite tree_alter_cons, Hx, IH. by apply insert_id.
Qed.

(** A write at a directory leaves directories where they were on the
    way to it. *)
Lemma tree_lookup_write_prefix h loc root d d' :
  h `prefix_of` loc ->
  tree_lookup loc (Dir root) = Some (Dir d) ->
  is_dir (tree_lookup h (Dir (tree_write loc (Some (Dir d')) root))) = true.
Proof.
  intros [rest ->]. revert root. induction h as [|x h IH]; intros root Hloc; [done |].
  change ((x :: h) ++ rest)%list with (x :: (h ++ rest))%list in *.
  apply tree_lookup_cons_dir in Hloc as (d0 & Hx & Hloc).
  specialize (IH d0 Hloc). unfold tree_write in *. destruct (h ++ rest)%list as [|y tl] eqn:Htl.
  - apply app_eq_nil in Htl as [-> ->]. rewrite tree_alter_one. simpl.
    by rewrite lookup_partial_alter_eq.
  - rewrite tree_alter_cons, Hx. simpl tree_lookup. by rewrite lookup_insert_eq.
Qed.

(** *** Following a path *)

Lemma walk_app root path create here names names' :
  walk root path create here (names ++ names')
  = match walk root path create here names with
    | Return h => walk root path create h names'
    | Raise e => Raise e
    end.
Proof.
  revert here. induction names as [|name names IH]; intros here; [done |]. simpl.
  destruct (tree_lookup here (Dir root)) as [[data|d]|]; [done | apply IH |].
  destruct create; [apply IH | done].
Qed.

(** A path that is followed to its end is followed the same way for
    any purpose and under any name. *)
Lemma walk_Return root path path' create here names loc :
  walk root path false here names = Return loc ->
  walk root path' create here names = Return loc.
Proof.
  revert here. induction names as [|name names IH]; intros here; [done |]. simpl.
  destruct (tree_lookup here (Dir root)) as [[data|d]|]; [done | apply IH | done].
Qed.

Lemma walk_step root path here name d :
  tree_lookup here (Dir root) = Some (Dir d) ->
  name <> "" -> name <> "." -> name <> ".." ->
  walk root path false here [name] = Return (here ++ [name])%list.
Proof.
  intros Hhere H1 H2 H3. simpl. rewrite Hhere.
  by rewrite !bool_decide_false by done.
Qed.

Lemma walk_stay root path here loc :
  walk root path false here [""] = Return loc ->
  loc = here /\ is_dir (tree_lookup here (Dir root)) = true.
Proof.
  simpl. destruct (tree_lookup here (Dir root)) as [[data|d]|]; [done | | done].
  by intros [= <-].
Qed.

(** A path that never goes up ends below where it starts, and it is
    followed in the same way in every tree that has directories where
    this one has them on the way. *)
Lemma walk_downward root path here names loc :
  Forall (fun name => name <> "..") names ->
  walk root path false here names = Return loc ->
  here `prefix_of` loc.
Proof.
  intros Hnames. revert here. induction Hnames as [|name names Hname _ IH]; intros here.
  - by intros [= <-].
  - simpl. destruct (tree_lookup here (Dir root)) as [[data|d]|]; [done | | done].
    rewrite (bool_decide_false (name = "..")) by done.
    destruct (_ || _); intros Hwalk%IH; [done |].
    etrans; [|done]. by apply prefix_app_r.
Qed.

Lemma walk_stable root root' path here names loc :
  Forall (fun name => name <> "..") names ->
  walk root path false here names = Return loc ->
  (forall h, h `prefix_of` loc ->
     is_dir (tree_lookup h (Dir root)) = true -> is_dir (tree_lookup h (Dir root')) = true) ->
  walk root' path false here names = Return loc.
Proof.
  intros Hnames. revert here.
  induction Hnames as [|name names Hname Hnames IH]; intros here Hwalk Hdirs; [done |].
  simpl in *. destruct (tree_lookup here (Dir root)) as [[data|d]|] eqn:Hhere; [done | | done].
  assert (here `prefix_of` loc) as Hprefix.
  { rewrite (bool_decide_false (name = "..")) in Hwalk by done.
    destruct (_ || _); apply walk_downward in Hwalk; try done.
    etrans; [|done]. by apply prefix_app_r. }
  pose proof (Hdirs here Hprefix) as Hdir. rewrite Hhere in Hdir. specialize (Hdir eq_refl).
  destruct (tree_lookup here (Dir root')) as [[data'|d']|]; [done | | done].
  by apply IH.
Qed.

(** *** Paths of entries *)

Lemma str_app_nonempty a b : b <> "" -> a +:+ b <> "".
Proof. intros Hb. destruct a as [|c a]; [by rewrite str_app_nil_l | by rewrite str_app_cons]. Qed.

Lemma plain_name_no_slash name : plain_name name -> str_startswith "/" name = false.
Proof.
  intros (Hne & _ & _ & Hsep). destruct name as [|c name]; [done |].
  by apply str_in_cons_false in Hsep as [? _].
Qed.

Lemma os_path_join_plain dir name :
  dir <> "" -> plain_name name ->
  os_path_join dir name
  = if str_endswith "/" dir then dir +:+ name else dir +:+ "/" +:+ name.
Proof.
  intros Hdir Hname. unfold os_path_join.
  rewrite plain_name_no_slash, bool_decide_false by done. done.
Qed.

Lemma full_path_app p dir rest :
  dir <> "" -> full_path p (dir +:+ rest) = full_path p dir +:+ rest.
Proof.
  intros Hdir. unfold full_path. destruct dir as [|c dir]; [done |].
  rewrite str_app_cons. simpl str_startswith. case_decide; [done |].
  by rewrite <- str_app_cons, !str_app_assoc.
Qed.

(** The names of [os.path.join(dir, name)]: those of [dir], the empty
    name of a separator at its end apart, and then [name]. *)
Lemma os_path_join_names p dir name :
  dir <> "" -> plain_name name ->
  exists names,
    (str_split "/" (full_path p dir) = names
     \/ str_split "/" (full_path p dir) = (names ++ [""])%list)
    /\ str_split "/" (full_path p (os_path_join dir name)) = (names ++ [name])%list.
Proof.
  intros Hdir Hname. rewrite os_path_join_plain by done.
  destruct Hname as (_ & _ & _ & Hsep).
  destruct (str_endswith "/" dir) eqn:Hend.
  - apply str_endswith_inv in Hend as [a ->].
    assert (exists a', full_path p (a +:+ "/") = a' +:+ "/") as [a' Ha'].
    { unfold full_path. destruct (str_startswith "/" (a +:+ "/")); [by exists a |].
      exists (working_directory p +:+ "/" +:+ a). by rewrite !str_app_assoc. }
    exists (str_split "/" a'). rewrite (full_path_app p (a +:+ "/") name) by done.
    rewrite Ha'. split.
    + right. rewrite <- (str_app_nil_r (a' +:+ "/")), str_app_assoc. by apply str_split_snoc.
    + rewrite str_app_assoc. by apply str_split_snoc.
  - exists (str_split "/" (full_path p dir)). split; [by left |].
    rewrite full_path_app by done. by apply str_split_snoc.
Qed.

Lemma os_stat_leads_to p path d :
  os_stat p path = Return (Dir d) <-> exists loc, leads_to p path loc d.
Proof.
  unfold os_stat, locate, leads_to. split.
  - case_bool_decide; [done |].
    destruct (walk _ _ _ _ _) as [loc|e]; [|done].
    destruct (tree_lookup loc _) as [n|] eqn:Hloc; [|done]. intros [= ->]. by exists loc.
  - intros (loc & Hpath & Hwalk & Hloc). rewrite bool_decide_false by done.
    by rewrite Hwalk, Hloc.
Qed.

Lemma locate_join p dir loc d name create :
  leads_to p dir loc d -> plain_name name ->
  locate p (os_path_join dir name) create = Return (loc ++ [name])%list.
Proof.
  intros (Hdir & Hwalk & Hloc) Hname. unfold locate.
  rewrite bool_decide_false.
  2:{ rewrite os_path_join_plain by done. destruct Hname as (Hne & _).
      destruct (str_endswith "/" dir); [by apply str_app_nonempty |].
      apply str_app_nonempty. by apply str_app_nonempty. }
  destruct (os_path_join_names p dir name Hdir Hname) as (names & Hnames & ->).
  assert (walk (root p) dir false [] names = Return loc) as Hwalk'.
  { destruct Hnames as [<- | Hnames]; [done |].
    rewrite Hnames, walk_app in Hwalk.
    destruct (walk (root p) dir false [] names) as [h|e]; [|done].
    by apply walk_stay in Hwalk as [-> _]. }
  rewrite walk_app, (walk_Return _ dir _ _ _ _ loc Hwalk').
  apply (walk_Return _ dir). destruct Hname as (? & ? & ? & _). by eapply walk_step.
Qed.

(** [os.path.join(dir, name)] leads to the entry [name] of the
    directory [dir]. *)
Lemma os_stat_join p dir d name :
  os_stat p dir = Return (Dir d) -> plain_name name ->
  os_stat p (os_path_join dir name)
  = match d !! name with
    | Some n => Return n
    | None => Raise (FileNotFoundError (os_path_join dir name))
    end.
Proof.
  intros [loc Hdir]%os_stat_leads_to Hname. unfold os_stat.
  rewrite (locate_join p dir loc d) by done.
  destruct Hdir as (_ & _ & Hloc). by rewrite (tree_lookup_snoc _ _ _ d).
Qed.

Lemma node_at_join p dir d name :
  os_stat p dir = Return (Dir d) -> plain_name name ->
  node_at p (os_path_join dir name) = d !! name.
Proof.
  intros Hdir Hname. unfold node_at. rewrite (os_stat_join p dir d) by done.
  by destruct (d !! name).
Qed.

(** *** Directories that stay where they are *)

Lemma write_at_leads_to p path loc d n :
  leads_to p path loc d ->
  write_at path n p = Pipeline (working_directory p) (tree_write loc n (root p)) (logged p).
Proof.
  intros (Hpath & Hwalk & Hloc). unfold write_at, locate.
  rewrite bool_decide_false by done. by rewrite (walk_Return _ path path true _ _ loc Hwalk).
Qed.

Lemma write_at_join p dir d name n :
  os_stat p dir = Return (Dir d) -> plain_name name ->
  write_at (os_path_join dir name) n p
  = with_directory dir (partial_alter (fun _ => n) name d) p.
Proof.
  intros [loc Hdir]%os_stat_leads_to Hname. unfold with_directory.
  rewrite (write_at_leads_to p dir loc d) by done.
  unfold write_at. rewrite (locate_join p dir loc d) by done.
  destruct Hdir as (_ & _ & Hloc). by rewrite (tree_write_snoc _ _ _ _ d).
Qed.

Lemma leads_to_write p path loc d d' :
  leads_to p path loc d -> downward p path ->
  leads_to (Pipeline (working_directory p) (tree_write loc (Some (Dir d')) (root p)) (logged p))
    path loc d'.
Proof.
  intros (Hpath & Hwalk & Hloc) Hdown. split; [done |]. split.
  - apply (walk_stable (root p)); [done.. |]. intros h Hh _.
    by apply (tree_lookup_write_prefix h loc (root p) d).
  - by apply (tree_lookup_write loc (root p) d).
Qed.

Lemma with_directory_stable p path d d' :
  stable_directory p path d -> stable_directory (with_directory path d' p) path d'.
Proof.
  intros [[loc Hdir]%os_stat_leads_to Hdown]. unfold with_directory.
  rewrite (write_at_leads_to p path loc d) by done. split; [|done].
  apply os_stat_leads_to. exists loc. by apply (leads_to_write p path loc d).
Qed.

Lemma with_directory_twice p path d d1 d2 :
  stable_directory p path d ->
  with_directory path d2 (with_directory path d1 p) = with_directory path d2 p.
Proof.
  intros [[loc Hdir]%os_stat_leads_to Hdown]. unfold with_directory.
  rewrite !(write_at_leads_to p path loc d) by done.
  rewrite (write_at_leads_to _ path loc d1) by by apply (leads_to_write p path loc d).
  simpl. f_equal. destruct Hdir as (_ & _ & Hloc). by apply (tree_write_write loc (root p) d).
Qed.

Lemma with_directory_same p path d :
  os_stat p path = Return (Dir d) -> with_directory path d p = p.
Proof.
  intros [loc Hdir]%os_stat_leads_to. unfold with_directory.
  rewrite (write_at_leads_to p path loc d) by done.
  destruct Hdir as (_ & _ & Hloc). rewrite (tree_write_same loc (root p) d) by done.
  by destruct p.
Qed.

Lemma stable_directory_join p dir d name c :
  stable_directory p dir d -> plain_name name -> d !! name = Some (Dir c) ->
  stable_directory p (os_path_join dir name) c.
Proof.
  intros [Hstat Hdown] Hname Hc. split.
  - by rewrite (os_stat_join p dir d), Hc.
  - assert (dir <> "") as Hdir.
    { apply os_stat_leads_to in Hstat as (loc & Hdir & _). done. }
    unfold downward in *.
    destruct (os_path_join_names p dir name Hdir Hname) as (names & Hnames & ->).
    apply Forall_app. split.
    + destruct Hnames as [<- | Hnames]; [done |].
      rewrite Hnames in Hdown. by apply Forall_app in Hdown as [? _].
    + constructor; [|done]. by destruct Hname as (_ & _ & ? & _).
Qed.

(** Logging leaves the tree alone. *)
Lemma stable_directory_log p path d line :
  stable_directory p path d -> stable_directory (log_append line p) path d.
Proof. done. Qed.

Lemma with_directory_log p path d line :
  with_directory path d (log_append line p) = log_append line (with_directory path d p).
Proof.
  unfold with_directory, write_at, locate. simpl.
  unfold full_path. simpl. by destruct (if bool_decide _ then _ else _).
Qed.

(** A step of the normaliser at a directory that stays where it is. *)
Lemma in_directory_run {A} p path d (m : M (gmap string node) A) :
  os_stat p path = Return (Dir d) ->
  in_directory path m p = ((m d).1, with_directory path (m d).2 p).
Proof. intros Hstat. unfold in_directory. rewrite Hstat. by destruct (m d). Qed.

(** *** The loop over the staging directory *)

Lemma zip_name_plain filename :
  str_endswith ".zip" filename = true -> str_in "/" filename = false -> plain_name filename.
Proof.
  intros Hzip Hsep. repeat split; [intros -> .. | done]; done.
Qed.

Section PipelineFacts.

Variable E : env.
Variable order : list string -> list string.
Variable format_title : string -> string.

Lemma handle_extraction_loop_no_zip listing p :
  Forall (fun f : string => str_endswith ".zip" f = false) listing ->
  handle_extraction_loop E order format_title listing "" p
  = (Return ErrorString, log_append "ERROR - Zip file was not found." p).
Proof.
  induction 1 as [|f listing Hf _ IH]; [done |]. simpl. by rewrite Hf.
Qed.

Lemma handle_extraction_loop_first pre filename post extract_folder_path :
  Forall (fun f : string => str_endswith ".zip" f = false) pre ->
  str_endswith ".zip" filename = true ->
  handle_extraction_loop E order format_title (pre ++ filename :: post)%list extract_folder_path
  = handle_zip E order format_title filename.
Proof.
  intros Hpre Hzip. induction Hpre as [|f pre Hf _ IH]; simpl.
  - by rewrite Hzip.
  - by rewrite Hf.
Qed.

Lemma handle_extraction_process_listing p staging :
  os_stat p (zips_path E) = Return (Dir staging) ->
  handle_extraction_process E order format_title p
  = handle_extraction_loop E order format_title (os_listdir order staging) "" p.
Proof.
  intros Hstat. unfold handle_extraction_process, bind, os_listdir_at. by rewrite Hstat.
Qed.

(** The model name that line 271 computes from a plain archive name. *)
Lemma handle_zip_model_name filename p :
  str_in "/" filename = false ->
  handle_zip E order format_title filename p
  = (let model_name := format_title (str_before ".zip" filename) in
     let extract_folder_path := os_path_join (logs_path E) model_name in
     let* success :=
       Tree.extract E (os_path_join (zips_path E) filename) extract_folder_path in
     if success : bool then
       run clean_extracted_files_at order extract_folder_path model_name then
       run logging_info ("Model " +:+ model_name +:+ " downloaded!") then
       let* found := search_pth_index_at order extract_folder_path in
       ret (Paths (fst found) (snd found))
     else
       run logging_error ("Error downloading " +:+ model_name) then
       ret ErrorString) p.
Proof.
  intros Hplain. unfold handle_zip. rewrite os_path_basename_join by done.
  destruct (str_split_head ".zip" filename) as [rest ->]; [done |].
  done.
Qed.

(** The normaliser at a directory that stays where it is does what
    [clean_extracted_files] does to its entries. *)
Lemma clean_extracted_files_at_run extract_folder_path model_name p d :
  stable_directory p extract_folder_path d ->
  clean_extracted_files_at order extract_folder_path model_name p
  = ((clean_extracted_files order extract_folder_path model_name d).1,
     with_directory extract_folder_path
       (clean_extracted_files order extract_folder_path model_name d).2 p).
Proof.
  intros Hstable. unfold clean_extracted_files_at. unfold bind at 1.
  rewrite (in_directory_run p _ d) by apply Hstable.
  unfold clean_extracted_files, bind.
  destruct (remove_macosx extract_folder_path d) as [[[]|e] d1]; simpl; [|done].
  pose proof (with_directory_stable p _ d d1 Hstable) as Hstable1.
  rewrite (in_directory_run _ _ d1) by apply Hstable1.
  rewrite (with_directory_twice p _ d) by done.
  destruct (hoist_single_subfolder order extract_folder_path d1) as [[[]|e] d2]; simpl; [|done].
  pose proof (with_directory_stable p _ d d2 Hstable) as Hstable2.
  rewrite (in_directory_run _ _ d2) by apply Hstable2.
  by rewrite (with_directory_twice p _ d).
Qed.

Lemma search_pth_index_at_run folder p :
  search_pth_index_at order folder p
  = ((search_pth_index order folder (node_at p folder) (logged p)).1,
     Pipeline (working_directory p) (root p)
       (search_pth_index order folder (node_at p folder) (logged p)).2).
Proof.
  unfold search_pth_index_at, bind, get_state, in_log.
  by destruct (search_pth_index _ _ _ _).
Qed.

End PipelineFacts.

(** The facts about a concrete tree. *)
Ltac layout_fact :=
  solve
    [ reflexivity
    | vm_compute; reflexivity
    | vm_compute; discriminate
    | repeat split; vm_compute; (discriminate || reflexivity)
    | split; [vm_compute; reflexivity | vm_compute; repeat (constructor; [discriminate |]); constructor]
    | repeat constructor ].

(** *** The extraction stage *)

(** X15: when no name of the staging directory ends in [.zip],
    [handle_extraction_process] extracts nothing and searches nothing: it
    logs that no archive was found and returns the error string. *)
Theorem handle_extraction_process_no_archive (E : env) (order : list string -> list string)
    (format_title : string -> string) (p : pipeline) (staging : gmap string node) :
  (forall l, order l ≡ₚ l) ->
  os_stat p (zips_path E) = Return (Dir staging) ->
  (forall f, is_Some (staging !! f) -> str_endswith ".zip" f = false) ->
  handle_extraction_process E order format_title p
  = (Return ErrorString,
     Pipeline (working_directory p) (root p)
       (logged p ++ ["ERROR - Zip file was not found."])%list).
Proof.
  intros Hperm Hstat Hnone. rewrite (handle_extraction_process_listing E order _ p staging Hstat).
  rewrite handle_extraction_loop_no_zip; [done |].
  apply Forall_forall. intros f Hf. apply Hnone. by apply (os_listdir_elem order Hperm).
Qed.

Lemma handle_extraction_process_no_archive_example :
  handle_extraction_process (test_env (Raise (OSError "offline")) (fun _ => None)) id id
    (Pipeline "/srv" (test_tree {[ "zips" := Dir {[ "notes.txt" := File "n" ]} ]}) [])
  = (Return ErrorString,
     Pipeline "/srv" (test_tree {[ "zips" := Dir {[ "notes.txt" := File "n" ]} ]})
       ["ERROR - Zip file was not found."]).
Proof.
  refine (handle_extraction_process_no_archive (test_env (Raise (OSError "offline")) (fun _ => None)) id id
    (Pipeline "/srv" (test_tree {[ "zips" := Dir {[ "notes.txt" := File "n" ]} ]}) [])
    {[ "notes.txt" := File "n" ]} (fun l : list string => Permutation_refl l) _ _).
  - vm_compute. reflexivity.
  - intros f [n Hf]. apply lookup_singleton_Some in Hf as [<- _]. reflexivity.
Defined.

(** X17: when the first archive that the listing of the staging directory
    shows cannot be opened, [handle_extraction_process] returns the error
    string.  The archive stays where it is, nothing else changes, and two
    lines are logged: the error of the decoder and the name of the model,
    which is [format_title] of the archive name up to its first [.zip]. *)
Theorem handle_extraction_process_corrupt_archive (E : env)
    (order : list string -> list string) (format_title : string -> string) (p : pipeline)
    (staging : gmap string node) (pre post : list string) (filename bytes : string) (e : exn) :
  os_stat p (zips_path E) = Return (Dir staging) ->
  os_listdir order staging = (pre ++ filename :: post)%list ->
  Forall (fun f : string => str_endswith ".zip" f = false) pre ->
  str_endswith ".zip" filename = true ->
  str_in "/" filename = false ->
  staging !! filename = Some (File bytes) ->
  zip_open_error E bytes = Some e ->
  handle_extraction_process E order format_title p
  = (Return ErrorString,
     Pipeline (working_directory p) (root p)
       (logged p
          ++ ["ERROR - An error occurred extracting the zip file: " +:+ exn_str e;
              "ERROR - Error downloading " +:+ format_title (str_before ".zip" filename)])%list).
Proof.
  intros Hstat Hlisting Hpre Hzip Hplain Hfile Hopen.
  rewrite (handle_extraction_process_listing E order _ p staging Hstat), Hlisting.
  rewrite handle_extraction_loop_first, handle_zip_model_name by done.
  cbv zeta. unfold bind at 1, Tree.extract, try_except, bind at 1, Tree.zip_open.
  rewrite (os_stat_join p _ staging) by (done || by apply zip_name_plain).
  rewrite Hfile, Hopen. unfold bind, logging_error, modify, ret. simpl.
  unfold log_append, pipeline_logging. simpl. by rewrite <- app_assoc.
Qed.

Lemma handle_extraction_process_corrupt_archive_example :
  handle_extraction_process
    (with_zip_open_error (test_env (Raise (OSError "offline")) (fun _ => None))
       (fun _ => Some (OSError "File is not a zip file")))
    reverse id
    (Pipeline "/srv" (test_tree {[ "zips" := Dir {[ "notes.txt" := File "n"; "My Model.zip" := File "PK" ]} ]}) [])
  = (Return ErrorString,
     Pipeline "/srv" (test_tree {[ "zips" := Dir {[ "notes.txt" := File "n"; "My Model.zip" := File "PK" ]} ]})
       ["ERROR - An error occurred extracting the zip file: File is not a zip file";
        "ERROR - Error downloading My Model"]).
Proof.
  refine (handle_extraction_process_corrupt_archive
    (with_zip_open_error (test_env (Raise (OSError "offline")) (fun _ => None))
       (fun _ => Some (OSError "File is not a zip file")))
    reverse id
    (Pipeline "/srv" (test_tree {[ "zips" := Dir {[ "notes.txt" := File "n"; "My Model.zip" := File "PK" ]} ]}) [])
    {[ "notes.txt" := File "n"; "My Model.zip" := File "PK" ]}
    ["notes.txt"] [] "My Model.zip" "PK" (OSError "File is not a zip file")
    _ _ _ _ _ _ _); layout_fact.
Defined.

(** *** The ordinary layout *)

(** The directory [logs_path] holds the staging directory [zips] and,
    under a plain name other than [zips], the directory of the model. *)

Lemma plain_name_zips : plain_name "zips".
Proof. by repeat split. Qed.

Lemma staging_stable (E : env) p logs staging :
  stable_directory p (logs_path E) logs ->
  logs !! "zips" = Some (Dir staging) ->
  stable_directory p (zips_path E) staging.
Proof.
  intros Hlogs Hzips.
  exact (stable_directory_join p _ logs "zips" staging Hlogs plain_name_zips Hzips).
Qed.

(** Writing the staging directory is writing the entry [zips]. *)
Lemma with_directory_staging (E : env) p logs staging :
  os_stat p (logs_path E) = Return (Dir logs) ->
  with_directory (zips_path E) staging p
  = with_directory (logs_path E) (<["zips" := Dir staging]> logs) p.
Proof.
  intros Hlogs. unfold with_directory at 1, zips_path.
  by rewrite (write_at_join p _ logs) by (done || apply plain_name_zips).
Qed.

(** The archive [filename] once [extract] has opened and unpacked it
    and is to delete it. *)
Lemma extract_unpacked (E : env) p logs staging filename bytes model_name r dest :
  stable_directory p (logs_path E) logs ->
  logs !! "zips" = Some (Dir staging) ->
  staging !! filename = Some (File bytes) ->
  plain_name filename -> plain_name model_name -> model_name <> "zips" ->
  zip_open_error E bytes = None ->
  zip_extractall E bytes (os_path_join (logs_path E) model_name) (logs !! model_name)
  = (r, dest) ->
  Tree.extract E (os_path_join (zips_path E) filename) (os_path_join (logs_path E) model_name) p
  = let unpacked :=
      with_directory (logs_path E) (partial_alter (fun _ => dest) model_name logs) p in
    let failed e :=
      (Return false,
       log_append ("ERROR - An error occurred extracting the zip file: " +:+ exn_str e)
         unpacked) in
    match r with
    | Raise e => failed e
    | Return _ =>
        match remove_error E (os_path_join (zips_path E) filename) with
        | Some e => failed e
        | None =>
            (Return true,
             with_directory (logs_path E)
               (<["zips" := Dir (delete filename staging)]>
                  (partial_alter (fun _ => dest) model_name logs)) p)
        end
    end.
Proof.
  intros Hlogs Hzips Hfile Hfilename Hmodel Hne Hopen Hunpack.
  pose proof (staging_stable E p logs staging Hlogs Hzips) as Hstaging.
  unfold Tree.extract, try_except, bind at 1, Tree.zip_open.
  rewrite (os_stat_join p _ staging) by (done || apply Hstaging). rewrite Hfile, Hopen.
  unfold bind at 1, Tree.zip_extractall_to.
  rewrite (node_at_join p _ logs) by (done || apply Hlogs). rewrite Hunpack.
  rewrite (write_at_join p _ logs) by (done || apply Hlogs).
  set (logs1 := partial_alter (fun _ => dest) model_name logs).
  pose proof (with_directory_stable p _ logs logs1 Hlogs) as Hlogs1.
  assert (logs1 !! "zips" = Some (Dir staging)) as Hzips1
    by by (unfold logs1; rewrite lookup_partial_alter_ne).
  pose proof (staging_stable E _ logs1 staging Hlogs1 Hzips1) as Hstaging1.
  destruct r as [[]|e]; [|done].
  unfold bind at 1, Tree.os_remove.
  rewrite (os_stat_join _ _ staging) by (done || apply Hstaging1). rewrite Hfile.
  destruct (remove_error E _) as [e|]; [done |]. unfold bind, ret. simpl. f_equal.
  rewrite (write_at_join _ _ staging) by (done || apply Hstaging1).
  rewrite (with_directory_staging E _ logs1) by apply Hlogs1.
  by rewrite (with_directory_twice p _ logs).
Qed.

Lemma with_directory_model p dir d name c :
  os_stat p dir = Return (Dir d) -> plain_name name ->
  with_directory (os_path_join dir name) c p = with_directory dir (<[name := Dir c]> d) p.
Proof.
  intros Hdir Hname. unfold with_directory at 1. by rewrite (write_at_join p dir d).
Qed.

Lemma search_pth_index_directory order folder d log :
  search_pth_index order folder (Some (Dir d)) log
  = ((search_pth_index order folder (Some (Dir d)) []).1, log).
Proof. done. Qed.

(** X18: the whole extraction stage, when all goes well.  The
    directory [logs_path] holds the staging directory and the model name
    is a plain name other than [zips].  The first archive of the listing
    is unpacked into the directory of the model and deleted from the
    staging directory, the directory of the model is normalised, one
    line is logged, and the two lists returned are those of
    [search_pth_index] on the normalised directory. *)
Theorem handle_extraction_process_done (E : env)
    (order : list string -> list string) (format_title : string -> string) (p : pipeline)
    (logs staging : gmap string node) (pre post : list string) (filename bytes : string)
    (d d' : gmap string node) :
  let model_name := format_title (str_before ".zip" filename) in
  let extract_folder_path := os_path_join (logs_path E) model_name in
  stable_directory p (logs_path E) logs ->
  logs !! "zips" = Some (Dir staging) ->
  os_listdir order staging = (pre ++ filename :: post)%list ->
  Forall (fun f : string => str_endswith ".zip" f = false) pre ->
  str_endswith ".zip" filename = true ->
  str_in "/" filename = false ->
  staging !! filename = Some (File bytes) ->
  plain_name model_name ->
  model_name <> "zips" ->
  zip_open_error E bytes = None ->
  zip_extractall E bytes extract_folder_path (logs !! model_name)
  = (Return tt, Some (Dir d)) ->
  remove_error E (os_path_join (zips_path E) filename) = None ->
  clean_extracted_files order extract_folder_path model_name d = (Return tt, d') ->
  exists pth_paths index_paths,
    search_pth_index order extract_folder_path (Some (Dir d')) []
    = (Return (pth_paths, index_paths), [])
    /\ handle_extraction_process E order format_title p
       = (Return (Paths pth_paths index_paths),
          log_append ("INFO - Model " +:+ model_name +:+ " downloaded!")
            (with_directory extract_folder_path d'
               (with_directory (zips_path E) (delete filename staging) p))).
Proof.
  intros model_name extract_folder_path Hlogs Hzips Hlisting Hpre Hzip Hplain Hfile Hmodel Hne
    Hopen Hunpack Hremove Hclean.
  eexists _, _. split; [done |]. subst model_name extract_folder_path.
  set (model_name := format_title (str_before ".zip" filename)) in *.
  pose proof (staging_stable E p logs staging Hlogs Hzips) as Hstaging.
  rewrite (handle_extraction_process_listing E order _ p staging) by apply Hstaging.
  rewrite Hlisting, handle_extraction_loop_first, handle_zip_model_name by done.
  cbv zeta. fold model_name. unfold bind at 1.
  rewrite (extract_unpacked E p logs staging filename bytes model_name (Return tt)
             (Some (Dir d))) by (done || by apply zip_name_plain).
  cbv zeta. rewrite Hremove.
  set (logs2 := <["zips" := Dir (delete filename staging)]>
                  (partial_alter (fun _ => Some (Dir d)) model_name logs)).
  pose proof (with_directory_stable p _ logs logs2 Hlogs) as Hlogs2.
  assert (logs2 !! model_name = Some (Dir d)) as Hmodel2.
  { unfold logs2. rewrite lookup_insert_ne by done. by rewrite lookup_partial_alter_eq. }
  pose proof (stable_directory_join _ _ logs2 model_name d Hlogs2 Hmodel Hmodel2) as Hdir.
  unfold bind at 1. rewrite (clean_extracted_files_at_run order _ model_name _ d Hdir), Hclean.
  simpl. unfold bind at 1, logging_info, modify.
  pose proof (with_directory_stable _ _ d d' Hdir) as [Hstat' _].
  unfold bind at 1. rewrite search_pth_index_at_run.
  assert (forall q line, node_at (log_append line q) (os_path_join (logs_path E) model_name)
                         = node_at q (os_path_join (logs_path E) model_name)) as Hlog by done.
  rewrite Hlog. unfold node_at at 1 2. rewrite Hstat'.
  rewrite search_pth_index_directory. simpl. unfold ret. f_equal.
  assert (with_directory (os_path_join (logs_path E) model_name) d'
            (with_directory (logs_path E) logs2 p)
          = with_directory (os_path_join (logs_path E) model_name) d'
              (with_directory (zips_path E) (delete filename staging) p)) as <-.
  { rewrite (with_directory_staging E p logs) by apply Hlogs.
    pose proof (with_directory_stable p _ logs
                  (<["zips" := Dir (delete filename staging)]> logs) Hlogs) as Hlogs3.
    rewrite (with_directory_model _ _ logs2) by (done || apply Hlogs2).
    rewrite (with_directory_model _ _ (<["zips" := Dir (delete filename staging)]> logs))
      by (done || apply Hlogs3).
    rewrite !(with_directory_twice p _ logs) by done. f_equal.
    unfold logs2. apply map_eq. intros i.
    destruct (decide (i = model_name)) as [-> | Hi]; [by rewrite !lookup_insert_eq |].
    rewrite !(lookup_insert_ne _ model_name) by done.
    destruct (decide (i = "zips")) as [-> | Hi']; [by rewrite !lookup_insert_eq |].
    rewrite !(lookup_insert_ne _ "zips") by done. by rewrite lookup_partial_alter_ne. }
  done.
Qed.

Lemma handle_extraction_process_done_example :
  handle_extraction_process
    (with_zip (test_env (Raise (OSError "offline")) (fun _ => None))
       (fun _ _ _ => (Return tt, Some (Dir {[ "wrapper" := Dir {[ "a.pth" := File "W"; "b.index" := File "I" ]} ]}))))
    id id
    (Pipeline "/srv" (test_tree {[ "zips" := Dir {[ "notes.txt" := File "n"; "My Model.zip" := File "PK" ]} ]}) [])
  = (Return (Paths ["/home/user/.bfrvc/logs/My Model/My Model.pth"]
               ["/home/user/.bfrvc/logs/My Model/My Model.index"]),
     Pipeline "/srv"
       (test_tree
          {[ "zips" := Dir {[ "notes.txt" := File "n" ]};
             "My Model" := Dir {[ "My Model.pth" := File "W"; "My Model.index" := File "I" ]} ]})
       ["INFO - Model My Model downloaded!"]).
Proof.
  destruct (handle_extraction_process_done
    (with_zip (test_env (Raise (OSError "offline")) (fun _ => None))
       (fun _ _ _ => (Return tt, Some (Dir {[ "wrapper" := Dir {[ "a.pth" := File "W"; "b.index" := File "I" ]} ]}))))
    id id
    (Pipeline "/srv" (test_tree {[ "zips" := Dir {[ "notes.txt" := File "n"; "My Model.zip" := File "PK" ]} ]}) [])
    {[ "zips" := Dir {[ "notes.txt" := File "n"; "My Model.zip" := File "PK" ]} ]}
    {[ "notes.txt" := File "n"; "My Model.zip" := File "PK" ]}
    [] ["notes.txt"] "My Model.zip" "PK"
    {[ "wrapper" := Dir {[ "a.pth" := File "W"; "b.index" := File "I" ]} ]}
    {[ "My Model.pth" := File "W"; "My Model.index" := File "I" ]})
    as (pth_paths & index_paths & Hsearch & Hrun); [layout_fact.. |].
  rewrite Hrun. vm_compute in Hsearch. injection Hsearch as <- <-. vm_compute. reflexivity.
Defined.

(** X19: an archive that unpacks to nothing.  When the decoder returns
    and nothing exists at the directory of the model, neither before nor
    after, the archive is deleted all the same, and
    [handle_extraction_process] raises the error of [os.listdir] on the
    missing directory: nothing is logged and nothing is searched. *)
Theorem handle_extraction_process_nothing_unpacked (E : env)
    (order : list string -> list string) (format_title : string -> string) (p : pipeline)
    (logs staging : gmap string node) (pre post : list string) (filename bytes : string) :
  let model_name := format_title (str_before ".zip" filename) in
  let extract_folder_path := os_path_join (logs_path E) model_name in
  stable_directory p (logs_path E) logs ->
  logs !! "zips" = Some (Dir staging) ->
  os_listdir order staging = (pre ++ filename :: post)%list ->
  Forall (fun f : string => str_endswith ".zip" f = false) pre ->
  str_endswith ".zip" filename = true ->
  str_in "/" filename = false ->
  staging !! filename = Some (File bytes) ->
  plain_name model_name ->
  logs !! model_name = None ->
  zip_open_error E bytes = None ->
  zip_extractall E bytes extract_folder_path None = (Return tt, None) ->
  remove_error E (os_path_join (zips_path E) filename) = None ->
  handle_extraction_process E order format_title p
  = (Raise (FileNotFoundError extract_folder_path),
     with_directory (zips_path E) (delete filename staging) p).
Proof.
  intros model_name extract_folder_path Hlogs Hzips Hlisting Hpre Hzip Hplain Hfile Hmodel
    Hnone Hopen Hunpack Hremove.
  subst model_name extract_folder_path.
  set (model_name := format_title (str_before ".zip" filename)) in *.
  assert (model_name <> "zips") as Hne by (intros Heq; rewrite Heq in Hnone; congruence).
  pose proof (staging_stable E p logs staging Hlogs Hzips) as Hstaging.
  rewrite (handle_extraction_process_listing E order _ p staging) by apply Hstaging.
  rewrite Hlisting, handle_extraction_loop_first, handle_zip_model_name by done.
  cbv zeta. fold model_name. unfold bind at 1.
  rewrite (extract_unpacked E p logs staging filename bytes model_name (Return tt) None)
    by (done || (by apply zip_name_plain) || by rewrite Hnone).
  cbv zeta. rewrite Hremove.
  rewrite (partial_alter_same logs model_name None) by done.
  rewrite <- (with_directory_staging E p logs) by apply Hlogs.
  pose proof (with_directory_stable p _ staging (delete filename staging) Hstaging) as Hafter.
  assert (os_stat (with_directory (zips_path E) (delete filename staging) p)
            (os_path_join (logs_path E) model_name)
          = Raise (FileNotFoundError (os_path_join (logs_path E) model_name))) as Hstat.
  { rewrite (with_directory_staging E p logs) by apply Hlogs.
    pose proof (with_directory_stable p _ logs
                  (<["zips" := Dir (delete filename staging)]> logs) Hlogs) as [Hlogs' _].
    rewrite (os_stat_join _ _ _ model_name Hlogs' Hmodel).
    by rewrite lookup_insert_ne, Hnone. }
  unfold bind at 1, clean_extracted_files_at, bind at 1, in_directory. by rewrite Hstat.
Qed.

Lemma handle_extraction_process_nothing_unpacked_example :
  handle_extraction_process (test_env (Raise (OSError "offline")) (fun _ => None)) id id
    (Pipeline "/srv" (test_tree {[ "zips" := Dir {[ "notes.txt" := File "n"; "My Model.zip" := File "PK" ]} ]}) [])
  = (Raise (FileNotFoundError "/home/user/.bfrvc/logs/My Model"),
     Pipeline "/srv" (test_tree {[ "zips" := Dir {[ "notes.txt" := File "n" ]} ]}) []).
Proof.
  rewrite (handle_extraction_process_nothing_unpacked (test_env (Raise (OSError "offline")) (fun _ => None)) id id
    (Pipeline "/srv" (test_tree {[ "zips" := Dir {[ "notes.txt" := File "n"; "My Model.zip" := File "PK" ]} ]}) [])
    {[ "zips" := Dir {[ "notes.txt" := File "n"; "My Model.zip" := File "PK" ]} ]}
    {[ "notes.txt" := File "n"; "My Model.zip" := File "PK" ]}
    [] ["notes.txt"] "My Model.zip" "PK"); [| layout_fact..].
  vm_compute. reflexivity.
Defined.

(** X20: when the normaliser raises on what was unpacked,
    [handle_extraction_process] raises the same error.  By then the
    archive is deleted; the directory of the model is left as the
    normaliser left it, no line is logged and nothing is searched. *)
Theorem handle_extraction_process_normaliser_raises (E : env)
    (order : list string -> list string) (format_title : string -> string) (p : pipeline)
    (logs staging : gmap string node) (pre post : list string) (filename bytes : string)
    (d d' : gmap string node) (e : exn) :
  let model_name := format_title (str_before ".zip" filename) in
  let extract_folder_path := os_path_join (logs_path E) model_name in
  stable_directory p (logs_path E) logs ->
  logs !! "zips" = Some (Dir staging) ->
  os_listdir order staging = (pre ++ filename :: post)%list ->
  Forall (fun f : string => str_endswith ".zip" f = false) pre ->
  str_endswith ".zip" filename = true ->
  str_in "/" filename = false ->
  staging !! filename = Some (File bytes) ->
  plain_name model_name ->
  model_name <> "zips" ->
  zip_open_error E bytes = None ->
  zip_extractall E bytes extract_folder_path (logs !! model_name)
  = (Return tt, Some (Dir d)) ->
  remove_error E (os_path_join (zips_path E) filename) = None ->
  clean_extracted_files order extract_folder_path model_name d = (Raise e, d') ->
  handle_extraction_process E order format_title p
  = (Raise e,
     with_directory extract_folder_path d'
       (with_directory (zips_path E) (delete filename staging) p)).
Proof.
  intros model_name extract_folder_path Hlogs Hzips Hlisting Hpre Hzip Hplain Hfile Hmodel Hne
    Hopen Hunpack Hremove Hclean.
  subst model_name extract_folder_path.
  set (model_name := format_title (str_before ".zip" filename)) in *.
  pose proof (staging_stable E p logs staging Hlogs Hzips) as Hstaging.
  rewrite (handle_extraction_process_listing E order _ p staging) by apply Hstaging.
  rewrite Hlisting, handle_extraction_loop_first, handle_zip_model_name by done.
  cbv zeta. fold model_name. unfold bind at 1.
  rewrite (extract_unpacked E p logs staging filename bytes model_name (Return tt)
             (Some (Dir d))) by (done || by apply zip_name_plain).
  cbv zeta. rewrite Hremove.
  set (logs2 := <["zips" := Dir (delete filename staging)]>
                  (partial_alter (fun _ => Some (Dir d)) model_name logs)).
  pose proof (with_directory_stable p _ logs logs2 Hlogs) as Hlogs2.
  assert (logs2 !! model_name = Some (Dir d)) as Hmodel2.
  { unfold logs2. rewrite lookup_insert_ne by done. by rewrite lookup_partial_alter_eq. }
  pose proof (stable_directory_join _ _ logs2 model_name d Hlogs2 Hmodel Hmodel2) as Hdir.
  unfold bind at 1. rewrite (clean_extracted_files_at_run order _ model_name _ d Hdir), Hclean.
  simpl. f_equal.
  rewrite (with_directory_staging E p logs) by apply Hlogs.
  pose proof (with_directory_stable p _ logs
                (<["zips" := Dir (delete filename staging)]> logs) Hlogs) as Hlogs3.
  rewrite (with_directory_model _ _ logs2) by (done || apply Hlogs2).
  rewrite (with_directory_model _ _ (<["zips" := Dir (delete filename staging)]> logs))
    by (done || apply Hlogs3).
  rewrite !(with_directory_twice p _ logs) by done. f_equal.
  unfold logs2. apply map_eq. intros i.
  destruct (decide (i = model_name)) as [-> | Hi]; [by rewrite !lookup_insert_eq |].
  rewrite !(lookup_insert_ne _ model_name) by done.
  destruct (decide (i = "zips")) as [-> | Hi']; [by rewrite !lookup_insert_eq |].
  rewrite !(lookup_insert_ne _ "zips") by done. by rewrite lookup_partial_alter_ne.
Qed.

Lemma handle_extraction_process_normaliser_raises_example :
  handle_extraction_process
    (with_zip (test_env (Raise (OSError "offline")) (fun _ => None))
       (fun _ _ _ => (Return tt, Some (Dir {[ "__MACOSX" := File "x" ]}))))
    id id
    (Pipeline "/srv" (test_tree {[ "zips" := Dir {[ "notes.txt" := File "n"; "My Model.zip" := File "PK" ]} ]}) [])
  = (Raise (NotADirectoryError "/home/user/.bfrvc/logs/My Model/__MACOSX"),
     Pipeline "/srv"
       (test_tree
          {[ "zips" := Dir {[ "notes.txt" := File "n" ]};
             "My Model" := Dir {[ "__MACOSX" := File "x" ]} ]})
       []).
Proof.
  rewrite (handle_extraction_process_normaliser_raises
    (with_zip (test_env (Raise (OSError "offline")) (fun _ => None))
       (fun _ _ _ => (Return tt, Some (Dir {[ "__MACOSX" := File "x" ]}))))
    id id
    (Pipeline "/srv" (test_tree {[ "zips" := Dir {[ "notes.txt" := File "n"; "My Model.zip" := File "PK" ]} ]}) [])
    {[ "zips" := Dir {[ "notes.txt" := File "n"; "My Model.zip" := File "PK" ]} ]}
    {[ "notes.txt" := File "n"; "My Model.zip" := File "PK" ]}
    [] ["notes.txt"] "My Model.zip" "PK"
    {[ "__MACOSX" := File "x" ]} {[ "__MACOSX" := File "x" ]}
    (NotADirectoryError "/home/user/.bfrvc/logs/My Model/__MACOSX")); [| layout_fact..].
  vm_compute. reflexivity.
Defined.

(** *** Model names that lead elsewhere *)

(** An archive [zips.zip] is unpacked into the staging directory itself,
    which is then normalised; an archive [.zip] is unpacked into
    [logs_path], where the staging directory is the one subdirectory
    that the normaliser hoists and removes; an archive [...zip] is
    unpacked into the directory above, where [logs_path] is hoisted and
    the path of the model directory, which goes through it, leads
    nowhere when the renaming starts. *)
Example handle_extraction_process_model_names :
  let E := with_zip (test_env (Raise (OSError "offline")) (fun _ => None))
             (fun _ _ dest =>
                (Return tt,
                 Some (Dir (<["a.pth" := File "W"]>
                              match dest with Some (Dir d) => d | _ => ∅ end)))) in
  handle_extraction_process E id id
    (Pipeline "/srv"
       (test_tree {[ "zips" := Dir {[ "notes.txt" := File "n"; "zips.zip" := File "PK" ]} ]}) [])
  = (Return (Paths ["/home/user/.bfrvc/logs/zips/zips.pth"] []),
     Pipeline "/srv"
       (test_tree {[ "zips" := Dir {[ "notes.txt" := File "n"; "zips.pth" := File "W" ]} ]})
       ["INFO - Model zips downloaded!"])
  /\ handle_extraction_process E id id
       (Pipeline "/srv"
          (test_tree {[ "zips" := Dir {[ "notes.txt" := File "n"; ".zip" := File "PK" ]} ]}) [])
     = (Return (Paths ["/home/user/.bfrvc/logs/.pth"] []),
        Pipeline "/srv" (test_tree {[ "notes.txt" := File "n"; ".pth" := File "W" ]})
          ["INFO - Model  downloaded!"])
  /\ handle_extraction_process E id id
       (Pipeline "/srv"
          (test_tree {[ "zips" := Dir {[ "notes.txt" := File "n"; "...zip" := File "PK" ]} ]}) [])
     = (Raise (FileNotFoundError "/home/user/.bfrvc/logs/.."),
        Pipeline "/srv"
          {[ "home" := Dir {[ "user" := Dir {[ ".bfrvc" :=
               Dir {[ "a.pth" := File "W"; "zips" := Dir {[ "notes.txt" := File "n" ]} ]} ]} ]};
             "srv" := Dir ∅ ]}
          []).
Proof. repeat split; vm_compute; reflexivity. Qed.

(** *** What happens to the staging directory *)

Lemma keeps_staging_bind (E : env) {A B} (m : M pipeline A) (k : A -> M pipeline B) :
  keeps_staging E m -> (forall a, keeps_staging E (k a)) -> keeps_staging E (bind m k).
Proof.
  intros Hm Hk wd staging q Hq. unfold bind. specialize (Hm wd staging q Hq).
  destruct (m q) as [[a|e] q1]; simpl in *; [|done]. by apply Hk.
Qed.

Lemma keeps_staging_ret (E : env) {A} (a : A) : keeps_staging E (ret a).
Proof. by intros wd staging q. Qed.

Lemma keeps_staging_log (E : env) (line : string) : keeps_staging E (modify (log_append line)).
Proof. by intros wd staging q. Qed.

Lemma keeps_staging_get_state (E : env) : keeps_staging E get_state.
Proof. by intros wd staging q. Qed.

Lemma keeps_staging_in_log (E : env) {A} (m : M (list string) A) : keeps_staging E (in_log m).
Proof.
  intros wd staging q Hq. unfold in_log. destruct (m (logged q)) as [r l]. simpl.
  destruct q as [wd' root' log']. exact Hq.
Qed.

(** A step of the normaliser at a directory of [logs_path] other than
    the staging directory. *)
Lemma keeps_staging_in_directory (E : env) {A} name (m : M (gmap string node) A) :
  plain_name name -> name <> "zips" ->
  keeps_staging E (in_directory (os_path_join (logs_path E) name) m).
Proof.
  intros Hname Hne wd staging q (Hwd & logs & Hlogs & Hzips). unfold in_directory.
  rewrite (os_stat_join q _ logs) by (done || apply Hlogs).
  destruct (logs !! name) as [[data|d]|] eqn:Hentry; simpl;
    [by split; [|exists logs] | | by split; [|exists logs]].
  destruct (m d) as [r d']. simpl.
  assert (write_at (os_path_join (logs_path E) name) (Some (Dir d')) q
          = with_directory (logs_path E) (<[name := Dir d']> logs) q) as ->.
  { by rewrite (write_at_join q _ logs) by (done || apply Hlogs). }
  split.
  - rewrite <- Hwd. unfold with_directory, write_at. by destruct (locate q _ true).
  - exists (<[name := Dir d']> logs). split; [by apply (with_directory_stable q _ logs) |].
    by rewrite lookup_insert_ne.
Qed.

(** [extract] deletes the archive from the staging directory or leaves
    the staging directory as it was. *)
Lemma extract_staging (E : env) wd staging q filename name :
  staging_holds E wd staging q ->
  plain_name filename -> plain_name name -> name <> "zips" ->
  staging_holds E wd staging
    (Tree.extract E (os_path_join (zips_path E) filename) (os_path_join (logs_path E) name) q).2
  \/ staging_holds E wd (delete filename staging)
       (Tree.extract E (os_path_join (zips_path E) filename)
          (os_path_join (logs_path E) name) q).2.
Proof.
  intros (Hwd & logs & Hlogs & Hzips) Hfilename Hname Hne.
  pose proof (staging_stable E q logs staging Hlogs Hzips) as Hstaging.
  assert (forall line, staging_holds E wd staging (log_append line q)) as Hfailed.
  { intros line. split; [done |]. by exists logs. }
  assert (forall logs', working_directory (with_directory (logs_path E) logs' q) = wd) as Hwd'.
  { intros logs'. rewrite <- Hwd. unfold with_directory, write_at. by destruct (locate q _ true). }
  destruct (staging !! filename) as [[bytes|d]|] eqn:Hfile.
  - destruct (zip_open_error E bytes) as [e|] eqn:Hopen.
    + left. unfold Tree.extract, try_except, bind at 1, Tree.zip_open.
      rewrite (os_stat_join q _ staging) by (done || apply Hstaging). rewrite Hfile, Hopen.
      apply Hfailed.
    + destruct (zip_extractall E bytes (os_path_join (logs_path E) name) (logs !! name))
        as [r dest] eqn:Hunpack.
      rewrite (extract_unpacked E q logs staging filename bytes name r dest) by done.
      cbv zeta.
      set (logs1 := partial_alter (fun _ => dest) name logs).
      assert (staging_holds E wd staging (with_directory (logs_path E) logs1 q)) as Hunpacked.
      { split; [apply Hwd' |]. exists logs1.
        split; [by apply (with_directory_stable q _ logs) |].
        unfold logs1. by rewrite lookup_partial_alter_ne. }
      assert (forall line,
        staging_holds E wd staging (log_append line (with_directory (logs_path E) logs1 q)))
        as Hfailed1.
      { intros line. destruct Hunpacked as (? & logs' & ? & ?). split; [done |]. by exists logs'. }
      destruct r as [[]|e]; [|left; apply Hfailed1].
      destruct (remove_error E _) as [e|]; [left; apply Hfailed1 |].
      right. simpl. split; [apply Hwd' |]. eexists. split.
      * by apply (with_directory_stable q _ logs).
      * by rewrite lookup_insert_eq.
  - left. unfold Tree.extract, try_except, bind at 1, Tree.zip_open.
    rewrite (os_stat_join q _ staging) by (done || apply Hstaging). rewrite Hfile.
    apply Hfailed.
  - left. unfold Tree.extract, try_except, bind at 1, Tree.zip_open.
    rewrite (os_stat_join q _ staging) by (done || apply Hstaging). rewrite Hfile.
    apply Hfailed.
Qed.

Lemma handle_extraction_loop_cases (E : env) order format_title listing :
  Forall (fun f : string => str_endswith ".zip" f = false) listing
  \/ exists filename,
      filename ∈ listing /\ str_endswith ".zip" filename = true
      /\ handle_extraction_loop E order format_title listing ""
         = handle_zip E order format_title filename.
Proof.
  induction listing as [|f listing IH]; [by left |].
  destruct (str_endswith ".zip" f) eqn:Hf.
  - right. exists f. split; [by left |]. split; [done |]. simpl. by rewrite Hf.
  - destruct IH as [Hall | (filename & Hin & Hzip & Hrun)].
    + left. by constructor.
    + right. exists filename. split; [by right |]. split; [done |]. simpl. by rewrite Hf.
Qed.

Lemma staging_holds_node_at (E : env) wd staging q :
  staging_holds E wd staging q -> node_at q (zips_path E) = Some (Dir staging).
Proof.
  intros (_ & logs & Hlogs & Hzips). unfold zips_path.
  rewrite (node_at_join q _ logs) by (apply Hlogs || apply plain_name_zips). done.
Qed.

Lemma staging_cases_bind (E : env) wd z z' {A B} (m : M pipeline A) (k : A -> M pipeline B) q :
  staging_holds E wd z (m q).2 \/ staging_holds E wd z' (m q).2 ->
  (forall a, keeps_staging E (k a)) ->
  staging_holds E wd z (bind m k q).2 \/ staging_holds E wd z' (bind m k q).2.
Proof.
  intros Hm Hk. unfold bind. destruct (m q) as [[a|e] q1]; simpl in *; [|done].
  destruct Hm as [Hm | Hm]; [left | right]; by apply Hk.
Qed.

Lemma handle_zip_staging (E : env) order format_title wd staging q filename :
  staging_holds E wd staging q ->
  str_endswith ".zip" filename = true ->
  str_in "/" filename = false ->
  plain_name (format_title (str_before ".zip" filename)) ->
  format_title (str_before ".zip" filename) <> "zips" ->
  staging_holds E wd staging (handle_zip E order format_title filename q).2
  \/ staging_holds E wd (delete filename staging) (handle_zip E order format_title filename q).2.
Proof.
  intros Hq Hzip Hplain Hmodel Hne. rewrite handle_zip_model_name by done. cbv zeta.
  apply staging_cases_bind.
  - by apply extract_staging; [| apply zip_name_plain | |].
  - intros success. destruct success; repeat (apply keeps_staging_bind; [|intros ?]);
      first [ apply keeps_staging_ret | apply keeps_staging_log
            | apply keeps_staging_get_state | apply keeps_staging_in_log
            | by apply keeps_staging_in_directory ].
Qed.

(** X16: one call of [handle_extraction_process] deals with one archive
    at most.  With the staging directory in [logs_path], and a plain
    model name other than [zips] for every archive it holds: whatever
    the call returns or raises, it leaves the working directory where it
    was, and the staging directory is afterwards as it was before, or as
    it was but for one entry, whose name ends in [.zip] and which is
    deleted. *)
Theorem handle_extraction_process_one_archive (E : env) (order : list string -> list string)
    (format_title : string -> string) (p : pipeline) (logs staging : gmap string node) :
  stable_directory p (logs_path E) logs ->
  logs !! "zips" = Some (Dir staging) ->
  (forall filename,
      filename ∈ os_listdir order staging -> str_endswith ".zip" filename = true ->
      str_in "/" filename = false
      /\ plain_name (format_title (str_before ".zip" filename))
      /\ format_title (str_before ".zip" filename) <> "zips") ->
  working_directory (handle_extraction_process E order format_title p).2 = working_directory p
  /\ (node_at (handle_extraction_process E order format_title p).2 (zips_path E)
      = Some (Dir staging)
      \/ exists filename,
          str_endswith ".zip" filename = true
          /\ node_at (handle_extraction_process E order format_title p).2 (zips_path E)
             = Some (Dir (delete filename staging))).
Proof.
  intros Hlogs Hzips Hnames.
  assert (staging_holds E (working_directory p) staging p) as Hp by (split; [done | by exists logs]).
  pose proof (staging_stable E p logs staging Hlogs Hzips) as Hstaging.
  rewrite (handle_extraction_process_listing E order _ p staging) by apply Hstaging.
  destruct (handle_extraction_loop_cases E order format_title (os_listdir order staging))
    as [Hall | (filename & Hin & Hzip & ->)].
  - rewrite handle_extraction_loop_no_zip by done. simpl. split; [done |]. left.
    by apply (staging_holds_node_at E (working_directory p)).
  - destruct (Hnames filename Hin Hzip) as (Hplain & Hmodel & Hne).
    destruct (handle_zip_staging E order format_title _ staging p filename Hp Hzip Hplain
                Hmodel Hne) as [Hq | Hq].
    + split; [apply Hq |]. left. by apply (staging_holds_node_at E (working_directory p)).
    + split; [apply Hq |]. right. exists filename. split; [done |].
      by apply (staging_holds_node_at E (working_directory p)).
Qed.

Lemma handle_extraction_process_one_archive_example :
  working_directory
    (handle_extraction_process
       (with_zip (test_env (Raise (OSError "offline")) (fun _ => None))
          (fun _ _ _ => (Return tt, Some (Dir {[ "wrapper" := Dir {[ "a.pth" := File "W"; "b.index" := File "I" ]} ]}))))
       id id
       (Pipeline "/srv" (test_tree {[ "zips" := Dir {[ "notes.txt" := File "n"; "My Model.zip" := File "PK" ]} ]}) [])).2
  = "/srv"
  /\ (node_at
        (handle_extraction_process
           (with_zip (test_env (Raise (OSError "offline")) (fun _ => None))
              (fun _ _ _ => (Return tt, Some (Dir {[ "wrapper" := Dir {[ "a.pth" := File "W"; "b.index" := File "I" ]} ]}))))
           id id
           (Pipeline "/srv" (test_tree {[ "zips" := Dir {[ "notes.txt" := File "n"; "My Model.zip" := File "PK" ]} ]}) [])).2
        "/home/user/.bfrvc/logs/zips"
      = Some (Dir {[ "notes.txt" := File "n"; "My Model.zip" := File "PK" ]})
      \/ exists filename,
          str_endswith ".zip" filename = true
          /\ node_at
               (handle_extraction_process
                  (with_zip (test_env (Raise (OSError "offline")) (fun _ => None))
                     (fun _ _ _ => (Return tt, Some (Dir {[ "wrapper" := Dir {[ "a.pth" := File "W"; "b.index" := File "I" ]} ]}))))
                  id id
                  (Pipeline "/srv" (test_tree {[ "zips" := Dir {[ "notes.txt" := File "n"; "My Model.zip" := File "PK" ]} ]}) [])).2
               "/home/user/.bfrvc/logs/zips"
             = Some (Dir (delete filename
                            ({[ "notes.txt" := File "n"; "My Model.zip" := File "PK" ]}
                             : gmap string node)))).
Proof.
  refine (handle_extraction_process_one_archive
    (with_zip (test_env (Raise (OSError "offline")) (fun _ => None))
       (fun _ _ _ => (Return tt, Some (Dir {[ "wrapper" := Dir {[ "a.pth" := File "W"; "b.index" := File "I" ]} ]}))))
    id id
    (Pipeline "/srv" (test_tree {[ "zips" := Dir {[ "notes.txt" := File "n"; "My Model.zip" := File "PK" ]} ]}) [])
    {[ "zips" := Dir {[ "notes.txt" := File "n"; "My Model.zip" := File "PK" ]} ]}
    {[ "notes.txt" := File "n"; "My Model.zip" := File "PK" ]}
    _ _ _); [layout_fact | layout_fact |].
  intros filename Hin Hzip. vm_compute in Hin.
  apply elem_of_cons in Hin as [-> | Hin]; [layout_fact |].
  apply list_elem_of_singleton in Hin as ->. vm_compute in Hzip. discriminate.
Defined.

(** *** The entry point *)

(** X21: [model_download] never raises: whatever the fetch and the
    extraction do, it returns the lists or the error string. *)
Theorem model_download_returns (E : env) (order : list string -> list string)
    (format_title : string -> string) (url : string) (p : pipeline) :
  exists result p', model_download E order format_title url p = (Return result, p').
Proof.
  unfold model_download, try_except.
  match goal with |- context [match ?body p with _ => _ end] => destruct (body p) as [[r|e] p1] end.
  - by eexists _, _.
  - by eexists _, _.
Qed.

(** X22: unless the fetch reports [downloaded], [model_download] returns
    the error string and extracts nothing, whatever the staging directory
    holds: the tree is as the fetch left it.  When the fetch returned
    [None] nothing more is logged; when it raised, as it does when its
    [finally] clause fails, the error is logged as unexpected. *)
Theorem model_download_fetch_failed (E : env) (order : list string -> list string)
    (format_title : string -> string) (url : string) (p : pipeline)
    (loc : list string) (staging : gmap string node) (w : world) :
  leads_to p (zips_path E) loc staging ->
  (download_from_url E url (World (working_directory p) staging (logged p)) = (Return None, w) ->
   model_download E order format_title url p
   = (Return ErrorString,
      Pipeline (cwd w) (tree_write loc (Some (Dir (zips w))) (root p)) (log_lines w)))
  /\ (forall e,
      download_from_url E url (World (working_directory p) staging (logged p)) = (Raise e, w) ->
      model_download E order format_title url p
      = (Return ErrorString,
         Pipeline (cwd w) (tree_write loc (Some (Dir (zips w))) (root p))
           (log_lines w ++ ["ERROR - An unexpected error occurred: " +:+ exn_str e])%list)).
Proof.
  intros (Hpath & Hwalk & Hloc).
  assert (forall r, download_from_url E url (World (working_directory p) staging (logged p))
                    = (r, w) ->
          in_world E (fun E' => download_from_url E' url) p
          = (r, Pipeline (cwd w) (tree_write loc (Some (Dir (zips w))) (root p)) (log_lines w)))
    as Hfetch.
  { intros r Hrun. unfold in_world, locate.
    rewrite bool_decide_false by done. by rewrite Hwalk, Hloc, Hrun. }
  split; [intros Hrun | intros e Hrun];
    unfold model_download, try_except, bind at 1; by rewrite (Hfetch _ Hrun).
Qed.

Lemma model_download_fetch_failed_example :
  model_download (test_env (Raise (OSError "offline")) (fun _ => None)) id id
    "https://drive.google.com/file/d//view"
    (Pipeline "/srv" (test_tree {[ "zips" := Dir {[ "old.zip" := File "PK" ]} ]}) [])
  = (Return ErrorString,
     Pipeline "/srv" (test_tree {[ "zips" := Dir {[ "old.zip" := File "PK" ]} ]})
       ["ERROR - Invalid Google Drive URL"])
  /\ model_download
       (test_env (Raise (OSError "offline"))
          (fun p => if bool_decide (p = "/gone") then Some (FileNotFoundError p) else None))
       id id "https://example.com/model.zip"
       (Pipeline "/gone" (test_tree {[ "zips" := Dir {[ "old.zip" := File "PK" ]} ]}) [])
     = (Return ErrorString,
        Pipeline "/home/user/.bfrvc/logs/zips" (test_tree {[ "zips" := Dir {[ "old.zip" := File "PK" ]} ]})
          ["ERROR - An error occurred downloading the file: offline";
           "ERROR - An unexpected error occurred: [Errno 2] No such file or directory: '/gone'"]).
Proof.
  split.
  - rewrite (proj1 (model_download_fetch_failed (test_env (Raise (OSError "offline")) (fun _ => None)) id id
      "https://drive.google.com/file/d//view"
      (Pipeline "/srv" (test_tree {[ "zips" := Dir {[ "old.zip" := File "PK" ]} ]}) [])
      ["home"; "user"; ".bfrvc"; "logs"; "zips"] {[ "old.zip" := File "PK" ]}
      (World "/srv" {[ "old.zip" := File "PK" ]} ["ERROR - Invalid Google Drive URL"])
      ltac:(layout_fact))); vm_compute; reflexivity.
  - rewrite (proj2 (model_download_fetch_failed
      (test_env (Raise (OSError "offline"))
          (fun p => if bool_decide (p = "/gone") then Some (FileNotFoundError p) else None))
      id id "https://example.com/model.zip"
      (Pipeline "/gone" (test_tree {[ "zips" := Dir {[ "old.zip" := File "PK" ]} ]}) [])
      ["home"; "user"; ".bfrvc"; "logs"; "zips"] {[ "old.zip" := File "PK" ]}
      (World "/home/user/.bfrvc/logs/zips" {[ "old.zip" := File "PK" ]}
         ["ERROR - An error occurred downloading the file: offline"])
      ltac:(layout_fact))
      (FileNotFoundError "/gone")); vm_compute; reflexivity.
Defined.

(** ** The Google Drive strategy *)

(** X23: a Google Drive URL with an identifier that is not empty is
    fetched by [gdown], from the [uc?id=] address of the identifier and
    in the staging directory.  When [gdown] returns, and the staging
    directory holds plain names, the result is [downloaded]; when it
    raises, the error is logged and the result is [None].  Both ways the
    working directory is the one the call started in. *)
Theorem download_from_url_google_drive (E : env) (url file_id : string) (w w1 : world)
    (r : outcome unit) :
  str_in "drive.google.com" url = true ->
  extract_google_drive_id url = Return (Some file_id) ->
  file_id <> "" ->
  getcwd_error E w = None ->
  (forall p w', chdir_error E p w' = None) ->
  gdown_download E ("https://drive.google.com/uc?id=" +:+ file_id)
    (World (zips_path E) (zips w) (log_lines w)) = (r, w1) ->
  (forall current_path zip_files file,
      (current_path, zip_files) ∈ os_walk E (zips_path E) w1 ->
      file ∈ zip_files ->
      str_in "/" file = false) ->
  download_from_url E url w
  = match r with
    | Return _ => (Return (Some "downloaded"), World (cwd w) (zips w1) (log_lines w1))
    | Raise e =>
        (Return None,
         World (cwd w) (zips w1)
           (log_lines w1
              ++ ["ERROR - An error occurred downloading the file: " +:+ exn_str e])%list)
    end.
Proof.
  intros Hdrive Hid Hne Hcwd Hchdir Hgdown Hplain.
  unfold download_from_url, bind at 1, os_getcwd. rewrite Hcwd.
  unfold try_finally, try_except, download_from_url_body, bind at 1, os_chdir at 1.
  rewrite Hchdir, Hdrive. unfold bind at 1, lift. rewrite Hid. simpl.
  rewrite bool_decide_false by done. simpl. unfold bind at 1. rewrite Hgdown.
  destruct r as [[]|e].
  - unfold bind at 1, rename_downloaded_files, bind at 1, get_state.
    rewrite for_each_skip.
    + unfold ret, os_chdir. by rewrite Hchdir.
    + intros [current_path zip_files] Hin. apply for_each_skip. intros file Hfile.
      apply rename_downloaded_file_plain. by apply (Hplain _ _ _ Hin Hfile).
  - unfold bind, logging_error, modify, ret, os_chdir. by rewrite Hchdir.
Qed.

Lemma download_from_url_google_drive_example :
  download_from_url (test_env (Raise (OSError "offline")) (fun _ => None))
    "https://drive.google.com/file/d/1AbC/view?usp=sharing" (World "/srv" ∅ [])
  = (Return (Some "downloaded"), World "/srv" ∅ []).
Proof.
  refine (download_from_url_google_drive (test_env (Raise (OSError "offline")) (fun _ => None))
    "https://drive.google.com/file/d/1AbC/view?usp=sharing" "1AbC" (World "/srv" ∅ [])
    (World "/home/user/.bfrvc/logs/zips" ∅ []) (Return tt) _ _ _ _ _ _ _).
  - reflexivity.
  - vm_compute. reflexivity.
  - discriminate.
  - reflexivity.
  - reflexivity.
  - reflexivity.
  - intros current_path zip_files file Hwalk. by apply elem_of_nil in Hwalk.
Defined.
